(** * google_sheets_store: optional persistence of reservations in a
      remote spreadsheet

    Shallow embedding of [google_sheets_store.py].  Python values that
    reach the module are modelled by [pyval]; the process environment
    and the Streamlit secret store are finite maps; the remote
    spreadsheet is a finite map from worksheet titles to grids of
    string cells, threaded through a small state monad that also
    records every remote call. *)

From Stdlib Require Import String Ascii List ZArith Lia Bool Arith DecimalString DecimalPos.
From stdpp Require Import gmap strings list fin_maps.

Open Scope string_scope.
Open Scope list_scope.

(** ** Python strings *)

Module PyString.

(** [str.isspace] on the ASCII range: tab, newline, vertical tab, form
    feed, carriage return, the four separators 0x1c-0x1f and space.
    Strings are byte strings here, so the non-ASCII whitespace of
    Unicode is outside the model. *)
Definition is_space (a : ascii) : bool :=
  let n := nat_of_ascii a in
  (((9 <=? n) && (n <=? 13)) || ((28 <=? n) && (n <=? 32)))%nat.

Fixpoint lstrip (s : string) : string :=
  match s with
  | EmptyString => EmptyString
  | String a t => if is_space a then lstrip t else s
  end.

Fixpoint rstrip (s : string) : string :=
  match s with
  | EmptyString => EmptyString
  | String a t =>
      match rstrip t with
      | EmptyString => if is_space a then EmptyString else String a EmptyString
      | t' => String a t'
      end
  end.

(** [s.strip()] *)
Definition strip (s : string) : string := rstrip (lstrip s).

Definition lower_ascii (a : ascii) : ascii :=
  let n := nat_of_ascii a in
  if ((65 <=? n) && (n <=? 90))%nat then ascii_of_nat (n + 32) else a.

(** [s.lower()] on ASCII letters. *)
Fixpoint lower (s : string) : string :=
  match s with
  | EmptyString => EmptyString
  | String a t => String (lower_ascii a) (lower t)
  end.

(** [sep.join(parts)] *)
Fixpoint join (sep : string) (parts : list string) : string :=
  match parts with
  | [] => ""
  | [p] => p
  | p :: rest => (p ++ sep ++ join sep rest)%string
  end.

End PyString.

Import PyString.

(** ** Python values *)

(** The values that configuration entries, record fields and table cells
    take: [None] (also standing for a missing table cell, NaN), booleans,
    integers, strings and string-to-string tables.  Floats are outside
    the model. *)
Inductive pyval : Type :=
| PyNone
| PyBool (b : bool)
| PyInt (z : Z)
| PyStr (s : string)
| PyDict (kv : list (string * string)).

#[global] Instance pyval_eq_dec : EqDecision pyval.
Proof. solve_decision. Defined.

(** [str(v)].  For a table this is the repr of a dict of strings, written
    without the escaping of quotes inside keys and values. *)
Definition py_str (v : pyval) : string :=
  match v with
  | PyNone => "None"
  | PyBool true => "True"
  | PyBool false => "False"
  | PyInt z => NilZero.string_of_int (Z.to_int z)
  | PyStr s => s
  | PyDict kv =>
      ("{" ++ join ", " (map (fun p => "'" ++ fst p ++ "': '" ++ snd p ++ "'") kv) ++ "}")%string
  end.

(** Truth value of [v], as tested by [if v:] and [if not v:]. *)
Definition truthy (v : pyval) : bool :=
  match v with
  | PyNone => false
  | PyBool b => b
  | PyInt z => negb (Z.eqb z 0)
  | PyStr s => negb (String.eqb s "")
  | PyDict kv => match kv with [] => false | _ => true end
  end.

(** [dict(v)]: a table is copied, the empty string is an empty sequence
    of pairs, anything else raises ([None]). *)
Definition py_dict (v : pyval) : option pyval :=
  match v with
  | PyDict kv => Some (PyDict kv)
  | PyStr "" => Some (PyDict [])
  | _ => None
  end.

(** A Python [dict] with its insertion order, as records and update
    mappings are iterated in that order. *)
Abbreviation pydict := (list (string * pyval)).

(** [d.get(k, default)] *)
Fixpoint dict_get (d : pydict) (k : string) (default : pyval) : pyval :=
  match d with
  | [] => default
  | (k', v) :: rest => if decide (k' = k) then v else dict_get rest k default
  end.

(** [list(d.keys())] *)
Definition dict_keys (d : pydict) : list string := map fst d.

(** [l.index(x)]: position of the first occurrence, [None] for the
    [ValueError] raised when there is none. *)
Fixpoint list_index (x : string) (l : list string) : option nat :=
  match l with
  | [] => None
  | y :: rest => if decide (y = x) then Some 0 else S <$> list_index x rest
  end.

(** [x in l] *)
Definition list_mem (x : string) (l : list string) : bool :=
  bool_decide (x ∈ l).

(** ** Configuration resolver *)

(** The [streamlit] module as seen by the store: not importable
    ([st is None]), importable with a secret store whose access raises,
    or importable with readable secrets. *)
Inductive streamlit : Type :=
| StMissing
| StSecretsRaise
| StSecrets (secrets : gmap string pyval).

(** Ambient configuration, as it stands when a function is called:
    [os.environ], the [st] global and whether the import of [gspread] and
    [Credentials] succeeded (the two names are bound, or set to [None],
    together).  Within a function the environment is followed through
    the reads of the secret store, which change it ([load_secrets]
    below).  Properties of consecutive calls are stated under one
    configuration, the one in force at each of them; a configuration
    whose secret store has been read stays as it is. *)
Record config : Type := Config {
  environ : gmap string string;
  st : streamlit;
  gspread_imported : bool;
}.

Definition SHEET_RESERVAS_WEB : string := "reservas_web_2026".
Definition SHEET_RESERVAS_HIST : string := "reservas_2026_full".

Definition _secret_get (cfg : config) (name : string) (default : pyval) : pyval :=
  match environ cfg !! name with
  | Some env_val => PyStr env_val
  | None =>
      match st cfg with
      | StMissing => default
      | StSecretsRaise => default
      | StSecrets secrets =>
          match secrets !! name with
          | Some v => v
          | None =>
              match secrets !! lower name with
              | Some v => v
              | None => default
              end
          end
      end
  end.

(** Reading [st.secrets] for the first time loads the secret store, and
    loading it copies every root-level secret that is a string or a
    number into [os.environ], as its string and over what the
    environment holds under that name; a boolean or a table is not
    copied.  [exported v] is the string copied for the secret [v]. *)
Definition exported (v : pyval) : option string :=
  match v with
  | PyStr s => Some s
  | PyInt z => Some (py_str (PyInt z))
  | _ => None
  end.

(** The configuration once the secret store has been read. *)
Definition load_secrets (cfg : config) : config :=
  match st cfg with
  | StSecrets secrets =>
      Config (omap exported secrets ∪ environ cfg) (st cfg) (gspread_imported cfg)
  | _ => cfg
  end.

(** The configuration once [_secret_get name] has returned: the secret
    store has been read when the environment has no value under [name]. *)
Definition secrets_touched (cfg : config) (name : string) : config :=
  match environ cfg !! name with
  | Some _ => cfg
  | None => load_secrets cfg
  end.

Definition true_words : list string := ["1"; "true"; "yes"; "y"; "on"].

Definition _to_bool (value : pyval) : bool :=
  match value with
  | PyBool b => b
  | PyNone => false
  | _ => list_mem (lower (strip (py_str value))) true_words
  end.

Definition sheets_enabled (cfg : config) : bool :=
  _to_bool (_secret_get cfg "USE_GOOGLE_SHEETS" (PyBool false)).

(** ** Worksheets as grids of cells *)

(** A worksheet is the list of its rows from row 1 downward, a row the
    list of its cells from column A rightward; a cell that is not listed
    is empty, and an empty cell holds the empty string.  Rows and columns
    are numbered from 1, as in the client library.

    The operations of module [Grid] give the behaviour of the worksheet
    methods of the client library that the store calls: reads return the
    cells up to the last non-empty one, a write at a cell address covers
    the block of values it is given and nothing else, an append goes
    below the data.  A cell keeps the string that was written to it; how
    the service interprets input entered as by a user (numbers, dates,
    formulas) is outside the model. *)
Abbreviation grid := (list (list string)).

Module Grid.

Definition row (g : grid) (n : nat) : list string := default [] (g !! pred n).

Definition cell (g : grid) (r c : nat) : string := default "" (row g r !! pred c).

(** [l] without its longest suffix of elements that satisfy [p]. *)
Fixpoint drop_end {A} (p : A -> bool) (l : list A) : list A :=
  match l with
  | [] => []
  | x :: t =>
      match drop_end p t with
      | [] => if p x then [] else [x]
      | t' => x :: t'
      end
  end.

(** Drops the empty cells at the end of a list of cells. *)
Definition rstrip_empty (l : list string) : list string :=
  drop_end (fun x => bool_decide (x = "")) l.

Definition blank (r : list string) : bool := bool_decide (rstrip_empty r = []).

(** Drops the blank rows at the end of a grid. *)
Definition rstrip_blank (g : grid) : grid := drop_end blank g.

(** [ws.row_values(n)]: the cells of row [n] up to its last non-empty one. *)
Definition row_values (g : grid) (n : nat) : list string := rstrip_empty (row g n).

(** [ws.col_values(n)]: the cells of column [n] from row 1 down to the
    last non-empty one, empty cells in between as empty strings. *)
Definition col_values (g : grid) (n : nat) : list string :=
  rstrip_empty (map (fun r => default "" (r !! pred n)) g).

(** Right-pads a row with empty cells up to width [w]. *)
Definition pad (w : nat) (r : list string) : list string :=
  r ++ replicate (w - length r) "".

(** [ws.get_all_values()]: every row down to the last non-blank one, each
    padded to the width of the widest. *)
Definition get_all_values (g : grid) : grid :=
  let rows := rstrip_blank (map rstrip_empty g) in
  let w := foldr (fun r acc => max (length r) acc) 0 rows in
  map (pad w) rows.

(** Writing [values] over a row from column A: the cells further right
    keep what they hold. *)
Definition overwrite (old values : list string) : list string :=
  values ++ drop (length values) old.

(** [ws.update("A<n>", [values])]: the one-row block [values] is written
    with its first cell at column A of row [n]. *)
Definition update (g : grid) (n : nat) (values : list string) : grid :=
  if decide (pred n < length g)
  then <[pred n := overwrite (row g n) values]> g
  else g ++ replicate (pred n - length g) [] ++ [values].

(** [ws.append_rows(rows)]: the rows are written below the last row that
    holds a non-empty cell. *)
Definition append_rows (g : grid) (rows : list (list string)) : grid :=
  rstrip_blank g ++ rows.

(** [ws.clear()] *)
Definition clear (g : grid) : grid := [].

End Grid.

(** ** The remote spreadsheet and the calls made to it *)

Inductive call : Type :=
| OpenByKey (key : string)
| Worksheet (title : string)
| AddWorksheet (title : string) (rows cols : nat)
| RowValues (title : string) (n : nat)
| ColValues (title : string) (n : nat)
| GetAllValues (title : string)
| Update (title : string) (n : nat) (values : list string)
| Clear (title : string)
| AppendRow (title : string) (values : list string)
| AppendRows (title : string) (rows : list (list string)).

(** Calls that only fetch from the remote document. *)
Definition is_read (c : call) : bool :=
  match c with
  | Worksheet _ | RowValues _ _ | ColValues _ _ | GetAllValues _ => true
  | _ => false
  end.

(** Calls that change the remote document. *)
Definition is_write (c : call) : bool :=
  match c with
  | AddWorksheet _ _ _ | Update _ _ _ | Clear _ | AppendRow _ _ | AppendRows _ _ => true
  | _ => false
  end.

(** The remote document, by worksheet title, and the calls issued so
    far, oldest first. *)
Record remote : Type := Remote {
  sheets : gmap string grid;
  calls : list call;
}.

(** What a function yields: a returned value or a propagated exception. *)
Inductive result (A : Type) : Type :=
| Ok (a : A)
| Exn.
Arguments Ok {A} a.
Arguments Exn {A}.

(** Computations over the remote document. *)
Definition M (A : Type) : Type := remote -> A * remote.

Definition ret {A} (a : A) : M A := fun s => (a, s).

Definition bind {A B} (m : M A) (k : A -> M B) : M B :=
  fun s => let (a, s') := m s in k a s'.

Notation "'let*' x ':=' m 'in' k" := (bind m (fun x => k))
  (at level 10, x name, m at level 100, k at level 200).
Notation "m ';;' k" := (bind m (fun _ => k))
  (at level 100, k at level 200, right associativity).

Definition grid_of (s : remote) (title : string) : grid :=
  default [] (sheets s !! title).

(** A call that reads [f] off the worksheet [title]. *)
Definition reading {A} (c : call) (title : string) (f : grid -> A) : M A :=
  fun s => (f (grid_of s title), Remote (sheets s) (calls s ++ [c])).

(** A call that replaces the worksheet [title] by [f] of it. *)
Definition writing (c : call) (title : string) (f : grid -> grid) : M unit :=
  fun s => (tt, Remote (<[title := f (grid_of s title)]> (sheets s)) (calls s ++ [c])).

(** [spreadsheet.worksheet(title)]: whether the worksheet exists (the
    lookup raises when it does not). *)
Definition ss_worksheet (title : string) : M bool :=
  fun s => (bool_decide (is_Some (sheets s !! title)),
            Remote (sheets s) (calls s ++ [Worksheet title])).

(** [spreadsheet.add_worksheet(title, rows, cols)]: a new, empty worksheet. *)
Definition ss_add_worksheet (title : string) (rows cols : nat) : M unit :=
  fun s => (tt, Remote (<[title := []]> (sheets s))
                       (calls s ++ [AddWorksheet title rows cols])).

Definition ws_row_values (title : string) (n : nat) : M (list string) :=
  reading (RowValues title n) title (fun g => Grid.row_values g n).

Definition ws_col_values (title : string) (n : nat) : M (list string) :=
  reading (ColValues title n) title (fun g => Grid.col_values g n).

Definition ws_get_all_values (title : string) : M grid :=
  reading (GetAllValues title) title Grid.get_all_values.

Definition ws_update (title : string) (n : nat) (values : list string) : M unit :=
  writing (Update title n values) title (fun g => Grid.update g n values).

Definition ws_clear (title : string) : M unit :=
  writing (Clear title) title Grid.clear.

Definition ws_append_row (title : string) (values : list string) : M unit :=
  writing (AppendRow title values) title (fun g => Grid.append_rows g [values]).

Definition ws_append_rows (title : string) (rows : list (list string)) : M unit :=
  writing (AppendRows title rows) title (fun g => Grid.append_rows g rows).

(** ** Tables *)

(** A [pandas.DataFrame]: the column labels and the rows of cell values,
    every row as wide as the list of labels. *)
Record DataFrame : Type := Frame {
  columns : list string;
  values : list (list pyval);
}.

Module Pandas.

(** [pd.DataFrame(columns=cols)] *)
Definition of_columns (cols : list string) : DataFrame := Frame cols [].

(** [pd.DataFrame(rows, columns=cols)] over rows of strings. *)
Definition of_rows (rows : list (list string)) (cols : list string) : DataFrame :=
  Frame cols (map (map PyStr) rows).

(** [df.empty]: no row or no column. *)
Definition empty (df : DataFrame) : bool :=
  match values df, columns df with
  | [], _ | _, [] => true
  | _, _ => false
  end.

(** [df[c] = ""] for a label [c] that [df] does not have: a new last
    column of empty strings. *)
Definition add_column (df : DataFrame) (c : string) : DataFrame :=
  Frame (columns df ++ [c]) (map (fun r => r ++ [PyStr ""]) (values df)).

(** Positions of the label [c] among [cols], counted from [i]. *)
Fixpoint positions (c : string) (cols : list string) (i : nat) : list nat :=
  match cols with
  | [] => []
  | c' :: rest =>
      if decide (c' = c) then i :: positions c rest (S i) else positions c rest (S i)
  end.

(** [df[cols]]: for each label of [cols] in turn, every column of [df]
    that carries it. *)
Definition select (df : DataFrame) (cols : list string) : DataFrame :=
  let picks := flat_map (fun c => positions c (columns df) 0) cols in
  Frame (map (fun i => default "" (columns df !! i)) picks)
        (map (fun r => map (fun i => default PyNone (r !! i)) picks) (values df)).

(** One cell of [df.fillna("").astype(str)]. *)
Definition cell_str (v : pyval) : string :=
  match v with
  | PyNone => ""
  | _ => py_str v
  end.

(** [df.fillna("").astype(str).values.tolist()] *)
Definition to_string_rows (df : DataFrame) : list (list string) :=
  map (map cell_str) (values df).

End Pandas.

Definition _normalize_df (df : DataFrame) (headers : option (list string)) : DataFrame :=
  match headers with
  | None => df
  | Some cols =>
      let out :=
        fold_left (fun out c =>
                     if list_mem c (columns out) then out else Pandas.add_column out c)
                  cols df in
      Pandas.select out cols
  end.

(** ** The store *)

(** The headers an upsert works with: those given, else the record's
    keys in their order. *)
Definition effective_headers (row : pydict) (headers : option (list string)) : list string :=
  match headers with
  | None => dict_keys row
  | Some hs => hs
  end.

(** The record laid out along [headers]:
    [[str(row.get(c, "")) for c in headers]]. *)
Definition projection (row : pydict) (headers : list string) : list string :=
  map (fun c => py_str (dict_get row c (PyStr ""))) headers.

(** The text written for an update value: [None] becomes empty. *)
Definition update_str (v : pyval) : string :=
  match v with
  | PyNone => ""
  | _ => py_str v
  end.

Section Store.

(** [json.loads], [None] when it raises. *)
Variable json_loads : string -> option pyval.

(** Whether [Credentials.from_service_account_info] builds credentials
    from the document; it raises when it does not, before any exchange
    with the remote service. *)
Variable from_service_account_info : pyval -> bool.

(** Whether the remote service opens the spreadsheet [key] for the
    credentials built from the document; opening raises when it does
    not. *)
Variable authenticate : pyval -> string -> bool.

Definition _service_account_info (cfg : config) : pyval :=
  let from_secrets :=
    match st cfg with
    | StSecrets secrets =>
        match secrets !! "gcp_service_account" with
        | Some v => py_dict v
        | None => None
        end
    | _ => None
    end in
  match from_secrets with
  | Some info => info
  | None =>
      (* the test on [st.secrets] above has loaded the secret store *)
      let raw := _secret_get (load_secrets cfg) "GOOGLE_SERVICE_ACCOUNT_JSON" PyNone in
      if truthy raw then
        match raw with
        | PyStr s => default PyNone (json_loads s)
        | _ => PyNone
        end
      else PyNone
  end.

(** [gspread.authorize(creds)] and [client.open_by_key(key)] for
    credentials built from [info]: the exchange with the remote service. *)
Definition open_by_key (info : pyval) (key : string) : M (result (option string)) :=
  fun s => (if authenticate info key then Ok (Some key) else Exn,
            Remote (sheets s) (calls s ++ [OpenByKey key])).

Definition _open_spreadsheet (cfg : config) : M (result (option string)) :=
  if negb (sheets_enabled cfg) || negb (gspread_imported cfg) || negb (gspread_imported cfg)
  then ret (Ok None)
  else
    let cfg := secrets_touched cfg "USE_GOOGLE_SHEETS" in
    let spreadsheet_id := _secret_get cfg "GOOGLE_SHEETS_SPREADSHEET_ID" PyNone in
    if negb (truthy spreadsheet_id) then ret (Ok None)
    else
      let cfg := secrets_touched cfg "GOOGLE_SHEETS_SPREADSHEET_ID" in
      let info := _service_account_info cfg in
      if negb (truthy info) then ret (Ok None)
      else if negb (from_service_account_info info) then ret Exn
      else open_by_key info (strip (py_str spreadsheet_id)).

(** The configuration in which the connection factory resolves the
    spreadsheet identifier, and the one in which it resolves the
    credentials: the lookups before may have loaded the secret store. *)
Definition config_at_id (cfg : config) : config :=
  secrets_touched cfg "USE_GOOGLE_SHEETS".

Definition config_at_credentials (cfg : config) : config :=
  secrets_touched (config_at_id cfg) "GOOGLE_SHEETS_SPREADSHEET_ID".

(** The spreadsheet identifier, the key it is opened by and the
    credential document that the connection factory resolves. *)
Definition spreadsheet_id (cfg : config) : pyval :=
  _secret_get (config_at_id cfg) "GOOGLE_SHEETS_SPREADSHEET_ID" PyNone.

Definition spreadsheet_key (cfg : config) : string := strip (py_str (spreadsheet_id cfg)).

Definition credentials (cfg : config) : pyval :=
  _service_account_info (config_at_credentials cfg).

(** The four checks of the connection factory: the enable flag, the
    client library, the spreadsheet identifier and the credentials. *)
Definition checks_pass (cfg : config) : bool :=
  sheets_enabled cfg && gspread_imported cfg
  && truthy (spreadsheet_id cfg) && truthy (credentials cfg).

Definition _ensure_worksheet (title : string) (headers : option (list string)) : M unit :=
  let* found := ss_worksheet title in
  (if found then ret tt
   else ss_add_worksheet title 1000 (max 26 (length (default [] headers)))) ;;
  match headers with
  | Some ((_ :: _) as hs) =>
      let* first := ws_row_values title 1 in
      match first with
      | [] => ws_update title 1 hs
      | _ => ret tt
      end
  | _ => ret tt
  end.

Definition read_sheet_df (cfg : config) (sheet_name : string)
    (headers : option (list string)) : M (result DataFrame) :=
  let* spreadsheet := _open_spreadsheet cfg in
  match spreadsheet with
  | Exn => ret Exn
  | Ok None => ret (Ok (Pandas.of_columns (default [] headers)))
  | Ok (Some _) =>
      _ensure_worksheet sheet_name headers ;;
      let* values := ws_get_all_values sheet_name in
      match values with
      | [] => ret (Ok (Pandas.of_columns (default [] headers)))
      | raw_headers :: rows =>
          match rows with
          | [] =>
              ret (Ok (Pandas.of_columns
                         (match headers with
                          | Some ((_ :: _) as hs) => hs
                          | _ => raw_headers
                          end)))
          | _ => ret (Ok (_normalize_df (Pandas.of_rows rows raw_headers) headers))
          end
      end
  end.

Definition chunk : nat := 500.

(** The loop [for i in range(0, len(rows), chunk)] from offset [i] on;
    [fuel] bounds the iterations left. *)
Fixpoint append_chunks (fuel : nat) (title : string) (rows : list (list string))
    (i : nat) : M unit :=
  match fuel with
  | 0 => ret tt
  | S fuel' =>
      if decide (i < length rows) then
        ws_append_rows title (take chunk (drop i rows)) ;;
        append_chunks fuel' title rows (i + chunk)
      else ret tt
  end.

Definition write_sheet_df (cfg : config) (sheet_name : string) (df : DataFrame)
    (headers : option (list string)) : M (result bool) :=
  let* spreadsheet := _open_spreadsheet cfg in
  match spreadsheet with
  | Exn => ret Exn
  | Ok None => ret (Ok false)
  | Ok (Some _) =>
      let target := _normalize_df df headers in
      let headers := match headers with
                     | None => columns target
                     | Some hs => hs
                     end in
      _ensure_worksheet sheet_name (Some headers) ;;
      ws_clear sheet_name ;;
      ws_update sheet_name 1 headers ;;
      if Pandas.empty target then ret (Ok true)
      else
        let rows := Pandas.to_string_rows target in
        append_chunks (length rows) sheet_name rows 0 ;;
        ret (Ok true)
  end.

(** The scan [for i, v in enumerate(existing[1:], start=2)]: the row
    number of the first value of [vs], the first of them being that of row
    [i], that equals [key] once stripped. *)
Fixpoint scan_key (key : string) (vs : list string) (i : nat) : option nat :=
  match vs with
  | [] => None
  | v :: rest => if decide (strip v = key) then Some i else scan_key key rest (S i)
  end.

Definition upsert_sheet_row (cfg : config) (sheet_name : string) (row : pydict)
    (key_col : string) (headers : option (list string)) : M (result bool) :=
  let* spreadsheet := _open_spreadsheet cfg in
  match spreadsheet with
  | Exn => ret Exn
  | Ok None => ret (Ok false)
  | Ok (Some _) =>
      let headers := effective_headers row headers in
      _ensure_worksheet sheet_name (Some headers) ;;
      let key_value := strip (py_str (dict_get row key_col (PyStr ""))) in
      if decide (key_value = "") then ret (Ok false)
      else
        match list_index key_col headers with
        | None => ret (Ok false)
        | Some idx =>
            let key_col_idx := idx + 1 in
            let* existing := ws_col_values sheet_name key_col_idx in
            let row_idx := scan_key key_value (tail existing) 2 in
            let out_row := projection row headers in
            match row_idx with
            | None => ws_append_row sheet_name out_row
            | Some i => ws_update sheet_name i out_row
            end ;;
            ret (Ok true)
        end
  end.

(** The loop [for k, v in updates.items()] over the row copy [current]. *)
Definition apply_updates (headers : list string) (updates : pydict)
    (current : list string) : list string :=
  fold_left (fun cur kv =>
               match list_index (fst kv) headers with
               | Some j => <[j := update_str (snd kv)]> cur
               | None => cur
               end)
            updates current.

Definition update_sheet_fields_by_id (cfg : config) (sheet_name : string)
    (id_value : pyval) (updates : pydict) (key_col : string) : M (result bool) :=
  match updates with
  | [] => ret (Ok false)
  | _ =>
      let* spreadsheet := _open_spreadsheet cfg in
      match spreadsheet with
      | Exn => ret Exn
      | Ok None => ret (Ok false)
      | Ok (Some _) =>
          _ensure_worksheet sheet_name None ;;
          let* headers := ws_row_values sheet_name 1 in
          match list_index key_col headers with
          | None => ret (Ok false)
          | Some idx =>
              let id_idx := idx + 1 in
              let* rows := ws_col_values sheet_name id_idx in
              let id_norm := strip (py_str id_value) in
              match scan_key id_norm (tail rows) 2 with
              | None => ret (Ok false)
              | Some target_row =>
                  let* current := ws_row_values sheet_name target_row in
                  let current :=
                    if decide (length current < length headers)
                    then current ++ replicate (length headers - length current) ""
                    else current in
                  ws_update sheet_name target_row (apply_updates headers updates current) ;;
                  ret (Ok true)
              end
          end
      end
  end.

End Store.

(** ** The bulk sync script *)

Module Sync.

(** Whether the path ends with a separator. *)
Fixpoint ends_with_sep (a : string) : bool :=
  match a with
  | EmptyString => false
  | String c EmptyString => bool_decide (c = "/"%char)
  | String _ t => ends_with_sep t
  end.

(** [os.path.join(a, b)] on POSIX paths. *)
Definition os_path_join (a b : string) : string :=
  match b with
  | String "/"%char _ => b
  | _ =>
      if bool_decide (a = "") || ends_with_sep a then (a ++ b)%string
      else (a ++ "/" ++ b)%string
  end.

(** [str(n)] for a length. *)
Definition str_nat (n : nat) : string := NilZero.string_of_uint (Nat.to_uint n).

Section Main.

Variable json_loads : string -> option pyval.
Variable from_service_account_info : pyval -> bool.
Variable authenticate : pyval -> string -> bool.

(** [os.path.exists] *)
Variable path_exists : string -> bool.

(** [pd.read_csv(path, on_bad_lines="skip")], [Exn] when it raises. *)
Variable read_csv : string -> result DataFrame.

(** The project directory, two levels above the script. *)
Variable ROOT : string.

(** [main()]: the lines printed, in order, and the value returned or the
    exception that escapes. *)
Definition main (cfg : config) : M (list string * result nat) :=
  if negb (sheets_enabled cfg) then
    ret (["Google Sheets no está habilitado. Define USE_GOOGLE_SHEETS=true."], Ok 1)
  else
    let path_hist := os_path_join ROOT "reservas_2026_full.csv" in
    let path_web := os_path_join ROOT "reservas_web_2026.csv" in
    if negb (path_exists path_hist) || negb (path_exists path_web) then
      ret (["No se encuentran los CSV base en el proyecto."], Ok 1)
    else
      let out := ["Leyendo CSV local histórico..."] in
      match read_csv path_hist with
      | Exn => ret (out, Exn)
      | Ok df_hist =>
          let out := out ++ [("Histórico: " ++ str_nat (length (values df_hist))
                              ++ " filas")%string;
                             "Leyendo CSV local web..."] in
          match read_csv path_web with
          | Exn => ret (out, Exn)
          | Ok df_web =>
              let out := out ++ [("Web: " ++ str_nat (length (values df_web))
                                  ++ " filas")%string;
                                 "Escribiendo hoja histórica..."] in
              let* ok_hist := write_sheet_df json_loads from_service_account_info authenticate cfg
                                SHEET_RESERVAS_HIST df_hist (Some (columns df_hist)) in
              match ok_hist with
              | Exn => ret (out, Exn)
              | Ok ok_hist =>
                  let out := out ++ [("Histórico sincronizado: "
                                      ++ py_str (PyBool ok_hist))%string;
                                     "Escribiendo hoja web..."] in
                  let* ok_web := write_sheet_df json_loads from_service_account_info authenticate cfg
                                   SHEET_RESERVAS_WEB df_web (Some (columns df_web)) in
                  match ok_web with
                  | Exn => ret (out, Exn)
                  | Ok ok_web =>
                      let out := out ++ [("Web sincronizado: "
                                          ++ py_str (PyBool ok_web))%string] in
                      if ok_hist && ok_web then
                        ret (out ++ ["Sincronización completada."], Ok 0)
                      else
                        ret (out ++ ["Sincronización incompleta. Revisa credenciales/permisos."],
                             Ok 2)
                  end
              end
          end
      end.

End Main.

End Sync.

(** * Vocabulary of the properties *)

(** The calls issued between the states [s] and [s']. *)
Definition calls_since (s s' : remote) : list call :=
  drop (length (calls s)) (calls s').

(** Number of calls of [cs] that satisfy [p]. *)
Definition count_calls (p : call -> bool) (cs : list call) : nat :=
  length (List.filter p cs).

(** What ensuring a worksheet does to its grid: the header row is
    written when headers are given and row 1 holds no value. *)
Definition init_header (headers : option (list string)) (g : grid) : grid :=
  match headers with
  | Some ((_ :: _) as hs) =>
      match Grid.row_values g 1 with
      | [] => Grid.update g 1 hs
      | _ => g
      end
  | _ => g
  end.

(** The first step of ensuring: look the worksheet up, add it when the
    lookup fails. *)
Definition lookup_or_add (title : string) (cols : nat) : M unit :=
  let* found := ss_worksheet title in
  if found then ret tt else ss_add_worksheet title 1000 cols.

(** The cells of column [n], one per row of the grid. *)
Definition column (g : grid) (n : nat) : list string :=
  map (fun r => default "" (r !! pred n)) g.

(** Row [r] carries [key] in column [col], up to surrounding whitespace. *)
Definition key_matches (g : grid) (col : nat) (key : string) (r : nat) : Prop :=
  strip (Grid.cell g r col) = key.

(** Row [i] is the first data row (row 2 or below) that carries [key]. *)
Definition first_match (g : grid) (col : nat) (key : string) (i : nat) : Prop :=
  2 <= i <= length g /\ key_matches g col key i /\
  forall r, 2 <= r -> r < i -> ~ key_matches g col key r.

(** No data row carries [key]. *)
Definition no_match (g : grid) (col : nat) (key : string) : Prop :=
  forall r, 2 <= r <= length g -> ~ key_matches g col key r.

(** The key an upsert looks for: the record's key value, stripped. *)
Definition record_key (row : pydict) (key_col : string) : string :=
  strip (py_str (dict_get row key_col (PyStr ""))).

(** The row that an append writes: the one below the last non-blank row. *)
Definition append_position (g : grid) : nat := S (length (Grid.rstrip_blank g)).

(** At most one data row carries [key]. *)
Definition at_most_one_match (g : grid) (col : nat) (key : string) : Prop :=
  forall i j, 2 <= i <= length g -> 2 <= j <= length g ->
    key_matches g col key i -> key_matches g col key j -> i = j.

(** Row [r] is the one data row that carries [key]. *)
Definition only_match (g : grid) (col : nat) (key : string) (r : nat) : Prop :=
  2 <= r <= length g /\
  forall j, 2 <= j <= length g -> key_matches g col key j <-> j = r.

(** The row copy of the updater: [current] padded with empty cells up to
    the width of the header. *)
Definition padded (headers current : list string) : list string :=
  if decide (length current < length headers)
  then current ++ replicate (length headers - length current) ""
  else current.

(** The slices [rows[i : i + chunk]] that the write loop takes from
    offset [i] on, [fuel] bounding their number. *)
Fixpoint chunks_from (fuel i : nat) (rows : list (list string)) : list (list (list string)) :=
  match fuel with
  | 0 => []
  | S fuel' =>
      if decide (i < length rows)
      then take chunk (drop i rows) :: chunks_from fuel' (i + chunk) rows
      else []
  end.

(** The batches in which the rows of a bulk write are appended. *)
Definition batches (rows : list (list string)) : list (list (list string)) :=
  chunks_from (length rows) 0 rows.

(** The rows that a bulk write appends: none for an empty table. *)
Definition rows_to_write (target : DataFrame) : list (list string) :=
  if Pandas.empty target then [] else Pandas.to_string_rows target.

(** Each of the rows holds a non-empty cell. *)
Definition no_blank_row (g : grid) : Prop := Forall (fun r => Grid.blank r = false) g.

(** The table that a read builds from the values of a worksheet. *)
Definition table_of_values (vs : grid) (headers : option (list string)) : DataFrame :=
  match vs with
  | [] => Pandas.of_columns (default [] headers)
  | raw_headers :: rows =>
      match rows with
      | [] =>
          Pandas.of_columns
            (match headers with
             | Some ((_ :: _) as hs) => hs
             | _ => raw_headers
             end)
      | _ => _normalize_df (Pandas.of_rows rows raw_headers) headers
      end
  end.

(** The string is made of decimal digits and minus signs. *)
Fixpoint numeric (s : string) : bool :=
  match s with
  | EmptyString => true
  | String a t =>
      let n := nat_of_ascii a in
      (((48 <=? n) && (n <=? 57)) || (n =? 45))%nat && numeric t
  end.

(** No table under [gcp_service_account] that converts to a dict. *)
Definition no_service_account_table (cfg : config) : Prop :=
  forall secrets v, st cfg = StSecrets secrets ->
    secrets !! "gcp_service_account" = Some v -> py_dict v = None.

(** The credential material that a configuration supplies, [json_loads]
    being the parser: the table under [gcp_service_account] of the secret
    store when it converts to a dict; without such a table the parsed,
    non-empty document under [GOOGLE_SERVICE_ACCOUNT_JSON], resolved once
    the secret store has been read. *)
Inductive credential_material (json_loads : string -> option pyval) (cfg : config) :
    pyval -> Prop :=
| material_table (secrets : gmap string pyval) (v info : pyval) :
    st cfg = StSecrets secrets ->
    secrets !! "gcp_service_account" = Some v ->
    py_dict v = Some info ->
    credential_material json_loads cfg info
| material_document (raw : string) (info : pyval) :
    no_service_account_table cfg ->
    _secret_get (load_secrets cfg) "GOOGLE_SERVICE_ACCOUNT_JSON" PyNone = PyStr raw ->
    raw <> "" ->
    json_loads raw = Some info ->
    credential_material json_loads cfg info.

(** The computation changes no worksheet but [title]. *)
Definition only_touches {A} (title : string) (m : M A) : Prop :=
  forall s t, t <> title -> sheets (snd (m s)) !! t = sheets s !! t.

(** The loop of [_normalize_df] that adds the missing columns. *)
Definition add_missing (cols : list string) (df : DataFrame) : DataFrame :=
  fold_left (fun out c =>
               if list_mem c (columns out) then out else Pandas.add_column out c)
            cols df.

(** Every row of the table is as wide as its list of column labels. *)
Definition rectangular (df : DataFrame) : Prop :=
  Forall (fun r => length r = length (columns df)) (values df).

(** The value that normalization puts under the label [c] in the row
    [r] of a table with labels [cols]: the row's value under [c], the
    empty string when the table has no such column. *)
Definition normalized_cell (cols : list string) (r : list pyval) (c : string) : pyval :=
  match list_index c cols with
  | Some i => default PyNone (r !! i)
  | None => PyStr ""
  end.

(** The predicates above are decidable: their quantifiers range over the
    rows of the grid. *)
Definition range_dec (P : nat -> Prop) (dec : forall r, Decision (P r)) (lo hi : nat) :
  Decision (forall r, lo <= r <= hi -> P r).
Proof.
  destruct (decide (Forall P (seq lo (S hi - lo)))) as [Hall|Hnot].
  - left. intros r Hr. rewrite Forall_forall in Hall. apply Hall, elem_of_seq. lia.
  - right. intros H. apply Hnot, Forall_forall. intros r Hr.
    apply elem_of_seq in Hr. apply H. lia.
Defined.

Definition below_dec (P : nat -> Prop) (dec : forall r, Decision (P r)) (lo hi : nat) :
  Decision (forall r, lo <= r -> r < hi -> P r).
Proof.
  destruct (decide (Forall P (seq lo (hi - lo)))) as [Hall|Hnot].
  - left. intros r Hlo Hhi. rewrite Forall_forall in Hall. apply Hall, elem_of_seq. lia.
  - right. intros H. apply Hnot, Forall_forall. intros r Hr.
    apply elem_of_seq in Hr. apply H; lia.
Defined.

#[global] Instance key_matches_dec (g : grid) (col : nat) (key : string) (r : nat) :
  Decision (key_matches g col key r).
Proof. unfold key_matches. apply _. Defined.

#[global] Instance first_match_dec (g : grid) (col : nat) (key : string) (i : nat) :
  Decision (first_match g col key i).
Proof.
  unfold first_match. apply and_dec; [apply _|]. apply and_dec; [apply _|].
  apply below_dec. intros r. apply _.
Defined.

#[global] Instance no_match_dec (g : grid) (col : nat) (key : string) :
  Decision (no_match g col key).
Proof. unfold no_match. apply range_dec. intros r. apply _. Defined.

#[global] Instance at_most_one_match_dec (g : grid) (col : nat) (key : string) :
  Decision (at_most_one_match g col key).
Proof.
  destruct (range_dec
              (fun i => forall j, 2 <= j <= length g ->
                 key_matches g col key i -> key_matches g col key j -> i = j)
              (fun i => range_dec _ (fun j => _) 2 (length g)) 2 (length g))
    as [Hall|Hnot].
  - left. intros i j Hi Hj. by apply Hall.
  - right. intros H. apply Hnot. intros i Hi j Hj. by apply H.
Defined.

#[global] Instance only_match_dec (g : grid) (col : nat) (key : string) (r : nat) :
  Decision (only_match g col key r).
Proof.
  unfold only_match. apply and_dec; [apply _|]. apply range_dec. intros j. apply _.
Defined.

(** ** Concrete data *)

Module Examples.

(** A configuration that enables the store through the environment. *)
Definition cfg_on : config :=
  Config {[ "USE_GOOGLE_SHEETS" := "true";
            "GOOGLE_SHEETS_SPREADSHEET_ID" := " sheet-1 ";
            "GOOGLE_SERVICE_ACCOUNT_JSON" := "service account key document" ]}
         StMissing true.

(** A configuration without the enable flag. *)
Definition cfg_off : config :=
  Config {[ "GOOGLE_SHEETS_SPREADSHEET_ID" := "sheet-1" ]} (StSecrets ∅) true.

(** A service-account key with the fields that credentials are built
    from (the text of the private key stands for a valid one), a parser
    that reads every document as that key, a credentials builder that
    accepts the documents with those fields, and a service that opens
    every spreadsheet. *)
Definition service_key : pyval :=
  PyDict [("type", "service_account");
          ("client_email", "sync@example.iam.gserviceaccount.com");
          ("private_key", "PEM text of the private key");
          ("token_uri", "https://oauth2.googleapis.com/token")].

Definition parse_any (raw : string) : option pyval := Some service_key.

Definition well_formed (info : pyval) : bool :=
  match info with
  | PyDict kv =>
      forallb (fun f => list_mem f (map fst kv)) ["client_email"; "private_key"; "token_uri"]
  | _ => false
  end.

Definition accept_all (info : pyval) (key : string) : bool := true.

Definition web : string := SHEET_RESERVAS_WEB.

(** The worksheet of the scenarios: a header row and two bookings. *)
Definition bookings : remote :=
  Remote {[ web := [["ID_RESERVA"; "NAME"]; ["A1"; "Jo"]; ["A2"; "Ana"]] ]} [].

(** A worksheet with a third column that the records do not list. *)
Definition bookings_wide : remote :=
  Remote {[ web := [["ID_RESERVA"; "NAME"; "NOTE"]; ["A1"; "Jo"; "vip"]] ]} [].

(** A worksheet where two rows carry the same id. *)
Definition bookings_twice : remote :=
  Remote {[ web := [["ID_RESERVA"; "NAME"]; ["A1"; "Jo"]; ["A1"; "Ana"]] ]} [].

Definition jose : pydict := [("ID_RESERVA", PyStr "A1"); ("NAME", PyStr "Jose")].
Definition lee : pydict := [("ID_RESERVA", PyStr " A3 "); ("NAME", PyStr "Lee")].
Definition lee_trimmed : pydict := [("ID_RESERVA", PyStr "A3"); ("NAME", PyStr "Lee B.")].

(** A configuration with the flag set and no spreadsheet identifier. *)
Definition cfg_no_id : config :=
  Config {[ "USE_GOOGLE_SHEETS" := "true" ]} StMissing true.

(** A service that refuses to open any spreadsheet. *)
Definition reject_all (info : pyval) (key : string) : bool := false.

(** A document without worksheets. *)
Definition empty_doc : remote := Remote ∅ [].

(** A table of two columns and two rows, one value missing. *)
Definition guests : DataFrame :=
  Frame ["a"; "b"] [[PyInt 1; PyNone]; [PyStr "x"; PyBool true]].

(** A record whose key is blank once stripped. *)
Definition nameless : pydict := [("ID_RESERVA", PyStr "  "); ("NAME", PyStr "Ghost")].

(** The files of the sync script: a project directory in which every
    path exists, the history file holding one booking and the web file
    another. *)
Definition csv_root : string := "/app".

Definition csv_exists (path : string) : bool := true.

Definition hist_table : DataFrame := Frame ["ID_RESERVA"; "NAME"] [[PyStr "H1"; PyStr "Eva"]].

Definition web_table : DataFrame := Frame ["ID_RESERVA"; "NAME"] [[PyStr "A1"; PyStr "Jo"]].

Definition csv_read (path : string) : result DataFrame :=
  if decide (path = "/app/reservas_2026_full.csv") then Ok hist_table else Ok web_table.

End Examples.

(** * Properties *)

(** ** Running computations *)

Lemma bind_run {A B} (m : M A) (k : A -> M B) (s : remote) :
  bind m k s = k (fst (m s)) (snd (m s)).
Proof. unfold bind. destruct (m s); reflexivity. Qed.

Lemma calls_since_app (s : remote) (m : gmap string grid) (cs : list call) :
  calls_since s (Remote m (calls s ++ cs)) = cs.
Proof. unfold calls_since; simpl. by rewrite drop_app_length. Qed.

Section StoreProperties.

Variable json_loads : string -> option pyval.
Variable from_service_account_info : pyval -> bool.
Variable authenticate : pyval -> string -> bool.

Local Abbreviation open_spreadsheet :=
  (_open_spreadsheet json_loads from_service_account_info authenticate).
Local Abbreviation service_account_info := (_service_account_info json_loads).
Local Abbreviation resolved_credentials := (credentials json_loads).
Local Abbreviation checks := (checks_pass json_loads).

Lemma open_spreadsheet_unfold (cfg : config) (s : remote) :
  open_spreadsheet cfg s =
  if checks cfg
  then if from_service_account_info (resolved_credentials cfg)
       then open_by_key authenticate (resolved_credentials cfg) (spreadsheet_key cfg) s
       else (Exn, s)
  else (Ok None, s).
Proof.
  unfold _open_spreadsheet, checks_pass, credentials, spreadsheet_key, spreadsheet_id,
    config_at_credentials, config_at_id.
  destruct (sheets_enabled cfg), (gspread_imported cfg); simpl; try reflexivity.
  destruct (truthy (_secret_get _ _ PyNone)); simpl; try reflexivity.
  destruct (truthy (service_account_info _)); simpl; try reflexivity.
  destruct (from_service_account_info _); reflexivity.
Qed.

Lemma open_spreadsheet_ok_inv (cfg : config) (s : remote) (key : string) :
  fst (open_spreadsheet cfg s) = Ok (Some key) ->
  open_spreadsheet cfg s = (Ok (Some key), Remote (sheets s) (calls s ++ [OpenByKey key])).
Proof.
  rewrite open_spreadsheet_unfold. destruct (checks cfg); simpl; [|discriminate].
  destruct (from_service_account_info _); simpl; [|discriminate].
  unfold open_by_key. destruct (authenticate _ _); simpl; [|discriminate].
  intros [= <-]. reflexivity.
Qed.

Lemma open_spreadsheet_disabled (cfg : config) (s : remote) :
  sheets_enabled cfg = false -> open_spreadsheet cfg s = (Ok None, s).
Proof.
  intros H. rewrite open_spreadsheet_unfold. unfold checks_pass. by rewrite H.
Qed.

(** The credential resolver returns the material supplied. *)
Lemma service_account_info_material (cfg : config) (info : pyval) :
  credential_material json_loads cfg info -> truthy info = true ->
  service_account_info cfg = info.
Proof.
  intros [secrets v info' Hst Hv Hd|raw info' Hno Hraw Hne Hjson] Hinfo;
    unfold _service_account_info.
  - by rewrite Hst, Hv, Hd.
  - rewrite Hraw, Hjson.
    assert (Ht : truthy (PyStr raw) = true).
    { simpl. destruct (String.eqb_spec raw ""); [congruence|reflexivity]. }
    rewrite Ht. simpl.
    destruct (st cfg) as [| |secrets] eqn:Est; try reflexivity.
    destruct (secrets !! "gcp_service_account") as [v|] eqn:Ev; [|reflexivity].
    by rewrite (Hno secrets v Est Ev).
Qed.

Lemma service_account_info_truthy (cfg : config) :
  truthy (service_account_info cfg) = true ->
  credential_material json_loads cfg (service_account_info cfg).
Proof.
  unfold _service_account_info.
  destruct (match st cfg with
            | StSecrets secrets =>
                match secrets !! "gcp_service_account" with
                | Some v => py_dict v
                | None => None
                end
            | _ => None
            end) as [info|] eqn:Efrom.
  - intros _. destruct (st cfg) as [| |secrets] eqn:Est; try discriminate.
    destruct (secrets !! "gcp_service_account") as [v|] eqn:Ev; [|discriminate].
    by apply (material_table json_loads cfg secrets v info).
  - assert (Hno : no_service_account_table cfg).
    { intros secrets v Hst Hv. rewrite Hst, Hv in Efrom. exact Efrom. }
    destruct (_secret_get (load_secrets cfg) "GOOGLE_SERVICE_ACCOUNT_JSON" PyNone)
      as [|b|z|raw|kv] eqn:Eraw; simpl; try discriminate;
      try (destruct b; discriminate); try (destruct (negb _); discriminate);
      try (destruct kv; discriminate).
    destruct (String.eqb_spec raw "") as [->|Hne]; simpl; [discriminate|].
    destruct (json_loads raw) as [info|] eqn:Ejson; simpl; [|discriminate].
    intros _. by apply (material_document json_loads cfg raw info).
Qed.

Lemma no_material_iff (cfg : config) :
  truthy (service_account_info cfg) = false <->
  ~ (exists info, credential_material json_loads cfg info /\ truthy info = true).
Proof.
  split.
  - intros Hf (info & Hm & Ht). rewrite (service_account_info_material cfg info Hm Ht) in Hf.
    congruence.
  - intros Hno. destruct (truthy (service_account_info cfg)) eqn:E; [|reflexivity].
    exfalso. apply Hno. exists (service_account_info cfg). split; [|exact E].
    by apply service_account_info_truthy.
Qed.

(** C5: the connection factory returns the unavailable sentinel exactly
    when remote persistence is disabled, or the client library is
    missing, or no spreadsheet identifier is configured, or the
    configuration supplies no credential material (no convertible
    [gcp_service_account] table with an entry, and no non-empty
    [GOOGLE_SERVICE_ACCOUNT_JSON] document that parses to a non-empty
    value); it then issues no call.  A credential document that fails to
    parse as JSON counts as no credentials.  When the four checks pass
    the material supplied is what authentication is attempted with:
    building the credentials raises before any call when the document is
    malformed, else the one exchange is made, with the stripped
    identifier as the key, and raises when the service refuses.  A call
    is issued only when the four checks pass. *)
Theorem open_spreadsheet_unavailable_iff (cfg : config) (s : remote) :
  let r := open_spreadsheet cfg s in
  let material := fun info =>
    credential_material json_loads (config_at_credentials cfg) info /\ truthy info = true in
  (fst r = Ok None <->
     sheets_enabled cfg = false \/ gspread_imported cfg = false \/
     truthy (spreadsheet_id cfg) = false \/ ~ (exists info, material info)) /\
  (fst r = Ok None -> snd r = s) /\
  (forall raw,
     no_service_account_table (config_at_credentials cfg) ->
     _secret_get (load_secrets (config_at_credentials cfg))
       "GOOGLE_SERVICE_ACCOUNT_JSON" PyNone = PyStr raw ->
     json_loads raw = None ->
     fst r = Ok None) /\
  (forall info,
     sheets_enabled cfg = true -> gspread_imported cfg = true ->
     truthy (spreadsheet_id cfg) = true -> material info ->
     (from_service_account_info info = false -> r = (Exn, s)) /\
     (from_service_account_info info = true ->
        r = (if authenticate info (spreadsheet_key cfg)
             then Ok (Some (spreadsheet_key cfg)) else Exn,
             Remote (sheets s) (calls s ++ [OpenByKey (spreadsheet_key cfg)])))) /\
  (calls_since s (snd r) <> [] ->
     sheets_enabled cfg = true /\ gspread_imported cfg = true /\
     truthy (spreadsheet_id cfg) = true /\
     exists info, material info /\ from_service_account_info info = true).
Proof.
  cbv zeta. rewrite open_spreadsheet_unfold.
  assert (Hchk : checks cfg = false <->
            sheets_enabled cfg = false \/ gspread_imported cfg = false \/
            truthy (spreadsheet_id cfg) = false \/
            ~ (exists info, credential_material json_loads (config_at_credentials cfg) info
                            /\ truthy info = true)).
  { rewrite <- no_material_iff. unfold checks_pass. fold (resolved_credentials cfg).
    unfold credentials.
    destruct (sheets_enabled cfg), (gspread_imported cfg), (truthy (spreadsheet_id cfg)),
      (truthy (service_account_info (config_at_credentials cfg)));
      simpl; intuition congruence. }
  assert (Hpass : forall info,
            sheets_enabled cfg = true -> gspread_imported cfg = true ->
            truthy (spreadsheet_id cfg) = true ->
            credential_material json_loads (config_at_credentials cfg) info ->
            truthy info = true ->
            checks cfg = true /\ resolved_credentials cfg = info).
  { intros info He Hg Hi Hm Ht.
    pose proof (service_account_info_material _ info Hm Ht) as Hinfo.
    unfold checks_pass, credentials. by rewrite He, Hg, Hi, Hinfo, Ht. }
  assert (Hnil : calls_since s s = []).
  { unfold calls_since. apply drop_all. }
  split; [|split; [|split; [|split]]].
  - split.
    + destruct (checks cfg) eqn:E; simpl.
      * destruct (from_service_account_info _); [|discriminate].
        unfold open_by_key; destruct (authenticate _ _); simpl; discriminate.
      * intros _. by apply Hchk.
    + intros H. apply Hchk in H. by rewrite H.
  - destruct (checks cfg) eqn:E; simpl; [|done].
    destruct (from_service_account_info _); [|discriminate].
    unfold open_by_key; destruct (authenticate _ _); simpl; discriminate.
  - intros raw Hno Hraw Hjson.
    assert (E : checks cfg = false).
    { apply Hchk. do 3 right. intros (info & Hm & Ht).
      destruct Hm as [secrets v info Hst Hv Hd|raw' info _ Hraw' _ Hjson'].
      - rewrite (Hno secrets v Hst Hv) in Hd. discriminate.
      - rewrite Hraw in Hraw'. injection Hraw' as <-. congruence. }
    by rewrite E.
  - intros info He Hg Hi [Hm Ht].
    destruct (Hpass info He Hg Hi Hm Ht) as [-> ->]. split; intros ->; reflexivity.
  - destruct (checks cfg) eqn:E; simpl; [|by rewrite Hnil].
    destruct (from_service_account_info (resolved_credentials cfg)) eqn:Ef;
      simpl; [|by rewrite Hnil].
    intros _. unfold checks_pass in E.
    destruct (sheets_enabled cfg), (gspread_imported cfg), (truthy (spreadsheet_id cfg));
      try discriminate.
    simpl in E. repeat split; try reflexivity.
    exists (resolved_credentials cfg). split; [|exact Ef].
    split; [|exact E]. by apply service_account_info_truthy.
Qed.

Local Abbreviation read_df :=
  (read_sheet_df json_loads from_service_account_info authenticate).
Local Abbreviation write_df :=
  (write_sheet_df json_loads from_service_account_info authenticate).
Local Abbreviation upsert :=
  (upsert_sheet_row json_loads from_service_account_info authenticate).
Local Abbreviation update_fields :=
  (update_sheet_fields_by_id json_loads from_service_account_info authenticate).

(** An absent flag resolves to false: no environment variable, and no
    secret under the name or its lowercase form. *)
Lemma sheets_enabled_absent (cfg : config) :
  environ cfg !! "USE_GOOGLE_SHEETS" = None ->
  (forall secrets, st cfg = StSecrets secrets ->
     secrets !! "USE_GOOGLE_SHEETS" = None /\ secrets !! "use_google_sheets" = None) ->
  sheets_enabled cfg = false.
Proof.
  intros Henv Hsec. unfold sheets_enabled, _secret_get. rewrite Henv.
  destruct (st cfg) as [| |secrets]; try reflexivity.
  destruct (Hsec secrets eq_refl) as [H1 H2]. rewrite H1.
  change (lower "USE_GOOGLE_SHEETS") with "use_google_sheets". by rewrite H2.
Qed.

(** C7: when the enable flag resolves to false, every public operation
    returns its unavailable result (an empty table with the requested
    columns for the read, false for the three writes) and leaves the
    remote state, hence the log of remote calls, as it was. *)
Theorem disabled_operations_are_offline (cfg : config) (sheet_name key_col : string)
    (headers : option (list string)) (df : DataFrame) (row updates : pydict)
    (id_value : pyval) (s : remote) :
  sheets_enabled cfg = false ->
  read_df cfg sheet_name headers s = (Ok (Pandas.of_columns (default [] headers)), s) /\
  write_df cfg sheet_name df headers s = (Ok false, s) /\
  upsert cfg sheet_name row key_col headers s = (Ok false, s) /\
  update_fields cfg sheet_name id_value updates key_col s = (Ok false, s).
Proof.
  intros H. pose proof (open_spreadsheet_disabled cfg s H) as Hopen.
  unfold read_sheet_df, write_sheet_df, upsert_sheet_row, update_sheet_fields_by_id.
  rewrite !bind_run, !Hopen. simpl. repeat split.
  destruct updates; [reflexivity|]. rewrite bind_run, Hopen. reflexivity.
Qed.

(** A configuration whose secret store has been read stays as it is. *)
Lemma load_secrets_idem (cfg : config) : load_secrets (load_secrets cfg) = load_secrets cfg.
Proof.
  unfold load_secrets. destruct (st cfg) as [| |secrets] eqn:Hst; rewrite ?Hst; try reflexivity.
  cbn [st environ gspread_imported]. f_equal.
  apply map_eq. intros name. rewrite !lookup_union.
  by destruct (omap exported secrets !! name), (environ cfg !! name).
Qed.

Lemma secrets_touched_loaded (cfg : config) (name : string) :
  secrets_touched (load_secrets cfg) name = load_secrets cfg.
Proof.
  unfold secrets_touched. destruct (environ (load_secrets cfg) !! name); [reflexivity|].
  apply load_secrets_idem.
Qed.

Lemma lookup_loaded_exported (cfg : config) (secrets : gmap string pyval)
    (name text : string) (v : pyval) :
  st cfg = StSecrets secrets -> secrets !! name = Some v -> exported v = Some text ->
  environ (load_secrets cfg) !! name = Some text.
Proof.
  intros Hst Hv He. unfold load_secrets. rewrite Hst. cbn [environ].
  apply lookup_union_Some_l. by rewrite lookup_omap, Hv.
Qed.

Lemma lookup_loaded_kept (cfg : config) (name : string) :
  (forall secrets v, st cfg = StSecrets secrets -> secrets !! name = Some v ->
     exported v = None) ->
  environ (load_secrets cfg) !! name = environ cfg !! name.
Proof.
  intros Hno. unfold load_secrets. destruct (st cfg) as [| |secrets] eqn:Hst; try reflexivity.
  cbn [environ]. apply lookup_union_r. rewrite lookup_omap.
  destruct (secrets !! name) as [v|] eqn:Hv; [|reflexivity]. cbn.
  by apply (Hno secrets v).
Qed.

(** C8, as amended: for every name, a value that the environment holds
    when the resolver is called is returned in preference to a
    secret-store entry of that name, and the secret store is then not
    read.  Reading the secret store changes the environment: once it has
    been read, a root-level secret that is a string or a number is what a
    lookup of its name returns, whatever the environment held.  For the
    service-account credentials the secret store comes first: a
    convertible [gcp_service_account] table is used whatever the
    environment supplies; without such a table the environment's
    [GOOGLE_SERVICE_ACCOUNT_JSON] document is used only when the secret
    store holds no string or number under that name, and a string secret
    of that name is used in its place when there is one. *)
Theorem environment_precedence_by_name (cfg : config) :
  (forall name default env_val,
     environ cfg !! name = Some env_val ->
     _secret_get cfg name default = PyStr env_val /\ secrets_touched cfg name = cfg) /\
  (forall secrets name v text default,
     st cfg = StSecrets secrets -> secrets !! name = Some v -> exported v = Some text ->
     _secret_get (load_secrets cfg) name default = PyStr text) /\
  (forall secrets v info,
     st cfg = StSecrets secrets ->
     secrets !! "gcp_service_account" = Some v ->
     py_dict v = Some info ->
     service_account_info cfg = info) /\
  (forall raw info,
     no_service_account_table cfg ->
     environ cfg !! "GOOGLE_SERVICE_ACCOUNT_JSON" = Some raw ->
     (forall secrets v, st cfg = StSecrets secrets ->
        secrets !! "GOOGLE_SERVICE_ACCOUNT_JSON" = Some v -> exported v = None) ->
     raw <> "" ->
     json_loads raw = Some info ->
     service_account_info cfg = info) /\
  (forall secrets raw info,
     st cfg = StSecrets secrets ->
     no_service_account_table cfg ->
     secrets !! "GOOGLE_SERVICE_ACCOUNT_JSON" = Some (PyStr raw) ->
     raw <> "" ->
     json_loads raw = Some info ->
     service_account_info cfg = info).
Proof.
  assert (Hdoc : forall raw info,
            no_service_account_table cfg ->
            environ (load_secrets cfg) !! "GOOGLE_SERVICE_ACCOUNT_JSON" = Some raw ->
            raw <> "" -> json_loads raw = Some info ->
            service_account_info cfg = info).
  { intros raw info Hno Henv Hraw Hjson. unfold _service_account_info, _secret_get.
    rewrite Henv.
    assert (Ht : truthy (PyStr raw) = true).
    { simpl. destruct (String.eqb_spec raw ""); [congruence|reflexivity]. }
    rewrite Ht, Hjson. simpl.
    destruct (st cfg) as [| |secrets] eqn:Est; try reflexivity.
    destruct (secrets !! "gcp_service_account") as [v|] eqn:Ev; [|reflexivity].
    by rewrite (Hno secrets v Est Ev). }
  split; [|split; [|split; [|split]]].
  - intros name default env_val H. unfold _secret_get, secrets_touched. by rewrite H.
  - intros secrets name v text default Hst Hv He. unfold _secret_get.
    by rewrite (lookup_loaded_exported cfg secrets name text v Hst Hv He).
  - intros secrets v info Hst Hv Hd. unfold _service_account_info.
    by rewrite Hst, Hv, Hd.
  - intros raw info Hno Henv Hsec Hraw Hjson. apply (Hdoc raw info); try done.
    by rewrite lookup_loaded_kept.
  - intros secrets raw info Hst Hno Hsec Hraw Hjson. apply (Hdoc raw info); try done.
    by apply (lookup_loaded_exported cfg secrets _ raw (PyStr raw)).
Qed.

(** ** The worksheet manager *)

Lemma grid_of_insert (m : gmap string grid) (cs : list call) (title : string) (g : grid) :
  grid_of (Remote (<[title := g]> m) cs) title = g.
Proof. unfold grid_of; simpl. by rewrite lookup_insert_eq. Qed.

Lemma grid_of_calls (m : gmap string grid) (cs cs' : list call) (title : string) :
  grid_of (Remote m cs) title = grid_of (Remote m cs') title.
Proof. reflexivity. Qed.

Lemma grid_of_same (s : remote) (cs : list call) (title : string) :
  grid_of (Remote (sheets s) cs) title = grid_of s title.
Proof. reflexivity. Qed.

Lemma reading_run {A} (c : call) (title : string) (f : grid -> A) (s : remote) :
  reading c title f s = (f (grid_of s title), Remote (sheets s) (calls s ++ [c])).
Proof. reflexivity. Qed.

Lemma writing_run (c : call) (title : string) (f : grid -> grid) (s : remote) :
  writing c title f s =
  (tt, Remote (<[title := f (grid_of s title)]> (sheets s)) (calls s ++ [c])).
Proof. reflexivity. Qed.

Ltac run_store :=
  repeat first
    [ rewrite bind_run
    | rewrite reading_run
    | rewrite writing_run
    | progress unfold ws_row_values, ws_col_values, ws_get_all_values, ws_update,
        ws_clear, ws_append_row, ws_append_rows, ss_worksheet, ss_add_worksheet, ret
    | progress cbn [fst snd sheets calls] ].

Ltac tidy_calls :=
  repeat rewrite <- app_assoc; cbn [app]; try rewrite calls_since_app.

Lemma lookup_or_add_grid (title : string) (cols : nat) (s : remote) :
  grid_of (snd (lookup_or_add title cols s)) title = grid_of s title.
Proof.
  unfold lookup_or_add. run_store.
  destruct (sheets s !! title) as [g|] eqn:E.
  - rewrite bool_decide_true by eauto. reflexivity.
  - rewrite bool_decide_false by (intros [? ?]; congruence).
    cbn. rewrite grid_of_insert. unfold grid_of. by rewrite E.
Qed.

Lemma ensure_worksheet_unfold (title : string) (headers : option (list string)) (s : remote) :
  _ensure_worksheet title headers s =
  match headers with
  | Some ((_ :: _) as hs) =>
      let s1 := snd (lookup_or_add title (max 26 (length (default [] headers))) s) in
      match Grid.row_values (grid_of s1 title) 1 with
      | [] => ws_update title 1 hs (Remote (sheets s1) (calls s1 ++ [RowValues title 1]))
      | _ => (tt, Remote (sheets s1) (calls s1 ++ [RowValues title 1]))
      end
  | _ => lookup_or_add title (max 26 (length (default [] headers))) s
  end.
Proof.
  unfold _ensure_worksheet, lookup_or_add. rewrite !bind_run.
  destruct headers as [[|h hs]|]; cbn [default].
  - unfold ret. by destruct (_ (snd (ss_worksheet title s))) as [[] ?].
  - rewrite bind_run. unfold ws_row_values at 2. rewrite reading_run. cbn [fst snd].
    unfold ws_row_values. rewrite reading_run. cbn [fst snd].
    destruct (Grid.row_values _ 1); reflexivity.
  - unfold ret. by destruct (_ (snd (ss_worksheet title s))) as [[] ?].
Qed.

Lemma ensure_worksheet_grid (title : string) (headers : option (list string)) (s : remote) :
  grid_of (snd (_ensure_worksheet title headers s)) title
  = init_header headers (grid_of s title).
Proof.
  rewrite ensure_worksheet_unfold. unfold init_header.
  destruct headers as [[|h hs]|]; cbn zeta; rewrite ?lookup_or_add_grid; try reflexivity.
  destruct (Grid.row_values (grid_of s title) 1) eqn:Er.
  - unfold ws_update. rewrite writing_run. cbn [snd]. rewrite grid_of_insert.
    f_equal. unfold grid_of at 1; cbn [sheets]. apply lookup_or_add_grid.
  - cbn [snd]. unfold grid_of at 1; cbn [sheets]. apply lookup_or_add_grid.
Qed.

(** Without headers an existing worksheet is only looked up. *)
Lemma ensure_worksheet_existing (title : string) (g : grid) (s : remote) :
  sheets s !! title = Some g ->
  _ensure_worksheet title None s = (tt, Remote (sheets s) (calls s ++ [Worksheet title])).
Proof.
  intros H. unfold _ensure_worksheet. run_store.
  rewrite bool_decide_true by eauto. reflexivity.
Qed.

Lemma lookup_or_add_run (title : string) (cols : nat) (s : remote) :
  lookup_or_add title cols s =
  match sheets s !! title with
  | Some _ => (tt, Remote (sheets s) (calls s ++ [Worksheet title]))
  | None => (tt, Remote (<[title := []]> (sheets s))
                        (calls s ++ [Worksheet title; AddWorksheet title 1000 cols]))
  end.
Proof.
  unfold lookup_or_add. run_store.
  destruct (sheets s !! title) as [g|] eqn:E.
  - rewrite bool_decide_true by eauto. reflexivity.
  - rewrite bool_decide_false by (intros [? ?]; congruence).
    cbn. by rewrite <- app_assoc.
Qed.

(** C9, as amended: ensuring a worksheet issues at most two remote reads
    (the lookup of the worksheet and the read of its first row) and at
    most two remote writes (the creation of the worksheet and the
    initialization of the header row); when the worksheet exists at most
    one write is issued, and without headers the lookup is the only
    read. *)
Theorem ensure_worksheet_call_bounds (title : string) (headers : option (list string))
    (s : remote) :
  let cs := calls_since s (snd (_ensure_worksheet title headers s)) in
  count_calls is_read cs <= 2 /\ count_calls is_write cs <= 2 /\
  (is_Some (sheets s !! title) -> count_calls is_write cs <= 1) /\
  (default [] headers = [] -> count_calls is_read cs = 1 /\ count_calls is_write cs <= 1).
Proof.
  rewrite ensure_worksheet_unfold.
  destruct headers as [[|h hs]|]; cbn zeta; rewrite lookup_or_add_run;
    destruct (sheets s !! title) as [g|] eqn:E; cbn [snd sheets calls];
    try destruct (Grid.row_values _ 1); unfold ws_update; rewrite ?writing_run;
    cbn [snd sheets calls]; tidy_calls; unfold count_calls; cbn;
    repeat split; intros; try lia; try done;
    try match goal with H : is_Some None |- _ => destruct H; discriminate end.
Qed.

(** ** Stripping *)

Lemma rstrip_keep (a : ascii) (t : string) :
  is_space a = false -> rstrip (String a t) = String a (rstrip t).
Proof. intros H. cbn. rewrite H. by destruct (rstrip t). Qed.

Lemma rstrip_idem (s : string) : rstrip (rstrip s) = rstrip s.
Proof.
  induction s as [|a t IH]; [reflexivity|]. cbn.
  destruct (rstrip t) as [|b t'] eqn:E.
  - destruct (is_space a) eqn:Ea; [reflexivity|]. cbn. by rewrite Ea.
  - cbn. cbn in IH. by rewrite IH.
Qed.

Lemma lstrip_head (s : string) :
  lstrip s = EmptyString \/ exists a t, lstrip s = String a t /\ is_space a = false.
Proof.
  induction s as [|a t IH]; [by left|]. cbn.
  destruct (is_space a) eqn:Ea; [exact IH|]. right. eauto.
Qed.

Lemma strip_idem (s : string) : strip (strip s) = strip s.
Proof.
  unfold strip. destruct (lstrip_head s) as [->|(a & t & -> & Ha)]; [reflexivity|].
  rewrite rstrip_keep by done. cbn [lstrip]. rewrite Ha.
  rewrite <- (rstrip_keep a t Ha). apply rstrip_idem.
Qed.

Lemma strip_empty : strip "" = "".
Proof. reflexivity. Qed.

(** ** Lists without their trailing part *)

Section DropEnd.

Context {A : Type} (p : A -> bool).

Lemma drop_end_split (l : list A) :
  exists t, l = Grid.drop_end p l ++ t /\ Forall (fun x => p x = true) t.
Proof.
  induction l as [|x l (t & Hl & Ht)]; [by exists []|]. cbn.
  destruct (Grid.drop_end p l) as [|y l'] eqn:E.
  - destruct (p x) eqn:Ex.
    + exists (x :: t). cbn in Hl. subst l. split; [done|]. by constructor.
    + exists t. cbn in Hl. by subst l.
  - exists t. split; [|done]. by rewrite Hl at 1.
Qed.

Lemma drop_end_nil (l : list A) :
  Grid.drop_end p l = [] <-> Forall (fun x => p x = true) l.
Proof.
  induction l as [|x l IH]; cbn; [done|].
  destruct (Grid.drop_end p l) as [|y l'] eqn:E.
  - destruct (p x) eqn:Ex; split; try done.
    + intros _. constructor; [done|]. by apply IH.
    + intros H. inversion H; congruence.
  - split; [done|]. intros H. inversion H as [|?? _ Hl]. by apply IH in Hl.
Qed.

Lemma drop_end_tail (x : A) (l : list A) :
  tail (Grid.drop_end p (x :: l)) = Grid.drop_end p l.
Proof. cbn. destruct (Grid.drop_end p l); [by destruct (p x)|done]. Qed.

Lemma drop_end_app_keep (l r : list A) :
  Grid.drop_end p r <> [] -> Grid.drop_end p (l ++ r) = l ++ Grid.drop_end p r.
Proof.
  intros Hr. induction l as [|x l IH]; [done|]. cbn. rewrite IH.
  destruct (l ++ Grid.drop_end p r) eqn:E; [|done].
  by apply app_eq_nil in E as [_ ?].
Qed.

Lemma drop_end_length (l : list A) : length (Grid.drop_end p l) <= length l.
Proof.
  destruct (drop_end_split l) as (t & Hl & _). rewrite Hl at 2.
  rewrite length_app. lia.
Qed.

(** An element that does not satisfy [p] is kept, with all before it. *)
Lemma drop_end_keeps (l : list A) (j : nat) (x : A) :
  l !! j = Some x -> p x = false -> j < length (Grid.drop_end p l).
Proof.
  intros Hj Hx. destruct (drop_end_split l) as (t & Hl & Ht).
  destruct (decide (j < length (Grid.drop_end p l))) as [|Hge]; [done|].
  rewrite Hl, lookup_app_r in Hj by lia.
  apply list_elem_of_lookup_2 in Hj.
  rewrite Forall_forall in Ht. apply Ht in Hj. congruence.
Qed.

Lemma drop_end_lookup (l : list A) (j : nat) :
  j < length (Grid.drop_end p l) -> Grid.drop_end p l !! j = l !! j.
Proof.
  intros Hj. destruct (drop_end_split l) as (t & Hl & _).
  rewrite Hl at 2. by rewrite lookup_app_l.
Qed.

End DropEnd.

(** ** Cells of a grid *)

Lemma cell_beyond (g : grid) (r c : nat) : length g < r -> Grid.cell g r c = "".
Proof.
  intros H. unfold Grid.cell, Grid.row.
  rewrite (lookup_ge_None_2 g (pred r)) by lia. reflexivity.
Qed.

Lemma overwrite_lookup (old values : list string) (j : nat) :
  Grid.overwrite old values !! j
  = if decide (j < length values) then values !! j else old !! j.
Proof.
  unfold Grid.overwrite. case_decide as Hj.
  - by rewrite lookup_app_l.
  - rewrite lookup_app_r by lia. rewrite lookup_drop. f_equal. lia.
Qed.

Lemma cell_update (g : grid) (n : nat) (values : list string) (r c : nat) :
  1 <= n -> 1 <= r -> 1 <= c ->
  Grid.cell (Grid.update g n values) r c =
  if decide (r = n)
  then if decide (c <= length values) then default "" (values !! pred c)
       else Grid.cell g n c
  else Grid.cell g r c.
Proof.
  intros Hn Hr Hc. unfold Grid.update. case_decide as Hin.
  - unfold Grid.cell at 1, Grid.row at 1. case_decide as Hrn.
    + subst r. rewrite list_lookup_insert_eq by done. cbn [from_option id].
      rewrite overwrite_lookup. repeat case_decide; try lia; reflexivity.
    + rewrite list_lookup_insert_ne by lia. reflexivity.
  - unfold Grid.cell at 1, Grid.row at 1. case_decide as Hrn.
    + subst r. rewrite lookup_app_r by lia. rewrite lookup_app_r.
      2: { rewrite length_replicate. lia. }
      rewrite length_replicate.
      replace (pred n - length g - (pred n - length g)) with 0 by lia. cbn.
      case_decide as Hcv; [reflexivity|].
      rewrite (lookup_ge_None_2 values) by lia. cbn.
      symmetry. apply cell_beyond. lia.
    + destruct (decide (pred r < length g)) as [Hlt|Hge].
      * by rewrite lookup_app_l.
      * rewrite cell_beyond by lia. rewrite lookup_app_r by lia.
        destruct (decide (pred r - length g < pred n - length g)) as [Hrep|Hend].
        -- rewrite lookup_app_l by (rewrite length_replicate; lia).
           rewrite lookup_replicate_2 by lia. reflexivity.
        -- rewrite lookup_app_r by (rewrite length_replicate; lia).
           rewrite length_replicate.
           rewrite (lookup_ge_None_2 [values]) by (cbn; lia). reflexivity.
Qed.

Lemma update_length (g : grid) (n : nat) (values : list string) :
  1 <= n -> length (Grid.update g n values) = max (length g) n.
Proof.
  intros Hn. unfold Grid.update. case_decide.
  - rewrite length_insert. lia.
  - rewrite !length_app, length_replicate. cbn. lia.
Qed.

Lemma column_lookup (g : grid) (n j : nat) :
  j < length g -> column g n !! j = Some (Grid.cell g (S j) n).
Proof.
  intros Hj. unfold column, Grid.cell, Grid.row. rewrite list_lookup_fmap. cbn [pred].
  destruct (lookup_lt_is_Some_2 g j Hj) as [row ->]. reflexivity.
Qed.

Lemma column_length (g : grid) (n : nat) : length (column g n) = length g.
Proof. unfold column. apply length_map. Qed.

Lemma blank_cells (row : list string) (j : nat) :
  Grid.blank row = true -> default "" (row !! j) = "".
Proof.
  unfold Grid.blank, Grid.rstrip_empty. intros H. apply bool_decide_eq_true in H.
  apply drop_end_nil in H. rewrite Forall_forall in H.
  destruct (row !! j) as [x|] eqn:E; [|reflexivity]. cbn.
  apply list_elem_of_lookup_2 in E. apply H in E. by apply bool_decide_eq_true in E.
Qed.

Lemma row_values_cell (g : grid) (n j : nat) :
  default "" (Grid.row_values g n !! j) = default "" (Grid.row g n !! j).
Proof.
  unfold Grid.row_values, Grid.rstrip_empty.
  destruct (decide (j < length (Grid.drop_end (fun x => bool_decide (x = "")) (Grid.row g n))))
    as [Hlt|Hge].
  - by rewrite drop_end_lookup.
  - rewrite lookup_ge_None_2 by lia. cbn.
    destruct (Grid.row g n !! j) as [x|] eqn:E; [|reflexivity]. cbn.
    destruct (decide (x = "")) as [->|Hx]; [reflexivity|].
    exfalso. apply Hge. eapply drop_end_keeps; [exact E|].
    by apply bool_decide_eq_false.
Qed.

(** Below the last non-blank row every cell is empty. *)
Lemma cell_below_data (g : grid) (r c : nat) :
  length (Grid.rstrip_blank g) < r -> Grid.cell g r c = "".
Proof.
  intros Hr. unfold Grid.rstrip_blank in Hr.
  destruct (drop_end_split Grid.blank g) as (t & Hg & Ht).
  unfold Grid.cell, Grid.row. rewrite Hg. rewrite lookup_app_r by lia.
  destruct (t !! _) as [row|] eqn:E; [|reflexivity]. cbn.
  apply list_elem_of_lookup_2 in E. rewrite Forall_forall in Ht.
  by apply blank_cells, Ht.
Qed.

Lemma cell_append_rows (g : grid) (rows : list (list string)) (r c : nat) :
  1 <= r ->
  Grid.cell (Grid.append_rows g rows) r c =
  if decide (r <= length (Grid.rstrip_blank g)) then Grid.cell g r c
  else default "" (Grid.row rows (r - length (Grid.rstrip_blank g)) !! pred c).
Proof.
  intros Hr. unfold Grid.append_rows. case_decide as Hle.
  - unfold Grid.cell, Grid.row. rewrite lookup_app_l by lia.
    unfold Grid.rstrip_blank. rewrite drop_end_lookup; [reflexivity|].
    unfold Grid.rstrip_blank in Hle. lia.
  - unfold Grid.cell, Grid.row. rewrite lookup_app_r by lia.
    replace (pred r - length (Grid.rstrip_blank g))
      with (pred (r - length (Grid.rstrip_blank g))) by lia.
    reflexivity.
Qed.

(** ** Locating a row by its key *)

Lemma first_match_unique (g : grid) (col : nat) (key : string) (i j : nat) :
  first_match g col key i -> first_match g col key j -> i = j.
Proof.
  intros (Hi & Mi & Fi) (Hj & Mj & Fj).
  destruct (lt_eq_lt_dec i j) as [[Hlt| ->]|Hgt]; [|done|].
  - exfalso. apply (Fj i); [lia|done|done].
  - exfalso. apply (Fi j); [lia|done|done].
Qed.

Lemma scan_key_some (key : string) (vs : list string) (i j : nat) :
  scan_key key vs i = Some j ->
  exists k, j = i + k /\ k < length vs /\ strip (default "" (vs !! k)) = key /\
            forall k', k' < k -> strip (default "" (vs !! k')) <> key.
Proof.
  revert i. induction vs as [|v vs IH]; intros i H; [discriminate|].
  cbn in H. case_decide as Hv.
  - injection H as <-. exists 0. repeat split; [lia|cbn; lia|done|lia].
  - destruct (IH _ H) as (k & -> & Hk & Hm & Hf). exists (S k).
    repeat split; [lia|cbn; lia|done|].
    intros [|k'] Hk'; [done|]. apply Hf. lia.
Qed.

Lemma scan_key_none (key : string) (vs : list string) (i k : nat) :
  scan_key key vs i = None -> k < length vs -> strip (default "" (vs !! k)) <> key.
Proof.
  revert i k. induction vs as [|v vs IH]; intros i k H Hk; [cbn in Hk; lia|].
  cbn in H. case_decide as Hv; [discriminate|].
  destruct k as [|k]; [done|]. cbn. apply (IH (S i)); [done|cbn in Hk; lia].
Qed.

Lemma length_tail {A} (l : list A) : length (tail l) = pred (length l).
Proof. by destruct l. Qed.

Lemma col_values_tail_lookup (g : grid) (n k : nat) :
  k < length (tail (Grid.col_values g n)) ->
  tail (Grid.col_values g n) !! k = Some (Grid.cell g (S (S k)) n) /\ S (S k) <= length g.
Proof.
  intros Hk. rewrite length_tail in Hk. rewrite lookup_tail.
  unfold Grid.col_values, Grid.rstrip_empty in *. fold (column g n) in *.
  pose proof (drop_end_length (fun x => bool_decide (x = "")) (column g n)) as Hlen.
  rewrite column_length in Hlen.
  rewrite drop_end_lookup by lia. rewrite column_lookup by lia. split; [done|lia].
Qed.

Lemma col_values_keeps (g : grid) (n r : nat) :
  2 <= r <= length g -> Grid.cell g r n <> "" ->
  r - 2 < length (tail (Grid.col_values g n)).
Proof.
  intros Hr Hc. rewrite length_tail.
  unfold Grid.col_values, Grid.rstrip_empty. fold (column g n).
  assert (pred r < length (Grid.drop_end (fun x => bool_decide (x = "")) (column g n))).
  { eapply drop_end_keeps.
    - rewrite column_lookup by lia. replace (S (pred r)) with r by lia. reflexivity.
    - by apply bool_decide_eq_false. }
  lia.
Qed.

Lemma scan_column_some (g : grid) (n : nat) (key : string) (i : nat) :
  scan_key key (tail (Grid.col_values g n)) 2 = Some i -> first_match g n key i.
Proof.
  intros H. apply scan_key_some in H as (k & -> & Hk & Hm & Hf).
  destruct (col_values_tail_lookup g n k Hk) as [Hl Hlen].
  rewrite Hl in Hm. cbn in Hm. repeat split; [lia|lia|exact Hm|].
  intros r Hr Hlt Hmr. apply (Hf (r - 2)); [lia|].
  assert (Hk' : r - 2 < length (tail (Grid.col_values g n))) by lia.
  destruct (col_values_tail_lookup g n _ Hk') as [-> _]. cbn.
  replace (S (S (r - 2))) with r by lia. exact Hmr.
Qed.

Lemma scan_column_none (g : grid) (n : nat) (key : string) :
  key <> "" -> scan_key key (tail (Grid.col_values g n)) 2 = None -> no_match g n key.
Proof.
  intros Hkey H r Hr Hm.
  assert (Hc : Grid.cell g r n <> "").
  { intros E. unfold key_matches in Hm. rewrite E in Hm. by apply Hkey. }
  pose proof (col_values_keeps g n r Hr Hc) as Hk.
  apply (scan_key_none _ _ _ _ H Hk).
  destruct (col_values_tail_lookup g n _ Hk) as [-> _]. cbn.
  replace (S (S (r - 2))) with r by lia. exact Hm.
Qed.

Lemma no_match_scan (g : grid) (n : nat) (key : string) :
  no_match g n key -> scan_key key (tail (Grid.col_values g n)) 2 = None.
Proof.
  intros Hno. destruct (scan_key _ _ _) as [i|] eqn:E; [|reflexivity].
  apply scan_column_some in E as (Hi & Hm & _). exfalso. by apply (Hno i).
Qed.

Lemma first_match_scan (g : grid) (n : nat) (key : string) (i : nat) :
  key <> "" -> first_match g n key i ->
  scan_key key (tail (Grid.col_values g n)) 2 = Some i.
Proof.
  intros Hkey Hi. destruct (scan_key _ _ _) as [j|] eqn:E.
  - apply scan_column_some in E. f_equal. by eapply first_match_unique.
  - apply scan_column_none in E; [|done]. destruct Hi as (Hi & Hm & _).
    exfalso. by apply (E i).
Qed.

(** ** Upsert *)

Lemma upsert_run (cfg : config) (title : string) (row : pydict) (key_col : string)
    (headers : option (list string)) (s : remote) (k : string) (idx : nat) :
  fst (open_spreadsheet cfg s) = Ok (Some k) ->
  list_index key_col (effective_headers row headers) = Some idx ->
  record_key row key_col <> "" ->
  let hs := effective_headers row headers in
  let g1 := init_header (Some hs) (grid_of s title) in
  fst (upsert cfg title row key_col headers s) = Ok true /\
  grid_of (snd (upsert cfg title row key_col headers s)) title =
    match scan_key (record_key row key_col) (tail (Grid.col_values g1 (idx + 1))) 2 with
    | None => Grid.append_rows g1 [projection row hs]
    | Some i => Grid.update g1 i (projection row hs)
    end.
Proof.
  intros Hopen Hidx Hkey hs g1. fold hs in Hidx.
  unfold upsert_sheet_row. rewrite bind_run, (open_spreadsheet_ok_inv _ _ _ Hopen).
  cbn [fst snd]. rewrite bind_run. fold hs.
  set (s1 := Remote (sheets s) (calls s ++ [OpenByKey k])).
  assert (Hg1 : grid_of (snd (_ensure_worksheet title (Some hs) s1)) title = g1).
  { rewrite ensure_worksheet_grid. reflexivity. }
  set (s2 := snd (_ensure_worksheet title (Some hs) s1)) in *.
  fold (record_key row key_col). rewrite decide_False by done.
  rewrite Hidx. run_store. rewrite Hg1.
  destruct (scan_key _ _ 2) as [i|]; run_store.
  - split; [reflexivity|]. rewrite grid_of_insert.
    by rewrite (grid_of_calls _ _ (calls s2)), <- Hg1.
  - split; [reflexivity|]. rewrite grid_of_insert.
    by rewrite (grid_of_calls _ _ (calls s2)), <- Hg1.
Qed.

Lemma list_index_some (x : string) (l : list string) (i : nat) :
  list_index x l = Some i -> l !! i = Some x /\ forall j, j < i -> l !! j <> Some x.
Proof.
  revert i. induction l as [|y l IH]; intros i H; [discriminate|]. cbn in H.
  case_decide as Hy.
  - injection H as <-. subst y. split; [done|lia].
  - destruct (list_index x l) as [i'|] eqn:E; [|discriminate]. injection H as <-.
    destruct (IH i' eq_refl) as [Hi Hf]. split; [done|].
    intros [|j] Hj; cbn; [congruence|]. apply Hf. lia.
Qed.

Lemma list_index_none (x : string) (l : list string) :
  list_index x l = None <-> x ∉ l.
Proof.
  induction l as [|y l IH]; cbn.
  - split; [intros _; apply not_elem_of_nil|done].
  - case_decide as Hy.
    + subst y. split; [done|]. intros H. exfalso. apply H. left.
    + destruct (list_index x l) as [i|] eqn:E; cbn.
      * split; [done|]. intros H. exfalso. apply not_elem_of_cons in H as [_ H].
        by apply IH in H.
      * split; [|done]. intros _. apply not_elem_of_cons. split; [done|]. by apply IH.
Qed.

Lemma row1_blank_cells (g : grid) (c : nat) :
  Grid.row_values g 1 = [] -> Grid.cell g 1 c = "".
Proof.
  intros H. unfold Grid.cell. rewrite <- row_values_cell. by rewrite H.
Qed.

Lemma init_header_cases (hs : list string) (g : grid) :
  hs <> [] ->
  (Grid.row_values g 1 = [] /\ init_header (Some hs) g = Grid.update g 1 hs) \/
  (Grid.row_values g 1 <> [] /\ init_header (Some hs) g = g).
Proof.
  intros Hhs. unfold init_header. destruct hs as [|h hs]; [done|].
  destruct (Grid.row_values g 1); [by left|by right].
Qed.

Lemma init_header_data_cell (headers : option (list string)) (g : grid) (r c : nat) :
  2 <= r -> 1 <= c -> Grid.cell (init_header headers g) r c = Grid.cell g r c.
Proof.
  intros Hr Hc. unfold init_header. destruct headers as [[|h hs]|]; try reflexivity.
  destruct (Grid.row_values g 1); [|reflexivity].
  rewrite cell_update by lia. by rewrite decide_False by lia.
Qed.

Lemma init_header_length (headers : option (list string)) (g : grid) (r : nat) :
  2 <= r -> r <= length (init_header headers g) <-> r <= length g.
Proof.
  intros Hr. unfold init_header. destruct headers as [[|h hs]|]; try reflexivity.
  destruct (Grid.row_values g 1); [|reflexivity].
  rewrite update_length by lia. lia.
Qed.

Lemma init_header_key_matches (headers : option (list string)) (g : grid)
    (col : nat) (key : string) (r : nat) :
  2 <= r -> 1 <= col ->
  key_matches (init_header headers g) col key r <-> key_matches g col key r.
Proof. intros Hr Hc. unfold key_matches. by rewrite init_header_data_cell. Qed.

Lemma init_header_first_match (headers : option (list string)) (g : grid)
    (col : nat) (key : string) (i : nat) :
  1 <= col ->
  first_match (init_header headers g) col key i <-> first_match g col key i.
Proof.
  intros Hc. unfold first_match. split.
  - intros ([H2 Hl] & Hm & Hf). rewrite init_header_length in Hl by done.
    rewrite init_header_key_matches in Hm by done. repeat split; [done..|].
    intros r Hr Hlt. rewrite <- (init_header_key_matches headers) by done. by apply Hf.
  - intros ([H2 Hl] & Hm & Hf). rewrite <- (init_header_length headers) in Hl by done.
    rewrite <- (init_header_key_matches headers) in Hm by done. repeat split; [done..|].
    intros r Hr Hlt. rewrite init_header_key_matches by done. by apply Hf.
Qed.

Lemma init_header_no_match (headers : option (list string)) (g : grid)
    (col : nat) (key : string) :
  1 <= col ->
  no_match (init_header headers g) col key <-> no_match g col key.
Proof.
  intros Hc. unfold no_match. split; intros H r [H2 Hl].
  - rewrite <- (init_header_key_matches headers) by done. apply H.
    by rewrite init_header_length.
  - rewrite init_header_key_matches by done. apply H.
    by rewrite <- (init_header_length headers).
Qed.

Lemma match_or_not (g : grid) (col : nat) (key : string) :
  key <> "" -> (exists i, first_match g col key i) \/ no_match g col key.
Proof.
  intros Hkey. destruct (scan_key key (tail (Grid.col_values g col)) 2) as [i|] eqn:E.
  - left. exists i. by apply scan_column_some.
  - right. by apply scan_column_none.
Qed.

Lemma projection_length (row : pydict) (hs : list string) :
  length (projection row hs) = length hs.
Proof. apply length_map. Qed.

Lemma appended_row_cells (g : grid) (out : list string) (r c : nat) :
  1 <= r ->
  Grid.cell (Grid.append_rows g [out]) r c =
  if decide (r = append_position g) then default "" (out !! pred c) else Grid.cell g r c.
Proof.
  intros Hr. unfold append_position. rewrite cell_append_rows by done.
  case_decide as Hle.
  - by rewrite decide_False by lia.
  - case_decide as Hp.
    + subst r. replace (S _ - _) with 1 by lia. reflexivity.
    + rewrite cell_below_data by lia. unfold Grid.row.
      rewrite (lookup_ge_None_2 [out]) by (cbn; lia). reflexivity.
Qed.

Lemma upsert_cases (cfg : config) (title : string) (row : pydict) (key_col : string)
    (headers : option (list string)) (s : remote) (k : string) (idx : nat) :
  fst (open_spreadsheet cfg s) = Ok (Some k) ->
  list_index key_col (effective_headers row headers) = Some idx ->
  record_key row key_col <> "" ->
  let hs := effective_headers row headers in
  let key := record_key row key_col in
  let g := grid_of s title in
  let g1 := init_header (Some hs) g in
  let g' := grid_of (snd (upsert cfg title row key_col headers s)) title in
  fst (upsert cfg title row key_col headers s) = Ok true /\
  ((exists i, first_match g (idx + 1) key i /\ g' = Grid.update g1 i (projection row hs)) \/
   (no_match g (idx + 1) key /\ g' = Grid.append_rows g1 [projection row hs])).
Proof.
  intros Hopen Hidx Hkey hs key g g1 g'.
  destruct (upsert_run cfg title row key_col headers s k idx Hopen Hidx Hkey) as [Hok Hg'].
  split; [exact Hok|]. fold hs key g g1 g' in Hg'.
  destruct (scan_key key (tail (Grid.col_values g1 (idx + 1))) 2) as [i|] eqn:E.
  - left. exists i. split; [|exact Hg'].
    apply scan_column_some in E. unfold g1 in E.
    by rewrite init_header_first_match in E by lia.
  - right. split; [|exact Hg'].
    apply scan_column_none in E; [|done]. unfold g1 in E.
    by rewrite init_header_no_match in E by lia.
Qed.

(** C1, as amended: for every worksheet, record, key column present in
    the effective header list and non-blank key value, the upsert returns
    true; the key column is scanned from row 2 down for the first cell
    that equals the key once both are stripped.  When a row matches, the
    cells of that first matching row under the effective headers are
    overwritten with the projection of the record, the cells of the row
    to the right of the headers keep their content, and every other data
    row is unchanged, later rows with the same key included.  When no row
    matches, the projection is written as a new row below the data, and
    every other data row is unchanged.  A header row that is not blank is
    left as it is. *)
Theorem upsert_sheet_row_effect (cfg : config) (title : string) (row : pydict)
    (key_col : string) (headers : option (list string)) (s : remote) (k : string)
    (idx : nat) :
  fst (open_spreadsheet cfg s) = Ok (Some k) ->
  list_index key_col (effective_headers row headers) = Some idx ->
  record_key row key_col <> "" ->
  let hs := effective_headers row headers in
  let out := projection row hs in
  let key := record_key row key_col in
  let g := grid_of s title in
  let g' := grid_of (snd (upsert cfg title row key_col headers s)) title in
  fst (upsert cfg title row key_col headers s) = Ok true /\
  ((exists i, first_match g (idx + 1) key i) \/ no_match g (idx + 1) key) /\
  (forall i, first_match g (idx + 1) key i ->
     (forall c, 1 <= c <= length hs -> Grid.cell g' i c = default "" (out !! pred c)) /\
     (forall c, length hs < c -> Grid.cell g' i c = Grid.cell g i c) /\
     (forall r c, 2 <= r -> r <> i -> 1 <= c -> Grid.cell g' r c = Grid.cell g r c)) /\
  (no_match g (idx + 1) key ->
     exists p, 1 <= p /\
       (forall r c, p <= r -> 1 <= c -> Grid.cell g r c = "") /\
       (forall c, 1 <= c -> Grid.cell g' p c = default "" (out !! pred c)) /\
       (forall r c, 2 <= r -> r <> p -> 1 <= c -> Grid.cell g' r c = Grid.cell g r c)) /\
  (forall c, 1 <= c -> Grid.row_values g 1 <> [] -> Grid.cell g' 1 c = Grid.cell g 1 c).
Proof.
  intros Hopen Hidx Hkey hs out key g g'.
  destruct (upsert_cases cfg title row key_col headers s k idx Hopen Hidx Hkey)
    as [Hok Hcases].
  fold hs key g g' in Hcases. fold out in Hcases.
  assert (Hhs : hs <> []).
  { intros E. fold hs in Hidx. rewrite E in Hidx. discriminate. }
  assert (Hlen : length out = length hs) by apply projection_length.
  split; [exact Hok|]. split; [by apply match_or_not|].
  repeat split.
  - intros c Hc. destruct Hcases as [(j & Hj & ->)|(Hno & _)].
    + rewrite (first_match_unique _ _ _ _ _ Hj H) in *. destruct H as ([? ?] & _).
      rewrite cell_update by lia. rewrite decide_True by done.
      by rewrite decide_True by lia.
    + exfalso. destruct H as (? & Hm & _). by apply (Hno i).
  - intros c Hc. destruct Hcases as [(j & Hj & ->)|(Hno & _)].
    + rewrite (first_match_unique _ _ _ _ _ Hj H) in *. destruct H as ([? ?] & _).
      rewrite cell_update by lia. rewrite decide_True by done.
      rewrite decide_False by lia. apply init_header_data_cell; lia.
    + exfalso. destruct H as (? & Hm & _). by apply (Hno i).
  - intros r c Hr Hri Hc. destruct Hcases as [(j & Hj & ->)|(Hno & _)].
    + rewrite (first_match_unique _ _ _ _ _ Hj H) in *. destruct H as ([? ?] & _).
      rewrite cell_update by lia. rewrite decide_False by done.
      apply init_header_data_cell; lia.
    + exfalso. destruct H as (? & Hm & _). by apply (Hno i).
  - intros Hno. destruct Hcases as [(j & (? & Hm & _) & _)|(_ & Hg')].
    { exfalso. by apply (Hno j). }
    exists (append_position (init_header (Some hs) g)). repeat split.
    + unfold append_position. lia.
    + intros r c Hr Hc. destruct (decide (r = 1)) as [->|Hr1].
      * destruct (init_header_cases hs g Hhs) as [[Hb _]|[_ Eg]].
        -- by apply row1_blank_cells.
        -- rewrite Eg in Hr. apply cell_below_data. unfold append_position in Hr. lia.
      * rewrite <- (init_header_data_cell (Some hs)) by (unfold append_position in Hr; lia).
        apply cell_below_data. unfold append_position in Hr. lia.
    + intros c Hc. rewrite Hg'. rewrite appended_row_cells by (unfold append_position; lia).
      by rewrite decide_True.
    + intros r c Hr Hrp Hc. rewrite Hg'. rewrite appended_row_cells by lia.
      rewrite decide_False by done. apply init_header_data_cell; lia.
  - intros c Hc Hrow.
    destruct (init_header_cases hs g Hhs) as [[Hb _]|[_ Eg]]; [done|].
    destruct Hcases as [(j & ([? ?] & _) & ->)|(_ & ->)].
    + rewrite cell_update by lia. rewrite decide_False by lia. by rewrite Eg.
    + rewrite Eg. rewrite appended_row_cells by lia. rewrite decide_False; [done|].
      unfold append_position. intros E.
      assert (E0 : Grid.rstrip_blank g = []) by (destruct (Grid.rstrip_blank g); [done|cbn in E; lia]).
      apply drop_end_nil in E0. apply Hrow.
      unfold Grid.row_values, Grid.row. destruct g as [|r0 g0]; [reflexivity|].
      cbn. inversion E0 as [|?? Hb0 _]. by apply bool_decide_eq_true in Hb0.
Qed.

Lemma open_spreadsheet_any_state (cfg : config) (s s' : remote) :
  fst (open_spreadsheet cfg s) = fst (open_spreadsheet cfg s').
Proof.
  rewrite !open_spreadsheet_unfold. destruct (checks cfg); [|reflexivity].
  destruct (from_service_account_info _); reflexivity.
Qed.

(** With a header row that is not blank an append lands on row 2 or below. *)
Lemma header_above_append (g : grid) :
  Grid.row_values g 1 <> [] -> 2 <= append_position g.
Proof.
  intros Hrow. unfold append_position.
  destruct (Grid.rstrip_blank g) eqn:E; [|cbn; lia].
  exfalso. apply drop_end_nil in E. apply Hrow.
  unfold Grid.row_values, Grid.row. destruct g as [|r0 g0]; [reflexivity|].
  cbn. inversion E as [|?? Hb0 _]. by apply bool_decide_eq_true in Hb0.
Qed.

Lemma projection_lookup (row : pydict) (hs : list string) (j : nat) (c : string) :
  hs !! j = Some c -> projection row hs !! j = Some (py_str (dict_get row c (PyStr ""))).
Proof. intros H. unfold projection. rewrite list_lookup_fmap. by rewrite H. Qed.

Lemma unmatched_beyond (g : grid) (col : nat) (key : string) (r : nat) :
  key <> "" -> length g < r -> ~ key_matches g col key r.
Proof.
  intros Hkey Hr Hm. unfold key_matches in Hm. rewrite cell_beyond in Hm by done.
  by apply Hkey.
Qed.

Lemma append_rows_length (g : grid) (rows : list (list string)) :
  length (Grid.append_rows g rows) = length (Grid.rstrip_blank g) + length rows.
Proof. unfold Grid.append_rows. apply length_app. Qed.

(** What one upsert leaves behind: a target row [t] holding the
    projection, every other data row as before, and no row above [t]
    carrying the key.  The target is the first matching row, or else the
    append position. *)
Lemma upsert_target (cfg : config) (title : string) (row : pydict) (key_col : string)
    (headers : option (list string)) (s : remote) (k : string) (idx : nat) :
  fst (open_spreadsheet cfg s) = Ok (Some k) ->
  list_index key_col (effective_headers row headers) = Some idx ->
  record_key row key_col <> "" ->
  let hs := effective_headers row headers in
  let key := record_key row key_col in
  let g := grid_of s title in
  let g' := grid_of (snd (upsert cfg title row key_col headers s)) title in
  fst (upsert cfg title row key_col headers s) = Ok true /\
  exists t, 1 <= t <= length g' /\
    (forall c, 1 <= c <= length hs ->
       Grid.cell g' t c = default "" (projection row hs !! pred c)) /\
    (forall r c, 2 <= r -> r <> t -> 1 <= c -> Grid.cell g' r c = Grid.cell g r c) /\
    (forall r, 2 <= r -> r < t -> ~ key_matches g (idx + 1) key r) /\
    (first_match g (idx + 1) key t \/
     (no_match g (idx + 1) key /\ t = append_position (init_header (Some hs) g))).
Proof.
  intros Hopen Hidx Hkey hs key g g'.
  destruct (upsert_cases cfg title row key_col headers s k idx Hopen Hidx Hkey)
    as [Hok Hcases].
  fold hs key g g' in Hcases. split; [exact Hok|].
  pose proof (projection_length row hs) as Hlen.
  destruct Hcases as [(i & Hi & Hg')|(Hno & Hg')].
  - exists i. pose proof Hi as ([H2 Hl] & Hm & Hf). repeat split.
    + lia.
    + rewrite Hg', update_length by lia.
      pose proof (proj2 (init_header_length (Some hs) g i H2) Hl). lia.
    + intros c Hc. rewrite Hg', cell_update by lia.
      rewrite decide_True by done. by rewrite decide_True by lia.
    + intros r c Hr Hri Hc. rewrite Hg', cell_update by lia.
      rewrite decide_False by done. apply init_header_data_cell; lia.
    + exact Hf.
    + by left.
  - exists (append_position (init_header (Some hs) g)). repeat split.
    + unfold append_position. lia.
    + rewrite Hg', append_rows_length. unfold append_position. cbn. lia.
    + intros c Hc. rewrite Hg', appended_row_cells by (unfold append_position; lia).
      by rewrite decide_True.
    + intros r c Hr Hrp Hc. rewrite Hg', appended_row_cells by lia.
      rewrite decide_False by done. apply init_header_data_cell; lia.
    + intros r Hr Hlt. destruct (decide (r <= length g)) as [Hle|Hgt].
      * by apply Hno.
      * apply unmatched_beyond; [done|lia].
    + by right.
Qed.

(** The key cell of the projection is the record's key value as it is. *)
Lemma target_key_cell (row : pydict) (key_col : string) (hs : list string) (idx : nat) :
  list_index key_col hs = Some idx ->
  default "" (projection row hs !! idx) = py_str (dict_get row key_col (PyStr "")) /\
  idx < length hs.
Proof.
  intros H. apply list_index_some in H as [H _].
  rewrite (projection_lookup _ _ _ _ H). split; [reflexivity|].
  by apply lookup_lt_Some in H.
Qed.

Lemma only_match_at_most_one (g : grid) (col : nat) (key : string) (r : nat) :
  only_match g col key r -> at_most_one_match g col key.
Proof.
  intros [_ H] i j Hi Hj Mi Mj. apply H in Mi, Mj; [congruence|done..].
Qed.

Lemma no_match_at_most_one (g : grid) (col : nat) (key : string) :
  no_match g col key -> at_most_one_match g col key.
Proof. intros H i j Hi _ Mi _. exfalso. by apply (H i). Qed.

Lemma nonblank_cell_row1 (g : grid) (c : nat) :
  Grid.cell g 1 c <> "" -> Grid.row_values g 1 <> [].
Proof. intros H E. apply H. by apply row1_blank_cells. Qed.

Lemma strip_nonblank (v : string) : strip v <> "" -> v <> "".
Proof. intros H E. apply H. by rewrite E. Qed.

Lemma upsert_once (cfg : config) (title : string) (row : pydict) (key_col : string)
    (headers : option (list string)) (s : remote) (k : string) (idx : nat) :
  fst (open_spreadsheet cfg s) = Ok (Some k) ->
  list_index key_col (effective_headers row headers) = Some idx ->
  record_key row key_col <> "" ->
  let hs := effective_headers row headers in
  let key := record_key row key_col in
  let g := grid_of s title in
  let g' := grid_of (snd (upsert cfg title row key_col headers s)) title in
  let stored t :=
    only_match g' (idx + 1) key t /\
    forall c, 1 <= c <= length hs ->
      Grid.cell g' t c = default "" (projection row hs !! pred c) in
  at_most_one_match g (idx + 1) key ->
  fst (upsert cfg title row key_col headers s) = Ok true /\
  ((exists t, stored t) \/ (no_match g' (idx + 1) key /\ Grid.row_values g' 1 <> [])) /\
  (Grid.row_values g 1 <> [] \/ (exists i, 2 <= i <= length g /\ key_matches g (idx + 1) key i) ->
   exists t, stored t).
Proof.
  intros Hopen Hidx Hkey hs key g g' stored Hamo.
  destruct (upsert_target cfg title row key_col headers s k idx Hopen Hidx Hkey)
    as (Hok & t & [Ht1 Htl] & Hrow & Hframe & Habove & Hwhich).
  fold hs key g g' in Htl, Hrow, Hframe, Habove, Hwhich.
  destruct (target_key_cell row key_col hs idx Hidx) as [Hkc Hidx_lt].
  assert (Hcell : Grid.cell g' t (idx + 1) = py_str (dict_get row key_col (PyStr ""))).
  { rewrite Hrow by lia. replace (pred (idx + 1)) with idx by lia. exact Hkc. }
  assert (Hmt : key_matches g' (idx + 1) key t).
  { unfold key_matches. by rewrite Hcell. }
  assert (Hothers : forall j, 2 <= j -> j <> t -> ~ key_matches g' (idx + 1) key j).
  { intros j Hj Hjt Hm. unfold key_matches in Hm. rewrite Hframe in Hm by lia.
    destruct (decide (j <= length g)) as [Hle|Hgt].
    - destruct Hwhich as [([? ?] & Mt & _)|[Hno _]].
      + apply Hjt. by apply (Hamo j t).
      + by apply (Hno j).
    - by apply (unmatched_beyond g (idx + 1) key j Hkey); [lia|]. }
  assert (Hbig : 2 <= t -> stored t).
  { intros H2. split; [|exact Hrow]. split; [lia|].
    intros j Hj. split.
    - intros Hm. destruct (decide (j = t)); [done|]. exfalso.
      apply (Hothers j); [lia|done|done].
    - by intros ->. }
  split; [exact Hok|]. split.
  - destruct (decide (2 <= t)) as [H2|H1].
    + left. exists t. by apply Hbig.
    + right. assert (t = 1) as -> by lia. split.
      * intros j [Hj _]. apply Hothers; lia.
      * apply (nonblank_cell_row1 g' (idx + 1)). rewrite Hcell.
        by apply strip_nonblank.
  - intros Hpre. exists t. apply Hbig.
    destruct Hwhich as [([? ?] & _)|[Hno Ht]]; [lia|].
    destruct Hpre as [Hrow1|(i & Hi & Mi)].
    + assert (Hhs : hs <> []) by (intros E; rewrite E in Hidx_lt; cbn in Hidx_lt; lia).
      destruct (init_header_cases hs g Hhs) as [[Hb _]|[_ Eg]]; [done|].
      rewrite Ht, Eg. by apply header_above_append.
    + exfalso. by apply (Hno i).
Qed.


(** Once ensured under headers that name the key column, the header row
    is not blank. *)
Lemma header_written (g : grid) (hs : list string) (key_col : string) (idx : nat) :
  key_col <> "" -> list_index key_col hs = Some idx ->
  Grid.row_values (init_header (Some hs) g) 1 <> [].
Proof.
  intros Hk Hidx. apply list_index_some in Hidx as [Hidx _].
  assert (Hhs : hs <> []) by (intros E; by rewrite E in Hidx).
  destruct (init_header_cases hs g Hhs) as [[_ ->]|[H ->]]; [|exact H].
  apply (nonblank_cell_row1 _ (S idx)). rewrite cell_update by lia.
  rewrite decide_True by done. apply lookup_lt_Some in Hidx as Hlt.
  rewrite decide_True by lia. cbn [pred]. by rewrite Hidx.
Qed.

(** C10, as amended: the upsert looks the record up by its stripped key and stores
    the key value as it is.  For a record whose key value is not blank
    (surrounding whitespace or not), the row it ends on is the first data
    row whose stripped key cell equals the stripped key; the key cell
    stored there is the unstripped value; and a later upsert of a record
    carrying the stripped key finds that same row and overwrites it,
    leaving the other data rows as they are.  The key column has a name
    ([key_col] is not the empty string), so that the header row is not
    blank once ensured and the record lands on a data row. *)
Theorem upsert_strips_key_for_lookup_only (cfg : config) (title : string)
    (row row2 : pydict) (key_col : string) (headers : option (list string))
    (s : remote) (k : string) (idx : nat) :
  fst (open_spreadsheet cfg s) = Ok (Some k) ->
  list_index key_col (effective_headers row headers) = Some idx ->
  record_key row key_col <> "" ->
  key_col <> "" ->
  effective_headers row2 headers = effective_headers row headers ->
  dict_get row2 key_col (PyStr "") = PyStr (record_key row key_col) ->
  let hs := effective_headers row headers in
  let key := record_key row key_col in
  let g := grid_of s title in
  let s1 := snd (upsert cfg title row key_col headers s) in
  let s2 := snd (upsert cfg title row2 key_col headers s1) in
  fst (upsert cfg title row key_col headers s) = Ok true /\
  fst (upsert cfg title row2 key_col headers s1) = Ok true /\
  exists r, 2 <= r /\
    (first_match g (idx + 1) key r \/ no_match g (idx + 1) key) /\
    Grid.cell (grid_of s1 title) r (idx + 1) = py_str (dict_get row key_col (PyStr "")) /\
    first_match (grid_of s1 title) (idx + 1) key r /\
    (forall c, 1 <= c <= length hs ->
       Grid.cell (grid_of s2 title) r c = default "" (projection row2 hs !! pred c)) /\
    (forall j c, 2 <= j -> j <> r -> 1 <= c ->
       Grid.cell (grid_of s2 title) j c = Grid.cell (grid_of s1 title) j c).
Proof.
  intros Hopen Hidx Hkey Hcol Hhs2 Hrow2 hs key g s1 s2.
  destruct (upsert_target cfg title row key_col headers s k idx Hopen Hidx Hkey)
    as (Hok1 & t & [Ht1 Htl] & Hrow & Hframe & Habove & Hwhich).
  fold hs key g s1 in Htl, Hrow, Hframe, Habove, Hwhich.
  destruct (target_key_cell row key_col hs idx Hidx) as [Hkc Hidx_lt].
  assert (Hcell : Grid.cell (grid_of s1 title) t (idx + 1)
                  = py_str (dict_get row key_col (PyStr ""))).
  { rewrite Hrow by lia. replace (pred (idx + 1)) with idx by lia. exact Hkc. }
  assert (H2 : 2 <= t).
  { destruct Hwhich as [([? ?] & _)|[_ ->]]; [lia|].
    apply header_above_append. by apply (header_written g hs key_col idx). }
  assert (Hfirst : first_match (grid_of s1 title) (idx + 1) key t).
  { split; [lia|]. split.
    - unfold key_matches. by rewrite Hcell.
    - intros r Hr Hlt. unfold key_matches. rewrite Hframe by lia. by apply Habove. }
  assert (Hkey2 : record_key row2 key_col = key).
  { unfold record_key at 1. rewrite Hrow2. cbn [py_str]. apply strip_idem. }
  assert (Hopen1 : fst (open_spreadsheet cfg s1) = Ok (Some k)).
  { by rewrite (open_spreadsheet_any_state cfg s1 s). }
  assert (Hidx2 : list_index key_col (effective_headers row2 headers) = Some idx).
  { by rewrite Hhs2. }
  assert (Hkey2' : record_key row2 key_col <> "") by (by rewrite Hkey2).
  destruct (upsert_target cfg title row2 key_col headers s1 k idx Hopen1 Hidx2 Hkey2')
    as (Hok2 & t2 & _ & Hrow' & Hframe' & _ & Hwhich').
  rewrite Hhs2 in Hrow', Hwhich'. rewrite Hkey2 in Hwhich'.
  fold hs s2 in Hrow', Hframe', Hwhich'.
  assert (t2 = t) as ->.
  { destruct Hwhich' as [Hf|[Hno _]].
    - by apply (first_match_unique _ _ _ _ _ Hf Hfirst).
    - exfalso. destruct Hfirst as (? & Hm & _). by apply (Hno t). }
  split; [exact Hok1|]. split; [exact Hok2|].
  exists t. split; [exact H2|].
  split; [destruct Hwhich as [?|[? _]]; [by left|by right]|].
  split; [exact Hcell|]. split; [exact Hfirst|]. split; [exact Hrow'|exact Hframe'].
Qed.

(** ** Partial field update *)

Lemma padded_length (headers current : list string) :
  length headers <= length (padded headers current).
Proof.
  unfold padded. case_decide; [|lia]. rewrite length_app, length_replicate. lia.
Qed.

Lemma padded_lookup (headers current : list string) (j : nat) :
  default "" (padded headers current !! j) = default "" (current !! j).
Proof.
  unfold padded. case_decide; [|reflexivity].
  destruct (decide (j < length current)) as [Hlt|Hge].
  - by rewrite lookup_app_l.
  - rewrite lookup_app_r by lia. rewrite (lookup_ge_None_2 current) by lia.
    destruct (replicate _ _ !! _) as [x|] eqn:E; [|reflexivity].
    apply lookup_replicate in E as [-> _]. reflexivity.
Qed.

Lemma apply_updates_cons (hs : list string) (f : string) (v : pyval) (ups : pydict)
    (cur : list string) :
  apply_updates hs ((f, v) :: ups) cur =
  apply_updates hs ups
    (match list_index f hs with
     | Some j => <[j := update_str v]> cur
     | None => cur
     end).
Proof. reflexivity. Qed.

Lemma apply_updates_length (hs : list string) (ups : pydict) (cur : list string) :
  length (apply_updates hs ups cur) = length cur.
Proof.
  revert cur. induction ups as [|[f v] ups IH]; intros cur; [reflexivity|].
  rewrite apply_updates_cons, IH. destruct (list_index f hs); [|reflexivity].
  apply length_insert.
Qed.

Lemma apply_updates_untouched (hs : list string) (ups : pydict) (cur : list string)
    (j : nat) :
  (forall f v, (f, v) ∈ ups -> list_index f hs <> Some j) ->
  apply_updates hs ups cur !! j = cur !! j.
Proof.
  revert cur. induction ups as [|[f v] ups IH]; intros cur H; [reflexivity|].
  rewrite apply_updates_cons, IH.
  - destruct (list_index f hs) as [j'|] eqn:E; [|reflexivity].
    apply list_lookup_insert_ne. intros ->. apply (H f v); [left|done].
  - intros f' v' Hin. apply (H f' v'). by right.
Qed.

Lemma apply_updates_written (hs : list string) (ups : pydict) (cur : list string)
    (f : string) (v : pyval) (j : nat) :
  NoDup (dict_keys ups) -> (f, v) ∈ ups -> list_index f hs = Some j ->
  j < length cur ->
  apply_updates hs ups cur !! j = Some (update_str v).
Proof.
  revert cur. induction ups as [|[f0 v0] ups IH]; intros cur Hnd Hin Hj Hlt.
  - by apply elem_of_nil in Hin.
  - rewrite apply_updates_cons. cbn in Hnd. apply NoDup_cons in Hnd as [Hf0 Hnd].
    apply elem_of_cons in Hin as [Heq|Hin].
    + injection Heq as <- <-. rewrite Hj. rewrite apply_updates_untouched.
      * by apply list_lookup_insert_eq.
      * intros f' v' Hin' Hj'. apply Hf0.
        assert (f' = f).
        { apply list_index_some in Hj as [Hj _]. apply list_index_some in Hj' as [Hj' _].
          congruence. }
        subst f'. unfold dict_keys. apply list_elem_of_fmap. by exists (f, v').
    + apply IH; try done.
      destruct (list_index f0 hs); [by rewrite length_insert|done].
Qed.

Lemma open_spreadsheet_none_inv (cfg : config) (s : remote) :
  fst (open_spreadsheet cfg s) = Ok None -> open_spreadsheet cfg s = (Ok None, s).
Proof.
  rewrite open_spreadsheet_unfold. destruct (checks cfg); [|done].
  destruct (from_service_account_info _); [|discriminate].
  unfold open_by_key. destruct (authenticate _ _); discriminate.
Qed.

Lemma update_fields_run (cfg : config) (title : string) (id_value : pyval)
    (updates : pydict) (key_col : string) (s : remote) (k : string) :
  updates <> [] ->
  fst (open_spreadsheet cfg s) = Ok (Some k) ->
  let g := grid_of s title in
  let hs := Grid.row_values g 1 in
  let r := update_fields cfg title id_value updates key_col s in
  match list_index key_col hs with
  | None => fst r = Ok false /\ grid_of (snd r) title = g
  | Some idx =>
      match scan_key (strip (py_str id_value)) (tail (Grid.col_values g (idx + 1))) 2 with
      | None => fst r = Ok false /\ grid_of (snd r) title = g
      | Some i =>
          fst r = Ok true /\
          grid_of (snd r) title =
            Grid.update g i (apply_updates hs updates (padded hs (Grid.row_values g i)))
      end
  end.
Proof.
  intros Hups Hopen g hs r. subst r. unfold update_sheet_fields_by_id.
  destruct updates as [|u ups]; [done|]. set (updates := u :: ups).
  rewrite bind_run, (open_spreadsheet_ok_inv _ _ _ Hopen). cbn [fst snd].
  set (s1 := Remote (sheets s) (calls s ++ [OpenByKey k])).
  rewrite bind_run.
  assert (Hg1 : grid_of (snd (_ensure_worksheet title None s1)) title = g).
  { rewrite ensure_worksheet_grid. reflexivity. }
  set (s2 := snd (_ensure_worksheet title None s1)) in *.
  run_store. rewrite Hg1. fold hs.
  destruct (list_index key_col hs) as [idx|]; [|split; [reflexivity|exact Hg1]].
  run_store. rewrite !grid_of_same, !Hg1.
  destruct (scan_key _ _ 2) as [i|]; run_store.
  - split; [reflexivity|]. rewrite grid_of_insert.
    rewrite !grid_of_same, !Hg1. reflexivity.
  - split; [reflexivity|exact Hg1].
Qed.

(** C3, as amended: on a worksheet whose header row names the key
    column, for a non-blank id and the first data row whose key cell
    matches it, the updater (returning true when [updates] is not empty)
    overwrites exactly the cells of that row that stand under the first
    header named by a key of [updates] ([None] written as the empty
    string); update keys that the header does not name are ignored, every
    other cell of the row and every other row, later rows with the same id
    included, keep their content.  The keys of [updates] are distinct, as
    those of a dict are. *)
Theorem update_fields_first_match_effect (cfg : config) (title : string)
    (id_value : pyval) (updates : pydict) (key_col : string) (s : remote)
    (k : string) (idx i : nat) :
  NoDup (dict_keys updates) ->
  fst (open_spreadsheet cfg s) = Ok (Some k) ->
  list_index key_col (Grid.row_values (grid_of s title) 1) = Some idx ->
  strip (py_str id_value) <> "" ->
  first_match (grid_of s title) (idx + 1) (strip (py_str id_value)) i ->
  let g := grid_of s title in
  let hs := Grid.row_values g 1 in
  let g' := grid_of (snd (update_fields cfg title id_value updates key_col s)) title in
  (updates <> [] -> fst (update_fields cfg title id_value updates key_col s) = Ok true) /\
  (forall f v j, (f, v) ∈ updates -> list_index f hs = Some j ->
     Grid.cell g' i (S j) = update_str v) /\
  (forall c, 1 <= c ->
     (forall f v, (f, v) ∈ updates -> list_index f hs <> Some (pred c)) ->
     Grid.cell g' i c = Grid.cell g i c) /\
  (forall r c, 1 <= r -> r <> i -> 1 <= c -> Grid.cell g' r c = Grid.cell g r c).
Proof.
  intros Hnd Hopen Hidx Hid Hfirst g hs g'.
  destruct (decide (updates = [])) as [Hempty|Hups].
  { subst updates. subst g'. cbn. split; [done|]. split; [|done].
    intros f v j Hin. by apply elem_of_nil in Hin. }
  pose proof (update_fields_run cfg title id_value updates key_col s k Hups Hopen) as Hrun.
  cbv zeta in Hrun. fold g hs in Hrun, Hidx, Hfirst. rewrite Hidx in Hrun.
  rewrite (first_match_scan g (idx + 1) _ i Hid Hfirst) in Hrun.
  destruct Hrun as [Hok Hg']. fold g' in Hg'.
  destruct Hfirst as ([H2 Hl] & _).
  set (cur := padded hs (Grid.row_values g i)) in *.
  assert (Hlen : length hs <= length (apply_updates hs updates cur)).
  { rewrite apply_updates_length. apply padded_length. }
  split; [intros _; exact Hok|]. split; [|split].
  - intros f v j Hin Hj. rewrite Hg', cell_update by lia.
    rewrite decide_True by done.
    apply list_index_some in Hj as Hjl. destruct Hjl as [Hjl _].
    apply lookup_lt_Some in Hjl. rewrite decide_True by lia. cbn [pred].
    rewrite (apply_updates_written hs updates cur f v j); try done.
    rewrite apply_updates_length in Hlen. lia.
  - intros c Hc Hnone. rewrite Hg', cell_update by lia.
    rewrite decide_True by done. case_decide as Hcl; [|reflexivity].
    rewrite apply_updates_untouched by done. unfold cur.
    rewrite padded_lookup, row_values_cell. reflexivity.
  - intros r c Hr Hri Hc. rewrite Hg', cell_update by lia.
    by rewrite decide_False.
Qed.

Lemma update_fields_miss_run (cfg : config) (title : string) (id_value : pyval)
    (updates : pydict) (key_col : string) (s : remote) (k : string) (g0 : grid) :
  updates <> [] ->
  fst (open_spreadsheet cfg s) = Ok (Some k) ->
  sheets s !! title = Some g0 ->
  let hs := Grid.row_values g0 1 in
  let r := update_fields cfg title id_value updates key_col s in
  match list_index key_col hs with
  | None =>
      r = (Ok false,
           Remote (sheets s)
             (calls s ++ [OpenByKey k; Worksheet title; RowValues title 1]))
  | Some idx =>
      scan_key (strip (py_str id_value)) (tail (Grid.col_values g0 (idx + 1))) 2 = None ->
      r = (Ok false,
           Remote (sheets s)
             (calls s ++ [OpenByKey k; Worksheet title; RowValues title 1;
                          ColValues title (idx + 1)]))
  end.
Proof.
  intros Hups Hopen Hs hs r. subst r. unfold update_sheet_fields_by_id.
  destruct updates as [|u ups]; [done|].
  rewrite bind_run, (open_spreadsheet_ok_inv _ _ _ Hopen). cbn [fst snd].
  rewrite bind_run.
  rewrite (ensure_worksheet_existing title g0) by done. cbn [fst snd sheets calls].
  run_store. rewrite !grid_of_same.
  assert (Hg : grid_of s title = g0) by (unfold grid_of; by rewrite Hs).
  rewrite Hg. fold hs.
  destruct (list_index key_col hs) as [idx|].
  - intros Hscan. run_store. rewrite !grid_of_same, Hg, Hscan.
    tidy_calls. reflexivity.
  - tidy_calls. reflexivity.
Qed.

(** C6: the updater returns false, without touching the remote state,
    when the update mapping is empty or the store is unavailable; it
    returns false when the worksheet has no header row, when the key
    column is not in the header row, and when no data row's stripped key
    cell equals the stripped id.  On an existing worksheet with no row for
    the id it returns false, issues no write call and leaves every
    worksheet as it was. *)
Theorem update_fields_false_cases (cfg : config) (title : string) (id_value : pyval)
    (updates : pydict) (key_col : string) (s : remote) :
  let r := update_fields cfg title id_value updates key_col s in
  let g := grid_of s title in
  (updates = [] -> r = (Ok false, s)) /\
  (fst (open_spreadsheet cfg s) = Ok None -> r = (Ok false, s)) /\
  (forall k, fst (open_spreadsheet cfg s) = Ok (Some k) ->
     (Grid.row_values g 1 = [] -> fst r = Ok false) /\
     (key_col ∉ Grid.row_values g 1 -> fst r = Ok false) /\
     (forall idx, list_index key_col (Grid.row_values g 1) = Some idx ->
        no_match g (idx + 1) (strip (py_str id_value)) -> fst r = Ok false) /\
     (forall idx, is_Some (sheets s !! title) ->
        list_index key_col (Grid.row_values g 1) = Some idx ->
        no_match g (idx + 1) (strip (py_str id_value)) ->
        fst r = Ok false /\ sheets (snd r) = sheets s /\
        Forall (fun c => is_write c = false) (calls_since s (snd r)))).
Proof.
  intros r g. subst r. split; [|split].
  - intros ->. reflexivity.
  - intros Hnone. unfold update_sheet_fields_by_id.
    destruct updates as [|u ups]; [reflexivity|].
    rewrite bind_run, (open_spreadsheet_none_inv _ _ Hnone). reflexivity.
  - intros k Hopen.
    destruct updates as [|u ups] eqn:Eu.
    { repeat split; intros; try reflexivity.
      unfold calls_since. cbn. by rewrite drop_all. }
    assert (Hups : updates <> []) by (by rewrite Eu).
    rewrite <- Eu in *. clear Eu.
    pose proof (update_fields_run cfg title id_value updates key_col s k Hups Hopen) as Hrun.
    cbv zeta in Hrun. fold g in Hrun.
    assert (Habsent : key_col ∉ Grid.row_values g 1 ->
                      fst (update_fields cfg title id_value updates key_col s) = Ok false).
    { intros Hn. apply list_index_none in Hn. rewrite Hn in Hrun. apply Hrun. }
    assert (Hmiss : forall idx, list_index key_col (Grid.row_values g 1) = Some idx ->
              no_match g (idx + 1) (strip (py_str id_value)) ->
              fst (update_fields cfg title id_value updates key_col s) = Ok false).
    { intros idx Hidx Hno. rewrite Hidx, (no_match_scan _ _ _ Hno) in Hrun. apply Hrun. }
    split; [|split; [|split]].
    + intros Hnil. apply Habsent. rewrite Hnil. apply not_elem_of_nil.
    + exact Habsent.
    + exact Hmiss.
    + intros idx [g0 Hs] Hidx Hno. split; [by apply (Hmiss idx)|].
      pose proof (update_fields_miss_run cfg title id_value updates key_col s k g0
                    Hups Hopen Hs) as Hm.
      cbv zeta in Hm.
      assert (Hg : g = g0) by (unfold g, grid_of; by rewrite Hs).
      rewrite <- Hg, Hidx in Hm. specialize (Hm (no_match_scan _ _ _ Hno)).
      rewrite Hm. cbn [snd sheets]. split; [reflexivity|].
      rewrite calls_since_app. repeat constructor.
Qed.

(** ** Bulk write *)

Lemma chunk_positive : 1 <= chunk.
Proof. unfold chunk. lia. Qed.

Lemma append_chunks_run (title : string) (rows : list (list string)) (fuel i : nat)
    (s : remote) :
  length rows - i <= fuel ->
  exists batches,
    calls (snd (append_chunks fuel title rows i s))
      = calls s ++ map (AppendRows title) batches /\
    grid_of (snd (append_chunks fuel title rows i s)) title
      = fold_left Grid.append_rows batches (grid_of s title) /\
    concat batches = drop i rows /\
    Forall (fun b => 1 <= length b <= chunk) batches.
Proof.
  pose proof chunk_positive as Hchunk.
  revert i s. induction fuel as [|fuel IH]; intros i s Hfuel.
  - exists []. cbn. rewrite app_nil_r. repeat split; [|constructor].
    symmetry. apply drop_ge. lia.
  - cbn [append_chunks]. case_decide as Hi.
    + rewrite bind_run.
      set (b := take chunk (drop i rows)).
      set (s' := Remote (<[title := Grid.append_rows (grid_of s title) b]> (sheets s))
                        (calls s ++ [AppendRows title b])).
      change (snd (ws_append_rows title b s)) with s'.
      destruct (IH (i + chunk) s' ltac:(lia)) as (batches & Hcalls & Hgrid & Hcat & Hall).
      exists (b :: batches). repeat split.
      * rewrite Hcalls. unfold s'. cbn [calls map]. by rewrite <- app_assoc.
      * rewrite Hgrid. unfold s'. by rewrite grid_of_insert.
      * cbn [concat]. rewrite Hcat. unfold b.
        rewrite <- (drop_drop rows chunk i). apply take_drop.
      * constructor; [|exact Hall]. unfold b. rewrite length_take, length_drop. lia.
    + exists []. cbn. rewrite app_nil_r. repeat split; [|constructor].
      symmetry. apply drop_ge. lia.
Qed.

Lemma ensure_worksheet_calls (title : string) (headers : option (list string))
    (s : remote) :
  exists cs, calls (snd (_ensure_worksheet title headers s)) = calls s ++ cs.
Proof.
  rewrite ensure_worksheet_unfold.
  destruct headers as [[|h hs]|]; cbn zeta; rewrite lookup_or_add_run;
    destruct (sheets s !! title); cbn [snd sheets calls];
    try destruct (Grid.row_values _ 1); unfold ws_update; rewrite ?writing_run;
    cbn [snd sheets calls]; repeat rewrite <- app_assoc; eauto.
Qed.

Lemma normalize_no_rows (df : DataFrame) (headers : option (list string)) :
  values df = [] -> values (_normalize_df df headers) = [].
Proof.
  intros H. unfold _normalize_df. destruct headers as [cols|]; [|exact H].
  unfold Pandas.select. cbn [values].
  assert (Hfold : forall l d, values d = [] ->
            values (fold_left (fun out c =>
                      if list_mem c (columns out) then out else Pandas.add_column out c)
                    l d) = []).
  { induction l as [|c l IH]; intros d Hd; [exact Hd|]. cbn [fold_left]. apply IH.
    destruct (list_mem c (columns d)); [exact Hd|]. cbn. by rewrite Hd. }
  by rewrite Hfold.
Qed.


(** * Further properties of the store *)

(** ** Unavailable store and rejected credentials *)

(** X1: whatever makes the connection factory return the sentinel
    (flag, client library, spreadsheet identifier or credentials), every
    public operation returns its unavailable result and leaves the remote
    state, call log included, as it was. *)
Theorem unavailable_operations_are_offline (cfg : config) (sheet_name key_col : string)
    (headers : option (list string)) (df : DataFrame) (row updates : pydict)
    (id_value : pyval) (s : remote) :
  fst (open_spreadsheet cfg s) = Ok None ->
  read_df cfg sheet_name headers s = (Ok (Pandas.of_columns (default [] headers)), s) /\
  write_df cfg sheet_name df headers s = (Ok false, s) /\
  upsert cfg sheet_name row key_col headers s = (Ok false, s) /\
  update_fields cfg sheet_name id_value updates key_col s = (Ok false, s).
Proof.
  intros H. apply open_spreadsheet_none_inv in H as Hopen.
  unfold read_sheet_df, write_sheet_df, upsert_sheet_row, update_sheet_fields_by_id.
  rewrite !bind_run, !Hopen. simpl. repeat split.
  destruct updates; [reflexivity|]. rewrite bind_run, Hopen. reflexivity.
Qed.

Lemma open_spreadsheet_exn_inv (cfg : config) (s : remote) :
  fst (open_spreadsheet cfg s) = Exn ->
  exists s',
    open_spreadsheet cfg s = (Exn, s') /\
    (from_service_account_info (resolved_credentials cfg) = false /\ s' = s \/
     from_service_account_info (resolved_credentials cfg) = true /\
     authenticate (resolved_credentials cfg) (spreadsheet_key cfg) = false /\
     s' = Remote (sheets s) (calls s ++ [OpenByKey (spreadsheet_key cfg)])).
Proof.
  rewrite open_spreadsheet_unfold. destruct (checks cfg); [|discriminate].
  destruct (from_service_account_info _) eqn:Ef.
  - unfold open_by_key. destruct (authenticate _ _) eqn:Ea; [discriminate|].
    intros _. eexists. split; [reflexivity|]. right. by repeat split.
  - intros _. exists s. split; [reflexivity|]. by left.
Qed.

(** X2: when the four checks pass and opening the spreadsheet raises,
    the read, the bulk write, the upsert and an update with a non-empty
    mapping all raise, with no worksheet touched.  They raise before any
    call when credentials cannot be built from the document resolved,
    and after the one exchange, by the stripped identifier, when the
    service refuses to open the spreadsheet.  An update with an empty
    mapping returns false before any connection is attempted. *)
Theorem rejected_credentials_propagate (cfg : config) (sheet_name key_col : string)
    (headers : option (list string)) (df : DataFrame) (row updates : pydict)
    (id_value : pyval) (s : remote) :
  fst (open_spreadsheet cfg s) = Exn ->
  exists s',
    (from_service_account_info (resolved_credentials cfg) = false /\ s' = s \/
     from_service_account_info (resolved_credentials cfg) = true /\
     authenticate (resolved_credentials cfg) (spreadsheet_key cfg) = false /\
     s' = Remote (sheets s) (calls s ++ [OpenByKey (spreadsheet_key cfg)])) /\
    read_df cfg sheet_name headers s = (Exn, s') /\
    write_df cfg sheet_name df headers s = (Exn, s') /\
    upsert cfg sheet_name row key_col headers s = (Exn, s') /\
    (updates <> [] -> update_fields cfg sheet_name id_value updates key_col s = (Exn, s')) /\
    update_fields cfg sheet_name id_value [] key_col s = (Ok false, s).
Proof.
  intros H. destruct (open_spreadsheet_exn_inv cfg s H) as (s' & Hopen & Hs').
  exists s'. split; [exact Hs'|].
  unfold read_sheet_df, write_sheet_df, upsert_sheet_row, update_sheet_fields_by_id.
  rewrite !bind_run, !Hopen. simpl. repeat split.
  intros Hups. destruct updates; [done|]. rewrite bind_run, Hopen. reflexivity.
Qed.

(** ** The worksheet manager, by worksheet *)

Lemma lookup_or_add_lookup (title : string) (cols : nat) (s : remote) (t : string) :
  sheets (snd (lookup_or_add title cols s)) !! t =
  if decide (t = title) then Some (grid_of s title) else sheets s !! t.
Proof.
  rewrite lookup_or_add_run. unfold grid_of.
  destruct (sheets s !! title) as [g|] eqn:E; cbn [snd sheets]; case_decide as Ht.
  - subst t. by rewrite E.
  - reflexivity.
  - subst t. by rewrite lookup_insert_eq.
  - by rewrite lookup_insert_ne.
Qed.

Lemma ensure_worksheet_lookup (title : string) (headers : option (list string))
    (s : remote) (t : string) :
  sheets (snd (_ensure_worksheet title headers s)) !! t =
  if decide (t = title) then Some (init_header headers (grid_of s title))
  else sheets s !! t.
Proof.
  rewrite ensure_worksheet_unfold. unfold init_header.
  destruct headers as [[|h hs]|]; cbn zeta; try apply lookup_or_add_lookup.
  rewrite lookup_or_add_grid.
  destruct (Grid.row_values (grid_of s title) 1) eqn:Er.
  - unfold ws_update. rewrite writing_run. cbn [snd sheets].
    rewrite grid_of_same, lookup_or_add_grid. case_decide as Ht.
    + subst t. by rewrite lookup_insert_eq.
    + rewrite lookup_insert_ne by done. rewrite lookup_or_add_lookup.
      by rewrite decide_False.
  - cbn [snd sheets]. apply lookup_or_add_lookup.
Qed.

Lemma writing_lookup (c : call) (title : string) (f : grid -> grid) (s : remote)
    (t : string) :
  sheets (snd (writing c title f s)) !! t =
  if decide (t = title) then Some (f (grid_of s title)) else sheets s !! t.
Proof.
  rewrite writing_run. cbn [snd sheets]. case_decide as Ht.
  - subst t. by rewrite lookup_insert_eq.
  - by rewrite lookup_insert_ne.
Qed.

Lemma overwrite_twice (old values : list string) :
  Grid.overwrite (Grid.overwrite old values) values = Grid.overwrite old values.
Proof. unfold Grid.overwrite. by rewrite drop_app_length. Qed.

Lemma update_twice (g : grid) (values : list string) :
  Grid.update (Grid.update g 1 values) 1 values = Grid.update g 1 values.
Proof.
  unfold Grid.update at 2 3. cbn [pred]. case_decide as Hlen.
  - unfold Grid.update. cbn [pred]. rewrite length_insert, decide_True by done.
    unfold Grid.row. cbn [pred]. rewrite list_lookup_insert_eq by done. cbn [default from_option id].
    rewrite overwrite_twice. apply list_insert_insert_eq.
  - destruct g as [|r g]; [|cbn in Hlen; lia]. cbn.
    unfold Grid.update. cbn. unfold Grid.overwrite. by rewrite drop_all, app_nil_r.
Qed.

Lemma init_header_idem (headers : option (list string)) (g : grid) :
  init_header headers (init_header headers g) = init_header headers g.
Proof.
  unfold init_header. destruct headers as [[|h hs]|]; try reflexivity.
  destruct (Grid.row_values g 1) eqn:E.
  - destruct (Grid.row_values (Grid.update g 1 (h :: hs)) 1); [|reflexivity].
    apply update_twice.
  - by rewrite E.
Qed.

(** Headers that hold a name leave a header row that is not blank. *)
Lemma named_header_written (g : grid) (hs : list string) (c : string) :
  c ∈ hs -> c <> "" -> Grid.row_values (init_header (Some hs) g) 1 <> [].
Proof.
  intros Hin Hc. apply list_elem_of_lookup_1 in Hin as [j Hj].
  assert (Hhs : hs <> []) by (intros E; by rewrite E in Hj).
  destruct (init_header_cases hs g Hhs) as [[_ ->]|[H ->]]; [|exact H].
  apply (nonblank_cell_row1 _ (S j)). rewrite cell_update by lia.
  rewrite decide_True by done. apply lookup_lt_Some in Hj as Hlt.
  rewrite decide_True by lia. cbn [pred]. by rewrite Hj.
Qed.

(** The calls that ensuring a worksheet issues, in order. *)
Lemma ensure_worksheet_trace (title : string) (headers : option (list string))
    (s : remote) :
  calls_since s (snd (_ensure_worksheet title headers s)) =
  Worksheet title
  :: (if bool_decide (is_Some (sheets s !! title)) then []
      else [AddWorksheet title 1000 (max 26 (length (default [] headers)))])
  ++ match headers with
     | Some ((_ :: _) as hs) =>
         RowValues title 1
         :: match Grid.row_values (grid_of s title) 1 with
            | [] => [Update title 1 hs]
            | _ => []
            end
     | _ => []
     end.
Proof.
  rewrite ensure_worksheet_unfold.
  destruct headers as [[|h hs]|]; cbn zeta; rewrite ?lookup_or_add_grid, lookup_or_add_run;
    destruct (sheets s !! title) as [g|] eqn:E; cbn [snd sheets calls];
    rewrite ?(bool_decide_true (is_Some (Some g))) by eauto;
    rewrite ?(bool_decide_false (is_Some None)) by (intros [? ?]; discriminate);
    try destruct (Grid.row_values _ 1); unfold ws_update; rewrite ?writing_run;
    cbn [snd sheets calls]; tidy_calls; reflexivity.
Qed.

(** X3: ensuring a worksheet leaves it in existence, touches no other
    worksheet, never rewrites a header row that holds a value (whatever
    the expected headers are) and never changes a cell of row 2 or below;
    a blank first row receives the expected headers. *)
Theorem ensure_worksheet_preserves (title : string) (headers : option (list string))
    (s : remote) :
  let g := grid_of s title in
  let s' := snd (_ensure_worksheet title headers s) in
  is_Some (sheets s' !! title) /\
  (forall t, t <> title -> sheets s' !! t = sheets s !! t) /\
  (Grid.row_values g 1 <> [] -> grid_of s' title = g) /\
  (forall r c, 2 <= r -> 1 <= c -> Grid.cell (grid_of s' title) r c = Grid.cell g r c) /\
  (forall hs c, headers = Some hs -> hs <> [] -> Grid.row_values g 1 = [] ->
     1 <= c <= length hs -> Grid.cell (grid_of s' title) 1 c = default "" (hs !! pred c)).
Proof.
  cbv zeta. rewrite ensure_worksheet_grid. split; [|split; [|split; [|split]]].
  - rewrite ensure_worksheet_lookup, decide_True by done. eauto.
  - intros t Ht. by rewrite ensure_worksheet_lookup, decide_False.
  - intros Hrow. unfold init_header. destruct headers as [[|h hs]|]; try reflexivity.
    by destruct (Grid.row_values (grid_of s title) 1).
  - intros r c Hr Hc. by apply init_header_data_cell.
  - intros hs c -> Hhs Hblank Hc.
    destruct (init_header_cases hs (grid_of s title) Hhs) as [[_ ->]|[Hn _]]; [|done].
    rewrite cell_update by lia. rewrite decide_True by done. by rewrite decide_True by lia.
Qed.

(** X4: ensuring is idempotent on the document: a second run leaves every
    worksheet as the first left it, and when no headers are expected or
    one of them is a non-empty name the second run issues no write. *)
Theorem ensure_worksheet_idempotent (title : string) (headers : option (list string))
    (s : remote) :
  let s1 := snd (_ensure_worksheet title headers s) in
  let s2 := snd (_ensure_worksheet title headers s1) in
  sheets s2 = sheets s1 /\
  (default [] headers = [] \/ (exists c, c ∈ default [] headers /\ c <> "") ->
   count_calls is_write (calls_since s1 s2) = 0).
Proof.
  cbv zeta. split.
  - apply map_eq. intros t. rewrite ensure_worksheet_lookup.
    rewrite ensure_worksheet_grid, init_header_idem.
    case_decide as Ht; [|reflexivity]. subst t.
    by rewrite ensure_worksheet_lookup, decide_True.
  - intros Hcond. rewrite ensure_worksheet_trace, ensure_worksheet_grid.
    rewrite bool_decide_true.
    2: { rewrite ensure_worksheet_lookup, decide_True by done. eauto. }
    destruct headers as [[|h hs]|]; try reflexivity.
    destruct Hcond as [Hnil|(c & Hin & Hc)]; [discriminate|].
    cbn [default from_option id] in Hin.
    pose proof (named_header_written (grid_of s title) (h :: hs) c Hin Hc) as Hrow.
    destruct (Grid.row_values (init_header (Some (h :: hs)) (grid_of s title)) 1);
      [done|reflexivity].
Qed.

(** X5: a worksheet that does not exist is created with 1000 rows and
    with as many columns as there are expected headers, 26 at the least;
    it then holds the header row alone, or nothing when no headers are
    expected.  An existing worksheet is never created again. *)
Theorem ensure_worksheet_creation (title : string) (headers : option (list string))
    (s : remote) :
  let cs := calls_since s (snd (_ensure_worksheet title headers s)) in
  let cols := max 26 (length (default [] headers)) in
  (sheets s !! title = None ->
     cs !! 1 = Some (AddWorksheet title 1000 cols) /\
     26 <= cols /\ length (default [] headers) <= cols /\
     grid_of (snd (_ensure_worksheet title headers s)) title
       = match default [] headers with [] => [] | hs => [hs] end) /\
  (is_Some (sheets s !! title) -> forall rows n, AddWorksheet title rows n ∉ cs).
Proof.
  cbv zeta. rewrite ensure_worksheet_trace, ensure_worksheet_grid. split.
  - intros Hnone. rewrite Hnone.
    rewrite bool_decide_false by (intros [? ?]; discriminate).
    split; [reflexivity|]. split; [lia|]. split; [lia|].
    unfold grid_of. rewrite Hnone. destruct headers as [[|h hs]|]; reflexivity.
  - intros Hsome rows n. rewrite bool_decide_true by done.
    destruct headers as [[|h hs]|]; cbn [app];
      try destruct (Grid.row_values _ 1);
      rewrite ?elem_of_cons, ?elem_of_nil; intros H; intuition discriminate.
Qed.

(** ** Table normalization *)

Lemma list_index_elem (c : string) (l : list string) :
  c ∈ l -> exists i, list_index c l = Some i.
Proof.
  intros H. destruct (list_index c l) as [i|] eqn:E; [eauto|].
  by apply list_index_none in E.
Qed.

Lemma list_index_app_l (c : string) (l l' : list string) (i : nat) :
  list_index c l = Some i -> list_index c (l ++ l') = Some i.
Proof.
  revert i. induction l as [|y l IH]; intros i H; [discriminate|]. cbn in *.
  case_decide; [done|]. destruct (list_index c l) as [j|]; [|discriminate].
  by rewrite (IH j eq_refl).
Qed.

Lemma list_index_app_r (c : string) (l l' : list string) :
  c ∉ l -> list_index c (l ++ l') = (fun i => length l + i) <$> list_index c l'.
Proof.
  induction l as [|y l IH]; intros H; cbn.
  - by destruct (list_index c l').
  - apply not_elem_of_cons in H as [Hy Hl]. rewrite decide_False by done.
    rewrite IH by done. by destruct (list_index c l').
Qed.

Lemma positions_absent (c : string) (l : list string) (k : nat) :
  c ∉ l -> Pandas.positions c l k = [].
Proof.
  revert k. induction l as [|y l IH]; intros k H; [reflexivity|]. cbn.
  apply not_elem_of_cons in H as [Hy Hl]. rewrite decide_False by done. by apply IH.
Qed.

Lemma positions_unique (c : string) (l : list string) (k i : nat) :
  NoDup l -> list_index c l = Some i -> Pandas.positions c l k = [k + i].
Proof.
  revert k i. induction l as [|y l IH]; intros k i Hnd H; [discriminate|].
  apply NoDup_cons in Hnd as [Hy Hnd]. cbn in *. case_decide as Hc.
  - injection H as <-. subst y. rewrite positions_absent by done. f_equal. lia.
  - destruct (list_index c l) as [j|] eqn:E; [|discriminate]. injection H as <-.
    rewrite (IH (S k) j) by done. f_equal. lia.
Qed.

Lemma add_missing_cons (c : string) (cols : list string) (df : DataFrame) :
  add_missing (c :: cols) df =
  add_missing cols (if list_mem c (columns df) then df else Pandas.add_column df c).
Proof. reflexivity. Qed.

Lemma add_missing_spec (cols : list string) (df : DataFrame) :
  exists extra,
    columns (add_missing cols df) = columns df ++ extra /\
    values (add_missing cols df)
      = map (fun r => r ++ replicate (length extra) (PyStr "")) (values df) /\
    (forall c, c ∈ extra -> c ∉ columns df) /\
    NoDup extra /\
    (forall c, c ∈ cols -> c ∈ columns df ++ extra).
Proof.
  revert df. induction cols as [|c cols IH]; intros df.
  - exists []. cbn. rewrite app_nil_r. repeat split.
    + symmetry. erewrite map_ext; [apply map_id|]. intros r. cbn. apply app_nil_r.
    + intros c H. by apply elem_of_nil in H.
    + constructor.
    + intros c H. by apply elem_of_nil in H.
  - rewrite add_missing_cons. destruct (list_mem c (columns df)) eqn:Hc;
      [apply bool_decide_eq_true in Hc|apply bool_decide_eq_false in Hc].
    + destruct (IH df) as (extra & H1 & H2 & H3 & H4 & H5).
      exists extra. repeat split; try done.
      intros c' Hin. apply elem_of_cons in Hin as [->|Hin];
        [apply elem_of_app; by left|by apply H5].
    + destruct (IH (Pandas.add_column df c)) as (extra & H1 & H2 & H3 & H4 & H5).
      cbn [Pandas.add_column columns values] in *.
      exists (c :: extra). repeat split.
      * rewrite H1. by rewrite <- app_assoc.
      * rewrite H2, map_map. apply map_ext. intros r. by rewrite <- app_assoc.
      * intros c' Hin. apply elem_of_cons in Hin as [->|Hin]; [done|].
        intros Hdf. apply (H3 c' Hin). apply elem_of_app. by left.
      * apply NoDup_cons. split; [|done]. intros Hin. apply (H3 c Hin).
        apply elem_of_app. right. left.
      * intros c' Hin. apply elem_of_cons in Hin as [->|Hin].
        -- apply elem_of_app. right. left.
        -- specialize (H5 c' Hin). rewrite <- app_assoc in H5. exact H5.
Qed.

Lemma select_unique (out : DataFrame) (cols : list string) :
  NoDup (columns out) -> (forall c, c ∈ cols -> c ∈ columns out) ->
  Pandas.select out cols =
  Frame cols (map (fun r => map (normalized_cell (columns out) r) cols) (values out)).
Proof.
  intros Hnd Hin. unfold Pandas.select.
  assert (Hpicks : flat_map (fun c => Pandas.positions c (columns out) 0) cols
                   = map (fun c => default 0 (list_index c (columns out))) cols).
  { induction cols as [|c cols IH]; [reflexivity|]. cbn.
    destruct (list_index_elem c (columns out)) as [i Hi]; [apply Hin; left|].
    rewrite (positions_unique c _ 0 i Hnd Hi), Hi. cbn. f_equal.
    apply IH. intros c' Hc'. apply Hin. by right. }
  rewrite Hpicks, !map_map. f_equal.
  - rewrite <- (map_id cols) at 2. apply map_ext_in. intros c Hc.
    apply list_elem_of_In in Hc.
    destruct (list_index_elem c (columns out) (Hin c Hc)) as [i Hi]. rewrite Hi. cbn.
    apply list_index_some in Hi as [-> _]. reflexivity.
  - apply map_ext. intros r. rewrite map_map. apply map_ext_in. intros c Hc.
    apply list_elem_of_In in Hc. unfold normalized_cell.
    destruct (list_index_elem c (columns out) (Hin c Hc)) as [i Hi]. by rewrite Hi.
Qed.

Lemma normalize_df_unfold (df : DataFrame) (cols : list string) :
  _normalize_df df (Some cols) = Pandas.select (add_missing cols df) cols.
Proof. reflexivity. Qed.

(** The normalized table, row by row. *)
Lemma normalize_df_rows (df : DataFrame) (cols : list string) :
  NoDup (columns df) -> rectangular df ->
  _normalize_df df (Some cols) =
  Frame cols (map (fun r => map (normalized_cell (columns df) r) cols) (values df)).
Proof.
  intros Hnd Hrect. rewrite normalize_df_unfold.
  destruct (add_missing_spec cols df) as (extra & H1 & H2 & H3 & H4 & H5).
  rewrite select_unique.
  2: { rewrite H1. apply NoDup_app. split; [done|]. split; [|done].
       intros c Hc Hex. by apply (H3 c). }
  2: { intros c Hc. rewrite H1. by apply H5. }
  f_equal. rewrite H1, H2, map_map.
  unfold rectangular in Hrect. rewrite Forall_forall in Hrect.
  apply map_ext_in. intros r Hr. apply list_elem_of_In, Hrect in Hr.
  apply map_ext_in. intros c Hc. apply list_elem_of_In in Hc.
  unfold normalized_cell.
  destruct (list_index c (columns df)) as [i|] eqn:Ei.
  - rewrite (list_index_app_l _ _ _ _ Ei).
    apply list_index_some in Ei as [Ei _]. apply lookup_lt_Some in Ei.
    by rewrite lookup_app_l by lia.
  - apply list_index_none in Ei. rewrite list_index_app_r by done.
    assert (Hex : c ∈ extra).
    { specialize (H5 c Hc). apply elem_of_app in H5 as [?|?]; done. }
    destruct (list_index_elem c extra Hex) as [j Hj]. rewrite Hj. cbn.
    apply list_index_some in Hj as [Hj _]. apply lookup_lt_Some in Hj.
    rewrite lookup_app_r by lia. rewrite lookup_replicate_2 by lia. reflexivity.
Qed.

(** X6: normalizing a table with distinct column labels against a list of
    headers yields exactly those headers as columns, in their order (a
    column outside the list is dropped), one row per row of the table and
    each as wide as the headers; under a header the row keeps its value
    for that column, and holds the empty string when the table had no such
    column. *)
Theorem normalize_df_shape (df : DataFrame) (cols : list string) :
  NoDup (columns df) -> rectangular df ->
  let out := _normalize_df df (Some cols) in
  columns out = cols /\
  length (values out) = length (values df) /\
  rectangular out /\
  (forall k r j c, values df !! k = Some r -> cols !! j = Some c ->
     exists r', values out !! k = Some r' /\
       r' !! j = Some (match list_index c (columns df) with
                       | Some i => default PyNone (r !! i)
                       | None => PyStr ""
                       end)).
Proof.
  intros Hnd Hrect. cbv zeta. rewrite normalize_df_rows by done. cbn [columns values].
  split; [reflexivity|]. split; [apply length_map|]. split.
  - unfold rectangular. cbn [columns values]. apply Forall_forall.
    intros r' Hr'. apply list_elem_of_fmap in Hr' as (r & -> & _). apply length_map.
  - intros k r j c Hk Hj. eexists. split.
    + rewrite list_lookup_fmap, Hk. reflexivity.
    + rewrite list_lookup_fmap, Hj. reflexivity.
Qed.

(** A table that already has the headers as its columns is left as it is. *)
Lemma normalize_df_same_columns (cols : list string) (rows : list (list pyval)) :
  NoDup cols -> rectangular (Frame cols rows) ->
  _normalize_df (Frame cols rows) (Some cols) = Frame cols rows.
Proof.
  intros Hcols Hrect. rewrite normalize_df_rows by done. cbn [columns values]. f_equal.
  rewrite <- (map_id rows) at 2. apply map_ext_in. intros r Hr.
  apply list_elem_of_In in Hr. unfold rectangular in Hrect.
  rewrite Forall_forall in Hrect. specialize (Hrect r Hr). cbn [columns] in Hrect.
  apply list_eq. intros j. rewrite list_lookup_fmap.
  destruct (cols !! j) as [c|] eqn:Ej; cbn.
  - unfold normalized_cell.
    assert (Hidx : list_index c cols = Some j).
    { destruct (list_index_elem c cols) as [i Hi]; [by eapply list_elem_of_lookup_2|].
      apply list_index_some in Hi as Hi'. destruct Hi' as [Hi' _].
      by rewrite (NoDup_lookup _ _ _ _ Hcols Hi' Ej) in Hi. }
    rewrite Hidx. apply lookup_lt_Some in Ej.
    destruct (lookup_lt_is_Some_2 r j) as [v Hv]; [lia|]. by rewrite Hv.
  - apply lookup_ge_None in Ej. symmetry. apply lookup_ge_None. lia.
Qed.

(** X7: normalization is idempotent: normalizing the result again against
    the same distinct headers changes nothing. *)
Theorem normalize_df_idempotent (df : DataFrame) (cols : list string) :
  NoDup (columns df) -> rectangular df -> NoDup cols ->
  _normalize_df (_normalize_df df (Some cols)) (Some cols) = _normalize_df df (Some cols).
Proof.
  intros Hnd Hrect Hcols. rewrite (normalize_df_rows df cols) by done.
  apply normalize_df_same_columns; [done|].
  unfold rectangular. cbn [columns values]. apply Forall_forall.
  intros r' Hr'. apply list_elem_of_fmap in Hr' as (r & -> & _). apply length_map.
Qed.

(** ** Bulk write, by its result *)

(** The string written for a value of the normalized table. *)
Lemma cell_str_normalized (cols : list string) (r : list pyval) (c : string) :
  Pandas.cell_str (normalized_cell cols r c) =
  match list_index c cols with
  | Some i => Pandas.cell_str (default PyNone (r !! i))
  | None => ""
  end.
Proof. unfold normalized_cell. by destruct (list_index c cols). Qed.

(** C4: with the store available, the bulk write returns true and
    issues, after opening and ensuring the worksheet, one clear of the
    worksheet, then one write of the header row at row 1, then one append
    call per batch; the batches are non-empty, hold at most 500 rows each
    and, put end to end, are the rows of the normalized table in order,
    every cell as its string and an absent value as the empty string.
    Cell by cell: without headers every row of the table is written, a
    value as its string and [None] as the empty string; under headers,
    for a table with distinct labels, every row is written along the
    headers, the cell under a header being the string of the row's value
    in the column of that label, and the empty string when the value is
    absent or the table has no such column; a table without rows or
    without columns has no row written.  The worksheet ends as the header
    row followed by the appended batches; for a table without rows it is
    the header row alone, and the call still returns true. *)
Theorem write_sheet_df_trace (cfg : config) (title : string) (df : DataFrame)
    (headers : option (list string)) (s : remote) (k : string) :
  fst (open_spreadsheet cfg s) = Ok (Some k) ->
  let target := _normalize_df df headers in
  let hs := match headers with None => columns target | Some h => h end in
  let s1 := Remote (sheets s) (calls s ++ [OpenByKey k]) in
  let r := write_df cfg title df headers s in
  let rows := if Pandas.empty target then [] else Pandas.to_string_rows target in
  let text := fun v : pyval => match v with PyNone => "" | _ => py_str v end in
  fst r = Ok true /\
  (exists batches,
     calls_since s (snd r) =
       OpenByKey k :: calls_since s1 (snd (_ensure_worksheet title (Some hs) s1))
       ++ [Clear title; Update title 1 hs] ++ map (AppendRows title) batches /\
     Forall (fun b => 1 <= length b <= 500) batches /\
     concat batches = rows /\
     grid_of (snd r) title = fold_left Grid.append_rows batches [hs]) /\
  (values df = [] -> grid_of (snd r) title = [hs]) /\
  (headers = None ->
     rows = match values df, columns df with
            | [], _ | _, [] => []
            | _, _ => map (map text) (values df)
            end) /\
  (forall cols, headers = Some cols -> NoDup (columns df) -> rectangular df ->
     rows = match values df, cols with
            | [], _ | _, [] => []
            | _, _ =>
                map (fun row =>
                       map (fun c => match list_index c (columns df) with
                                     | Some i => text (default PyNone (row !! i))
                                     | None => ""
                                     end) cols)
                    (values df)
            end).
Proof.
  intros Hopen target hs s1 r rows text.
  assert (Hnone : headers = None ->
            rows = match values df, columns df with
                   | [], _ | _, [] => []
                   | _, _ => map (map text) (values df)
                   end).
  { intros ->. unfold rows, target, _normalize_df, Pandas.empty, Pandas.to_string_rows.
    by destruct (values df), (columns df). }
  assert (Hsome : forall cols, headers = Some cols -> NoDup (columns df) -> rectangular df ->
            rows = match values df, cols with
                   | [], _ | _, [] => []
                   | _, _ =>
                       map (fun row =>
                              map (fun c => match list_index c (columns df) with
                                            | Some i => text (default PyNone (row !! i))
                                            | None => ""
                                            end) cols)
                           (values df)
                   end).
  { intros cols -> Hnd Hrect. unfold rows, target. rewrite normalize_df_rows by done.
    unfold Pandas.empty, Pandas.to_string_rows. cbn [columns values].
    destruct (values df) as [|row0 rest]; [reflexivity|]. destruct cols as [|c0 cols'].
    { reflexivity. }
    set (cols := c0 :: cols').
    match goal with |- (if _ then _ else ?x) = ?rhs => change (x = rhs) end.
    rewrite map_map. apply map_ext. intros row. rewrite map_map. apply map_ext.
    intros c. exact (cell_str_normalized (columns df) row c). }
  subst r. unfold write_sheet_df.
  rewrite bind_run, (open_spreadsheet_ok_inv _ _ _ Hopen). cbn [fst snd].
  fold target hs s1. rewrite !bind_run.
  destruct (ensure_worksheet_calls title (Some hs) s1) as [pre Hpre].
  set (s2 := snd (_ensure_worksheet title (Some hs) s1)) in *.
  assert (Hsince : calls_since s1 s2 = pre).
  { unfold calls_since. rewrite Hpre. by rewrite drop_app_length. }
  rewrite Hsince. unfold ws_clear, ws_update. rewrite !writing_run. cbn [fst snd].
  rewrite grid_of_insert.
  set (s3 := Remote _ _).
  assert (Hcalls3 : calls s3 = calls s ++ OpenByKey k :: pre ++ [Clear title; Update title 1 hs]).
  { unfold s3. cbn [calls]. rewrite Hpre. unfold s1. cbn [calls].
    repeat rewrite <- app_assoc. reflexivity. }
  assert (Hgrid3 : grid_of s3 title = [hs]).
  { unfold s3. rewrite grid_of_insert. reflexivity. }
  unfold rows in *. clear rows.
  destruct (Pandas.empty target) eqn:Eempty.
  - unfold ret. cbn [fst snd]. split; [reflexivity|]. split; [|split; [|split]].
    + exists []. split; [|split; [constructor|split; [reflexivity|exact Hgrid3]]].
      unfold calls_since. rewrite Hcalls3, drop_app_length. cbn [map].
      by rewrite app_nil_r.
    + intros _. exact Hgrid3.
    + exact Hnone.
    + exact Hsome.
  - rewrite bind_run. unfold ret. cbn [fst snd]. split; [reflexivity|].
    set (trows := Pandas.to_string_rows target) in *.
    destruct (append_chunks_run title trows (length trows) 0 s3 ltac:(lia))
      as (batches & Hcalls & Hgrid & Hcat & Hall).
    split; [|split; [|split]].
    + exists batches. split; [|split; [exact Hall|split; [exact Hcat|]]].
      * unfold calls_since. rewrite Hcalls, Hcalls3. rewrite <- app_assoc.
        rewrite drop_app_length. cbn [app]. by rewrite <- app_assoc.
      * by rewrite Hgrid, Hgrid3.
    + intros Hnil. exfalso.
      pose proof (normalize_no_rows df headers Hnil) as Hv. fold target in Hv.
      unfold Pandas.empty in Eempty. by rewrite Hv in Eempty.
    + exact Hnone.
    + exact Hsome.
Qed.

Lemma append_chunks_exact (title : string) (rows : list (list string)) (fuel i : nat)
    (s : remote) :
  calls (snd (append_chunks fuel title rows i s))
    = calls s ++ map (AppendRows title) (chunks_from fuel i rows) /\
  grid_of (snd (append_chunks fuel title rows i s)) title
    = fold_left Grid.append_rows (chunks_from fuel i rows) (grid_of s title) /\
  (forall t, t <> title ->
     sheets (snd (append_chunks fuel title rows i s)) !! t = sheets s !! t).
Proof.
  revert i s. induction fuel as [|fuel IH]; intros i s.
  - cbn. rewrite app_nil_r. done.
  - cbn [append_chunks chunks_from]. case_decide as Hi.
    + rewrite bind_run.
      set (b := take chunk (drop i rows)).
      set (s' := Remote (<[title := Grid.append_rows (grid_of s title) b]> (sheets s))
                        (calls s ++ [AppendRows title b])).
      change (snd (ws_append_rows title b s)) with s'.
      destruct (IH (i + chunk) s') as (Hcalls & Hgrid & Hother).
      split; [|split].
      * rewrite Hcalls. unfold s'. cbn [calls map]. by rewrite <- app_assoc.
      * rewrite Hgrid. unfold s'. by rewrite grid_of_insert.
      * intros t Ht. rewrite Hother by done. unfold s'. cbn [sheets].
        by rewrite lookup_insert_ne.
    + cbn. rewrite app_nil_r. done.
Qed.

Lemma chunks_from_spec (rows : list (list string)) (fuel i : nat) :
  length rows - i <= fuel ->
  concat (chunks_from fuel i rows) = drop i rows /\
  Forall (fun b => 1 <= length b <= chunk) (chunks_from fuel i rows).
Proof.
  pose proof chunk_positive as Hchunk.
  revert i. induction fuel as [|fuel IH]; intros i Hfuel.
  - cbn. split; [|constructor]. symmetry. apply drop_ge. lia.
  - cbn [chunks_from]. case_decide as Hi.
    + destruct (IH (i + chunk) ltac:(lia)) as [Hcat Hall]. split.
      * cbn [concat]. rewrite Hcat. rewrite <- (drop_drop rows chunk i). apply take_drop.
      * constructor; [|exact Hall]. rewrite length_take, length_drop. lia.
    + cbn. split; [|constructor]. symmetry. apply drop_ge. lia.
Qed.

Lemma batches_spec (rows : list (list string)) :
  concat (batches rows) = rows /\
  Forall (fun b => 1 <= length b <= chunk) (batches rows).
Proof.
  unfold batches. destruct (chunks_from_spec rows (length rows) 0 ltac:(lia)) as [H1 H2].
  by rewrite drop_0 in H1.
Qed.

(** The run of an available bulk write. *)
Lemma write_sheet_df_run (cfg : config) (title : string) (df : DataFrame)
    (headers : option (list string)) (s : remote) (k : string) :
  fst (open_spreadsheet cfg s) = Ok (Some k) ->
  let target := _normalize_df df headers in
  let hs := match headers with None => columns target | Some h => h end in
  let r := write_df cfg title df headers s in
  fst r = Ok true /\
  grid_of (snd r) title = fold_left Grid.append_rows (batches (rows_to_write target)) [hs] /\
  (forall t, t <> title -> sheets (snd r) !! t = sheets s !! t).
Proof.
  intros Hopen target hs r. subst r. unfold write_sheet_df.
  rewrite bind_run, (open_spreadsheet_ok_inv _ _ _ Hopen). cbn [fst snd].
  fold target hs. rewrite !bind_run.
  set (s1 := Remote (sheets s) (calls s ++ [OpenByKey k])).
  set (s2 := snd (_ensure_worksheet title (Some hs) s1)).
  assert (Hother2 : forall t, t <> title -> sheets s2 !! t = sheets s !! t).
  { intros t Ht. unfold s2. by rewrite ensure_worksheet_lookup, decide_False. }
  unfold ws_clear, ws_update. rewrite !writing_run. cbn [fst snd].
  rewrite grid_of_insert.
  set (s3 := Remote _ _).
  assert (Hgrid3 : grid_of s3 title = [hs]).
  { unfold s3. rewrite grid_of_insert. reflexivity. }
  assert (Hother3 : forall t, t <> title -> sheets s3 !! t = sheets s !! t).
  { intros t Ht. unfold s3. cbn [sheets]. rewrite !lookup_insert_ne by done.
    by apply Hother2. }
  unfold rows_to_write. destruct (Pandas.empty target) eqn:Eempty.
  - unfold ret. cbn [fst snd]. split; [reflexivity|]. split; [exact Hgrid3|exact Hother3].
  - rewrite bind_run. unfold ret. cbn [fst snd]. split; [reflexivity|].
    destruct (append_chunks_exact title (Pandas.to_string_rows target)
                (length (Pandas.to_string_rows target)) 0 s3) as (_ & Hgrid & Hother).
    split.
    + rewrite Hgrid, Hgrid3. reflexivity.
    + intros t Ht. rewrite Hother by done. by apply Hother3.
Qed.

Lemma write_sheet_df_closed (cfg : config) (title : string) (df : DataFrame)
    (headers : option (list string)) (s : remote) :
  (fst (open_spreadsheet cfg s) = Ok None -> fst (write_df cfg title df headers s) = Ok false) /\
  (fst (open_spreadsheet cfg s) = Exn -> fst (write_df cfg title df headers s) = Exn).
Proof.
  unfold write_sheet_df. rewrite bind_run. split; intros H; by rewrite H.
Qed.

(** X8: the bulk write answers false only for the sentinel.  It returns
    false exactly when the connection factory returned the sentinel, so
    that once the spreadsheet is open it never answers false; it returns
    true only when the spreadsheet was opened; and it raises whenever
    opening raised. *)
Theorem write_sheet_df_outcome (cfg : config) (sheet_name : string) (df : DataFrame)
    (headers : option (list string)) (s : remote) :
  let r := fst (write_df cfg sheet_name df headers s) in
  (r = Ok false <-> fst (open_spreadsheet cfg s) = Ok None) /\
  (r = Ok true -> exists key, fst (open_spreadsheet cfg s) = Ok (Some key)) /\
  (fst (open_spreadsheet cfg s) = Exn -> r = Exn).
Proof.
  cbv zeta. destruct (write_sheet_df_closed cfg sheet_name df headers s) as [Hnone Hexn].
  destruct (fst (open_spreadsheet cfg s)) as [[key|]|] eqn:E.
  - pose proof (write_sheet_df_run cfg sheet_name df headers s key E) as [Hok _].
    cbv zeta in Hok. rewrite Hok. repeat split; try done. eauto.
  - rewrite Hnone by done. repeat split; done.
  - rewrite Hexn by done. repeat split; done.
Qed.

Lemma drop_end_all_kept {A} (p : A -> bool) (l : list A) :
  Forall (fun x => p x = false) l -> Grid.drop_end p l = l.
Proof.
  induction 1 as [|x l Hx _ IH]; [reflexivity|]. cbn. rewrite IH.
  destruct l; [by rewrite Hx|reflexivity].
Qed.

Lemma append_rows_no_blank (g : grid) (rows : list (list string)) :
  no_blank_row g -> Grid.append_rows g rows = g ++ rows.
Proof.
  intros H. unfold Grid.append_rows, Grid.rstrip_blank. by rewrite drop_end_all_kept.
Qed.

Lemma fold_append_no_blank (bs : list (list (list string))) (g : grid) :
  no_blank_row g -> no_blank_row (concat bs) ->
  fold_left Grid.append_rows bs g = g ++ concat bs.
Proof.
  revert g. induction bs as [|b bs IH]; intros g Hg Hbs; cbn.
  - by rewrite app_nil_r.
  - cbn in Hbs. apply Forall_app in Hbs as [Hb Hbs].
    rewrite append_rows_no_blank by done. rewrite IH; [by rewrite <- app_assoc| |done].
    by apply Forall_app.
Qed.

Lemma write_sheet_df_grid (cfg : config) (title : string) (df : DataFrame)
    (headers : option (list string)) (s : remote) (k : string) :
  fst (open_spreadsheet cfg s) = Ok (Some k) ->
  let target := _normalize_df df headers in
  let hs := match headers with None => columns target | Some h => h end in
  Grid.blank hs = false ->
  no_blank_row (rows_to_write target) ->
  grid_of (snd (write_df cfg title df headers s)) title = hs :: rows_to_write target.
Proof.
  intros Hopen target hs Hhs Hrows.
  destruct (write_sheet_df_run cfg title df headers s k Hopen) as (_ & Hgrid & _).
  fold target hs in Hgrid. rewrite Hgrid.
  destruct (batches_spec (rows_to_write target)) as [Hcat _].
  rewrite fold_append_no_blank; [by rewrite Hcat| |by rewrite Hcat].
  by constructor.
Qed.

(** X9: when the header row and every row written hold a non-empty cell,
    the worksheet that an available bulk write leaves is the header row
    followed by the rows of the normalized table, all of them and in
    order, whatever the worksheet held before. *)
Theorem write_sheet_df_result (cfg : config) (title : string) (df : DataFrame)
    (headers : option (list string)) (s : remote) (k : string) :
  fst (open_spreadsheet cfg s) = Ok (Some k) ->
  let target := _normalize_df df headers in
  let hs := match headers with None => columns target | Some h => h end in
  Grid.blank hs = false ->
  no_blank_row (rows_to_write target) ->
  grid_of (snd (write_df cfg title df headers s)) title = hs :: rows_to_write target.
Proof. exact (write_sheet_df_grid cfg title df headers s k). Qed.

(** X10: a bulk write replaces the worksheet in full: the worksheet it
    leaves is the same from any two states in which the store opens, and
    no other worksheet is touched.  In particular writing the same table
    twice leaves what writing it once leaves. *)
Theorem write_sheet_df_full_replace (cfg : config) (title : string) (df : DataFrame)
    (headers : option (list string)) (s s' : remote) (k : string) :
  fst (open_spreadsheet cfg s) = Ok (Some k) ->
  grid_of (snd (write_df cfg title df headers s)) title
    = grid_of (snd (write_df cfg title df headers s')) title /\
  grid_of (snd (write_df cfg title df headers (snd (write_df cfg title df headers s)))) title
    = grid_of (snd (write_df cfg title df headers s)) title /\
  (forall t, t <> title ->
     sheets (snd (write_df cfg title df headers s)) !! t = sheets s !! t).
Proof.
  intros Hopen.
  assert (Hany : forall s0, fst (open_spreadsheet cfg s0) = Ok (Some k)).
  { intros s0. by rewrite (open_spreadsheet_any_state cfg s0 s). }
  pose proof (fun s0 => write_sheet_df_run cfg title df headers s0 k (Hany s0)) as Hrun.
  cbv zeta in Hrun.
  destruct (Hrun s) as (_ & Hg & Hother). split; [|split].
  - destruct (Hrun s') as (_ & Hg' & _). by rewrite Hg, Hg'.
  - destruct (Hrun (snd (write_df cfg title df headers s))) as (_ & Hg2 & _).
    by rewrite Hg2, Hg.
  - exact Hother.
Qed.

(** ** Read *)

(** The run of an available read. *)
Lemma read_sheet_df_run (cfg : config) (title : string) (headers : option (list string))
    (s : remote) (k : string) :
  fst (open_spreadsheet cfg s) = Ok (Some k) ->
  let g1 := init_header headers (grid_of s title) in
  let r := read_df cfg title headers s in
  fst r = Ok (table_of_values (Grid.get_all_values g1) headers) /\
  (forall t, sheets (snd r) !! t = if decide (t = title) then Some g1 else sheets s !! t) /\
  calls_since s (snd r)
    = OpenByKey k
      :: calls_since (Remote (sheets s) (calls s ++ [OpenByKey k]))
           (snd (_ensure_worksheet title headers
                   (Remote (sheets s) (calls s ++ [OpenByKey k]))))
      ++ [GetAllValues title].
Proof.
  intros Hopen g1 r. subst r. unfold read_sheet_df.
  rewrite bind_run, (open_spreadsheet_ok_inv _ _ _ Hopen). cbn [fst snd].
  set (s1 := Remote (sheets s) (calls s ++ [OpenByKey k])).
  rewrite !bind_run.
  destruct (ensure_worksheet_calls title headers s1) as [pre Hpre].
  set (s2 := snd (_ensure_worksheet title headers s1)) in *.
  assert (Hg : grid_of s2 title = g1).
  { unfold s2. by rewrite ensure_worksheet_grid. }
  assert (Hsince : calls_since s1 s2 = pre).
  { unfold calls_since. rewrite Hpre. by rewrite drop_app_length. }
  unfold ws_get_all_values. rewrite reading_run. cbn [fst snd]. rewrite Hg, Hsince.
  set (s3 := Remote _ _).
  assert (Hs3 : forall A (x : A), snd (ret x s3) = s3) by reflexivity.
  assert (Hlook : forall t, sheets s3 !! t
                            = if decide (t = title) then Some g1 else sheets s !! t).
  { intros t. unfold s3. cbn [sheets]. unfold s2. by rewrite ensure_worksheet_lookup. }
  assert (Hcalls : calls_since s s3 = OpenByKey k :: pre ++ [GetAllValues title]).
  { unfold calls_since, s3. cbn [calls]. rewrite Hpre. unfold s1. cbn [calls].
    repeat rewrite <- app_assoc. by rewrite drop_app_length. }
  unfold table_of_values.
  destruct (Grid.get_all_values g1) as [|raw [|row rows]]; unfold ret; cbn [fst snd]; done.
Qed.

Lemma get_all_values_length (g : grid) :
  length (Grid.get_all_values g)
  = length (Grid.rstrip_blank (map Grid.rstrip_empty g)).
Proof. unfold Grid.get_all_values. by rewrite length_map. Qed.

Lemma rstrip_empty_idem (r : list string) :
  Grid.rstrip_empty (Grid.rstrip_empty r) = Grid.rstrip_empty r.
Proof.
  unfold Grid.rstrip_empty.
  destruct (Grid.drop_end (fun x => bool_decide (x = "")) r) as [|x l] eqn:E; [reflexivity|].
  rewrite <- E. clear E x l.
  induction r as [|x r IH]; [reflexivity|]. cbn.
  destruct (Grid.drop_end _ r) as [|y l] eqn:E.
  - destruct (bool_decide (x = "")) eqn:Ex; [reflexivity|]. cbn. by rewrite Ex.
  - cbn. cbn in IH. by rewrite IH.
Qed.

Lemma blank_rstrip_empty (r : list string) :
  Grid.blank (Grid.rstrip_empty r) = Grid.blank r.
Proof. unfold Grid.blank. by rewrite rstrip_empty_idem. Qed.

(** Every cell of the grid is empty. *)
Lemma all_blank_row1 (g : grid) :
  Forall (fun r => Grid.blank r = true) g -> Grid.row_values g 1 = [].
Proof.
  intros H. unfold Grid.row_values, Grid.row. destruct g as [|r g]; [reflexivity|].
  cbn. inversion H as [|?? Hr _]. by apply bool_decide_eq_true in Hr.
Qed.

Lemma get_all_values_head_only (r : list string) (g : grid) :
  Forall (fun r => Grid.blank r = true) g -> length (Grid.get_all_values (r :: g)) <= 1.
Proof.
  intros H. rewrite get_all_values_length. cbn [map]. unfold Grid.rstrip_blank. cbn.
  assert (E : Grid.drop_end Grid.blank (map Grid.rstrip_empty g) = []).
  { apply drop_end_nil. apply Forall_forall. intros x Hx.
    apply list_elem_of_fmap in Hx as (y & -> & Hy). rewrite blank_rstrip_empty.
    rewrite Forall_forall in H. by apply H. }
  rewrite E. destruct (Grid.blank (Grid.rstrip_empty r)); cbn; lia.
Qed.

Lemma table_of_short_values (vs : grid) (headers : option (list string)) :
  length vs <= 1 -> (default [] headers = [] -> vs = []) ->
  table_of_values vs headers = Pandas.of_columns (default [] headers).
Proof.
  intros Hlen Hnil. destruct vs as [|raw [|row rows]]; [reflexivity| |cbn in Hlen; lia].
  cbn. destruct headers as [[|h hs]|]; try reflexivity; by specialize (Hnil eq_refl).
Qed.

(** X11: reading a worksheet that does not exist or holds no value
    returns the empty table whose columns are the requested headers (no
    column when none are requested).  The read is not free of effects: a
    missing worksheet is created by it. *)
Theorem read_blank_worksheet (cfg : config) (title : string)
    (headers : option (list string)) (s : remote) (k : string) :
  fst (open_spreadsheet cfg s) = Ok (Some k) ->
  Forall (fun r => Grid.blank r = true) (grid_of s title) ->
  let r := read_df cfg title headers s in
  fst r = Ok (Pandas.of_columns (default [] headers)) /\
  is_Some (sheets (snd r) !! title) /\
  (sheets s !! title = None ->
   AddWorksheet title 1000 (max 26 (length (default [] headers))) ∈ calls_since s (snd r)).
Proof.
  intros Hopen Hblank r. subst r.
  destruct (read_sheet_df_run cfg title headers s k Hopen) as (Hres & Hlook & Hcalls).
  split; [|split].
  - rewrite Hres. f_equal. apply table_of_short_values.
    + unfold init_header. destruct headers as [[|h hs]|].
      * rewrite get_all_values_length. unfold Grid.rstrip_blank.
        rewrite (proj2 (drop_end_nil Grid.blank _)); [cbn; lia|].
        apply Forall_forall. intros x Hx. apply list_elem_of_fmap in Hx as (y & -> & Hy).
        rewrite blank_rstrip_empty. rewrite Forall_forall in Hblank. by apply Hblank.
      * rewrite (all_blank_row1 _ Hblank). unfold Grid.update. cbn [pred].
        destruct (grid_of s title) as [|r0 g0] eqn:Eg.
        -- apply (get_all_values_head_only (h :: hs) []). constructor.
        -- rewrite decide_True by (cbn; lia).
           apply (get_all_values_head_only
                    (Grid.overwrite (Grid.row (r0 :: g0) 1) (h :: hs)) g0).
           by inversion Hblank.
      * rewrite get_all_values_length. unfold Grid.rstrip_blank.
        rewrite (proj2 (drop_end_nil Grid.blank _)); [cbn; lia|].
        apply Forall_forall. intros x Hx. apply list_elem_of_fmap in Hx as (y & -> & Hy).
        rewrite blank_rstrip_empty. rewrite Forall_forall in Hblank. by apply Hblank.
    + intros Hnil.
      assert (Hinit : init_header headers (grid_of s title) = grid_of s title).
      { unfold init_header. destruct headers as [[|h hs]|]; try reflexivity. discriminate. }
      rewrite Hinit. apply length_zero_iff_nil. rewrite get_all_values_length.
      unfold Grid.rstrip_blank.
      rewrite (proj2 (drop_end_nil Grid.blank _)); [reflexivity|].
      apply Forall_forall. intros x Hx. apply list_elem_of_fmap in Hx as (y & -> & Hy).
      rewrite blank_rstrip_empty. rewrite Forall_forall in Hblank. by apply Hblank.
  - rewrite Hlook, decide_True by done. eauto.
  - intros Hnone. rewrite Hcalls, ensure_worksheet_trace. cbn [sheets].
    rewrite Hnone. rewrite bool_decide_false by (intros [? ?]; discriminate).
    right. right. left.
Qed.

(** ** Writing, then reading *)

Lemma empty_cells_replicate (t : list string) :
  Forall (fun x => bool_decide (x = "") = true) t -> t = replicate (length t) "".
Proof.
  induction 1 as [|x t Hx _ IH]; [reflexivity|]. cbn.
  apply bool_decide_eq_true in Hx. by rewrite Hx, <- IH.
Qed.

Lemma pad_rstrip_empty (r : list string) :
  Grid.pad (length r) (Grid.rstrip_empty r) = r.
Proof.
  unfold Grid.pad, Grid.rstrip_empty.
  destruct (drop_end_split (fun x => bool_decide (x = "")) r) as (t & Hr & Ht).
  set (d := Grid.drop_end (fun x => bool_decide (x = "")) r) in *.
  assert (Hlen : length r = length d + length t).
  { rewrite Hr at 1. apply length_app. }
  rewrite Hlen. replace (length d + length t - length d) with (length t) by lia.
  by rewrite <- (empty_cells_replicate t Ht).
Qed.

Lemma widest_row (w : nat) (l : list (list string)) :
  Forall (fun r => length r <= w) l -> (exists r, r ∈ l /\ length r = w) ->
  foldr (fun r acc => max (length r) acc) 0 l = w.
Proof.
  induction 1 as [|r l Hr Hl IH]; intros (r0 & Hin & Hw).
  - by apply elem_of_nil in Hin.
  - cbn. apply elem_of_cons in Hin as [->|Hin].
    + assert (foldr (fun r acc => max (length r) acc) 0 l <= w); [|lia].
      clear -Hl. induction Hl as [|x l Hx _ IH]; cbn; lia.
    + rewrite IH by eauto. lia.
Qed.

(** A grid of full-width rows, none blank and the first without an empty
    last cell, is read back as it is. *)
Lemma get_all_values_full (hs : list string) (rows : grid) :
  Grid.rstrip_empty hs = hs -> Grid.blank hs = false ->
  no_blank_row rows -> Forall (fun r => length r = length hs) rows ->
  Grid.get_all_values (hs :: rows) = hs :: rows.
Proof.
  intros Hhs Hblank Hrows Hlen. unfold Grid.get_all_values.
  assert (Hkept : Grid.rstrip_blank (map Grid.rstrip_empty (hs :: rows))
                  = map Grid.rstrip_empty (hs :: rows)).
  { apply drop_end_all_kept. apply Forall_forall. intros x Hx.
    apply list_elem_of_fmap in Hx as (y & -> & Hy). rewrite blank_rstrip_empty.
    apply elem_of_cons in Hy as [->|Hy]; [done|].
    unfold no_blank_row in Hrows. rewrite Forall_forall in Hrows. by apply Hrows. }
  rewrite Hkept.
  rewrite (widest_row (length hs)).
  - rewrite map_map. rewrite <- (map_id (hs :: rows)) at 2. apply map_ext_in.
    intros r Hr. apply list_elem_of_In in Hr.
    assert (Hl : length r = length hs).
    { apply elem_of_cons in Hr as [->|Hr]; [done|].
      rewrite Forall_forall in Hlen. by apply Hlen. }
    rewrite <- Hl. apply pad_rstrip_empty.
  - apply Forall_forall. intros x Hx. apply list_elem_of_fmap in Hx as (y & -> & Hy).
    pose proof (drop_end_length (fun x => bool_decide (x = "")) y) as Hle.
    unfold Grid.rstrip_empty.
    apply elem_of_cons in Hy as [->|Hy]; [done|].
    rewrite Forall_forall in Hlen. rewrite <- (Hlen y Hy). exact Hle.
  - exists hs. split; [|reflexivity]. cbn [map]. rewrite Hhs. left.
Qed.

(** Headers that are all non-empty names are neither stripped nor blank. *)
Lemma named_headers_kept (hs : list string) :
  hs <> [] -> "" ∉ hs -> Grid.rstrip_empty hs = hs /\ Grid.blank hs = false.
Proof.
  intros Hne Hnames.
  assert (H : Grid.rstrip_empty hs = hs).
  { apply drop_end_all_kept. apply Forall_forall. intros x Hx.
    apply bool_decide_eq_false. intros ->. by apply Hnames. }
  split; [exact H|]. unfold Grid.blank. rewrite H. by apply bool_decide_eq_false.
Qed.

(** X12: a table written under distinct, non-empty headers is read back
    under the same headers as the table of the strings written: the
    columns are the headers, the rows those of the normalized table with
    every value as its string and an absent value as the empty string.
    This holds when no written row is blank; the read changes nothing in
    the document. *)
Theorem write_then_read (cfg : config) (title : string) (df : DataFrame)
    (hs : list string) (s : remote) (k : string) :
  fst (open_spreadsheet cfg s) = Ok (Some k) ->
  hs <> [] -> "" ∉ hs -> NoDup hs ->
  NoDup (columns df) -> rectangular df ->
  no_blank_row (Pandas.to_string_rows (_normalize_df df (Some hs))) ->
  let s1 := snd (write_df cfg title df (Some hs) s) in
  let r := read_df cfg title (Some hs) s1 in
  fst r = Ok (Pandas.of_rows (Pandas.to_string_rows (_normalize_df df (Some hs))) hs) /\
  sheets (snd r) = sheets s1.
Proof.
  intros Hopen Hne Hnames Hnd Hdf Hrect Hrows s1 r. subst r.
  destruct (named_headers_kept hs Hne Hnames) as [Hkept Hblank].
  set (target := _normalize_df df (Some hs)) in *.
  set (rows := Pandas.to_string_rows target) in *.
  assert (Hshape : columns target = hs /\ rectangular target).
  { unfold target. rewrite normalize_df_rows by done. split; [reflexivity|].
    unfold rectangular. cbn [columns values]. apply Forall_forall.
    intros r' Hr'. apply list_elem_of_fmap in Hr' as (r & -> & _). apply length_map. }
  destruct Hshape as [Hcols Htrect].
  assert (Hwrite : rows_to_write target = rows).
  { unfold rows_to_write, Pandas.empty, rows, Pandas.to_string_rows.
    rewrite Hcols. destruct (values target); [reflexivity|].
    destruct hs; [done|reflexivity]. }
  assert (Hlen : Forall (fun r => length r = length hs) rows).
  { unfold rows, Pandas.to_string_rows. apply Forall_forall. intros x Hx.
    apply list_elem_of_fmap in Hx as (y & -> & Hy). rewrite length_map.
    unfold rectangular in Htrect. rewrite Forall_forall in Htrect.
    rewrite (Htrect y Hy). by rewrite Hcols. }
  assert (Hg : grid_of s1 title = hs :: rows).
  { unfold s1. rewrite (write_sheet_df_grid cfg title df (Some hs) s k Hopen); fold target.
    - by rewrite Hwrite.
    - exact Hblank.
    - by rewrite Hwrite. }
  assert (Hopen1 : fst (open_spreadsheet cfg s1) = Ok (Some k)).
  { by rewrite (open_spreadsheet_any_state cfg s1 s). }
  destruct (read_sheet_df_run cfg title (Some hs) s1 k Hopen1) as (Hres & Hlook & _).
  assert (Hinit : init_header (Some hs) (grid_of s1 title) = hs :: rows).
  { rewrite Hg. destruct (init_header_cases hs (hs :: rows) Hne) as [[Hb _]|[_ ->]];
      [|reflexivity].
    exfalso. unfold Grid.row_values, Grid.row in Hb. cbn in Hb.
    unfold Grid.blank in Hblank. by apply bool_decide_eq_false in Hblank. }
  rewrite Hinit in Hres, Hlook. split.
  - rewrite Hres. f_equal. rewrite get_all_values_full by done.
    unfold table_of_values. destruct rows as [|row rows'] eqn:Erows.
    + destruct hs; [done|reflexivity].
    + unfold Pandas.of_rows. apply normalize_df_same_columns; [done|].
      unfold rectangular. cbn [columns values]. apply Forall_forall.
      intros x Hx. apply list_elem_of_fmap in Hx as (y & -> & Hy). rewrite length_map.
      rewrite Forall_forall in Hlen. by apply Hlen.
  - apply map_eq. intros t. rewrite Hlook. case_decide as Ht; [|reflexivity].
    subst t. unfold grid_of in Hg.
    destruct (sheets s1 !! title) as [g|]; [cbn in Hg; by rewrite Hg|discriminate].
Qed.

(** ** One worksheet at a time *)

Lemma only_touches_ret {A} (title : string) (a : A) : only_touches title (ret a).
Proof. by intros s t Ht. Qed.

Lemma only_touches_bind {A B} (title : string) (m : M A) (k : A -> M B) :
  only_touches title m -> (forall a, only_touches title (k a)) ->
  only_touches title (bind m k).
Proof.
  intros Hm Hk s t Ht. rewrite bind_run. rewrite Hk by done. by apply Hm.
Qed.

Lemma only_touches_reading {A} (title : string) (c : call) (f : grid -> A) :
  only_touches title (reading c title f).
Proof. by intros s t Ht. Qed.

Lemma only_touches_writing (title : string) (c : call) (f : grid -> grid) :
  only_touches title (writing c title f).
Proof. intros s t Ht. by rewrite writing_lookup, decide_False. Qed.

Lemma only_touches_open (title : string) (cfg : config) :
  only_touches title (open_spreadsheet cfg).
Proof.
  intros s t Ht. rewrite open_spreadsheet_unfold. destruct (checks cfg); [|reflexivity].
  destruct (from_service_account_info _); reflexivity.
Qed.

Lemma only_touches_ensure (title : string) (headers : option (list string)) :
  only_touches title (_ensure_worksheet title headers).
Proof. intros s t Ht. by rewrite ensure_worksheet_lookup, decide_False. Qed.

Lemma only_touches_append_chunks (title : string) (rows : list (list string))
    (fuel i : nat) :
  only_touches title (append_chunks fuel title rows i).
Proof.
  intros s t Ht. by destruct (append_chunks_exact title rows fuel i s) as (_ & _ & ->).
Qed.

Ltac touches :=
  repeat first
    [ apply only_touches_ret
    | apply only_touches_open
    | apply only_touches_ensure
    | apply only_touches_append_chunks
    | apply only_touches_reading
    | apply only_touches_writing
    | apply only_touches_bind; [|intros ?]
    | match goal with
      | |- only_touches _ (match ?x with _ => _ end) => destruct x
      | |- only_touches _ (if ?x then _ else _) => destruct x
      end ].

(** X13: each of the four operations changes no worksheet but the one it
    is called on, whatever the configuration, the arguments and the
    outcome. *)
Theorem operations_touch_one_worksheet (cfg : config) (title key_col : string)
    (headers : option (list string)) (df : DataFrame) (row updates : pydict)
    (id_value : pyval) :
  only_touches title (read_df cfg title headers) /\
  only_touches title (write_df cfg title df headers) /\
  only_touches title (upsert cfg title row key_col headers) /\
  only_touches title (update_fields cfg title id_value updates key_col).
Proof.
  unfold read_sheet_df, write_sheet_df, upsert_sheet_row, update_sheet_fields_by_id.
  unfold ws_get_all_values, ws_col_values, ws_row_values, ws_update, ws_clear,
    ws_append_row.
  repeat split; touches.
Qed.

(** ** Upsert: rejected records, repetition, calls *)

Lemma upsert_unfold (cfg : config) (title : string) (row : pydict) (key_col : string)
    (headers : option (list string)) (s : remote) (k : string) :
  fst (open_spreadsheet cfg s) = Ok (Some k) ->
  let hs := effective_headers row headers in
  let out := projection row hs in
  let s1 := Remote (sheets s) (calls s ++ [OpenByKey k]) in
  let s2 := snd (_ensure_worksheet title (Some hs) s1) in
  upsert cfg title row key_col headers s =
  if decide (record_key row key_col = "") then (Ok false, s2)
  else match list_index key_col hs with
       | None => (Ok false, s2)
       | Some idx =>
           match scan_key (record_key row key_col)
                   (tail (Grid.col_values (grid_of s2 title) (idx + 1))) 2 with
           | None =>
               (Ok true,
                Remote (<[title := Grid.append_rows (grid_of s2 title) [out]]> (sheets s2))
                       (calls s2 ++ [ColValues title (idx + 1); AppendRow title out]))
           | Some i =>
               (Ok true,
                Remote (<[title := Grid.update (grid_of s2 title) i out]> (sheets s2))
                       (calls s2 ++ [ColValues title (idx + 1); Update title i out]))
           end
       end.
Proof.
  intros Hopen hs out s1 s2.
  unfold upsert_sheet_row. rewrite bind_run, (open_spreadsheet_ok_inv _ _ _ Hopen).
  cbn [fst snd]. rewrite bind_run. fold hs s1 s2 out.
  fold (record_key row key_col). case_decide as Hkey; [reflexivity|].
  destruct (list_index key_col hs) as [idx|]; [|reflexivity].
  run_store. destruct (scan_key _ _ 2) as [i|]; run_store;
    rewrite <- app_assoc; reflexivity.
Qed.

(** X14: a record that cannot be placed (its key value is blank once
    stripped, or the key column is not among the effective headers) is
    refused: the upsert returns false and no data row changes.  The
    worksheet has been ensured by then all the same: it exists afterwards,
    created if need be, with its header row initialized, and the calls
    issued are the opening followed by those of ensuring it. *)
Theorem upsert_rejected_record (cfg : config) (title : string) (row : pydict)
    (key_col : string) (headers : option (list string)) (s : remote) (k : string) :
  fst (open_spreadsheet cfg s) = Ok (Some k) ->
  record_key row key_col = "" \/
    list_index key_col (effective_headers row headers) = None ->
  let hs := effective_headers row headers in
  let s1 := Remote (sheets s) (calls s ++ [OpenByKey k]) in
  let r := upsert cfg title row key_col headers s in
  fst r = Ok false /\
  sheets (snd r) !! title = Some (init_header (Some hs) (grid_of s title)) /\
  (forall j c, 2 <= j -> 1 <= c ->
     Grid.cell (grid_of (snd r) title) j c = Grid.cell (grid_of s title) j c) /\
  calls_since s (snd r) =
    OpenByKey k :: calls_since s1 (snd (_ensure_worksheet title (Some hs) s1)).
Proof.
  intros Hopen Hrej hs s1 r.
  assert (Hr : r = (Ok false, snd (_ensure_worksheet title (Some hs) s1))).
  { unfold r. rewrite (upsert_unfold cfg title row key_col headers s k Hopen).
    fold hs s1. destruct Hrej as [Hk|Hi].
    - by rewrite decide_True.
    - fold hs in Hi. rewrite Hi. by case_decide. }
  rewrite Hr. cbn [fst snd].
  assert (Hlook : sheets (snd (_ensure_worksheet title (Some hs) s1)) !! title
                  = Some (init_header (Some hs) (grid_of s title))).
  { rewrite ensure_worksheet_lookup. by rewrite decide_True. }
  split; [reflexivity|]. split; [exact Hlook|]. split.
  - intros j c Hj Hc. unfold grid_of at 1. rewrite Hlook. cbn [default from_option id].
    by apply init_header_data_cell.
  - destruct (ensure_worksheet_calls title (Some hs) s1) as [pre Hpre].
    unfold calls_since. rewrite Hpre. rewrite drop_app_length.
    unfold s1. cbn [calls]. rewrite <- app_assoc. by rewrite drop_app_length.
Qed.

Lemma row_update_other (g : grid) (n r : nat) (values : list string) :
  pred r <> pred n -> Grid.row (Grid.update g n values) r = Grid.row g r.
Proof.
  intros Hr. unfold Grid.update, Grid.row. case_decide as Hn.
  - by rewrite list_lookup_insert_ne.
  - destruct (decide (pred r < length g)) as [Hlt|Hge].
    + by rewrite lookup_app_l.
    + rewrite (lookup_ge_None_2 g) by lia. rewrite lookup_app_r by lia.
      destruct (decide (pred r - length g < pred n - length g)) as [Hrep|Hend].
      * rewrite lookup_app_l by (rewrite length_replicate; lia).
        by rewrite lookup_replicate_2 by lia.
      * rewrite lookup_app_r by (rewrite length_replicate; lia).
        rewrite length_replicate.
        by rewrite (lookup_ge_None_2 [values]) by (cbn; lia).
Qed.

Lemma update_same (g : grid) (n : nat) (values : list string) :
  Grid.update (Grid.update g n values) n values = Grid.update g n values.
Proof.
  unfold Grid.update at 2 3. case_decide as Hlen.
  - unfold Grid.update. rewrite length_insert, decide_True by done.
    unfold Grid.row. rewrite list_lookup_insert_eq by done. cbn [default from_option id].
    rewrite overwrite_twice. apply list_insert_insert_eq.
  - set (pad := replicate (pred n - length g) []).
    assert (Hpos : pred n = length (g ++ pad)).
    { unfold pad. rewrite length_app, length_replicate. lia. }
    unfold Grid.update. rewrite decide_True.
    2: { rewrite !length_app. cbn. rewrite length_app in Hpos. lia. }
    unfold Grid.row. rewrite app_assoc. rewrite Hpos.
    rewrite list_lookup_middle by done. cbn [default from_option id].
    rewrite insert_app_r_alt by lia. rewrite Nat.sub_diag. cbn.
    unfold Grid.overwrite. by rewrite drop_all, app_nil_r.
Qed.

Lemma update_appended (g : grid) (out : list string) :
  Grid.update (Grid.append_rows g [out]) (append_position g) out
  = Grid.append_rows g [out].
Proof.
  unfold Grid.append_rows, append_position. set (l := Grid.rstrip_blank g).
  unfold Grid.update. cbn [pred]. rewrite decide_True by (rewrite length_app; cbn; lia).
  unfold Grid.row. cbn [pred]. rewrite list_lookup_middle by done.
  cbn [default from_option id]. rewrite insert_app_r_alt by lia.
  rewrite Nat.sub_diag. cbn. unfold Grid.overwrite. by rewrite drop_all, app_nil_r.
Qed.

Lemma row1_append_rows (g : grid) (rows : list (list string)) :
  Grid.row_values g 1 <> [] -> Grid.row (Grid.append_rows g rows) 1 = Grid.row g 1.
Proof.
  intros H. apply header_above_append in H. unfold append_position in H.
  unfold Grid.append_rows, Grid.row. cbn [pred]. rewrite lookup_app_l by lia.
  unfold Grid.rstrip_blank. rewrite drop_end_lookup; [reflexivity|].
  unfold Grid.rstrip_blank in H. lia.
Qed.

Lemma upsert_touches (cfg : config) (title : string) (row : pydict) (key_col : string)
    (headers : option (list string)) :
  only_touches title (upsert cfg title row key_col headers).
Proof.
  unfold upsert_sheet_row, ws_col_values, ws_update, ws_append_row. touches.
Qed.

(** What a second, identical upsert finds: the grid the first one left,
    with a header row that holds a value and the record on a data row. *)
Lemma upsert_fixpoint (cfg : config) (title : string) (row : pydict) (key_col : string)
    (headers : option (list string)) (s : remote) (k : string) (idx : nat) :
  fst (open_spreadsheet cfg s) = Ok (Some k) ->
  list_index key_col (effective_headers row headers) = Some idx ->
  record_key row key_col <> "" ->
  key_col <> "" ->
  let hs := effective_headers row headers in
  let key := record_key row key_col in
  let g' := grid_of (snd (upsert cfg title row key_col headers s)) title in
  sheets (snd (upsert cfg title row key_col headers s)) !! title = Some g' /\
  init_header (Some hs) g' = g' /\
  exists t, first_match g' (idx + 1) key t /\ Grid.update g' t (projection row hs) = g'.
Proof.
  intros Hopen Hidx Hkey Hcol hs key g'.
  pose proof (header_written (grid_of s title) hs key_col idx Hcol Hidx) as Hhead.
  assert (Hhs : hs <> []).
  { intros E. fold hs in Hidx. rewrite E in Hidx. discriminate. }
  destruct (upsert_target cfg title row key_col headers s k idx Hopen Hidx Hkey)
    as (_ & t & [Ht1 Htl] & Hrow & Hframe & Habove & Hwhich).
  fold hs key g' in Htl, Hrow, Hframe, Habove, Hwhich.
  destruct (upsert_cases cfg title row key_col headers s k idx Hopen Hidx Hkey)
    as [_ Hcases].
  fold hs key g' in Hcases.
  destruct (target_key_cell row key_col hs idx Hidx) as [Hkc Hidx_lt].
  assert (H2 : 2 <= t).
  { destruct Hwhich as [([? ?] & _)|[_ ->]]; [lia|]. by apply header_above_append. }
  assert (Hfirst : first_match g' (idx + 1) key t).
  { split; [lia|]. split.
    - unfold key_matches. rewrite Hrow by lia.
      replace (pred (idx + 1)) with idx by lia. by rewrite Hkc.
    - intros r Hr Hlt. unfold key_matches. rewrite Hframe by lia. by apply Habove. }
  assert (Hshape : Grid.row g' 1 = Grid.row (init_header (Some hs) (grid_of s title)) 1 /\
                   Grid.update g' t (projection row hs) = g').
  { destruct Hcases as [(i & Hi & Hg')|(Hno & Hg')].
    - assert (t = i) as ->.
      { destruct Hwhich as [Hf|[Hno _]]; [exact (first_match_unique _ _ _ _ _ Hf Hi)|].
        exfalso. destruct Hi as (? & Hm & _). by apply (Hno i). }
      rewrite Hg'. split; [|apply update_same].
      apply row_update_other. lia.
    - assert (t = append_position (init_header (Some hs) (grid_of s title))) as ->.
      { destruct Hwhich as [(? & Hm & _)|[_ ->]]; [|done]. exfalso. by apply (Hno t). }
      rewrite Hg'. split; [|apply update_appended].
      by apply row1_append_rows. }
  destruct Hshape as [Hrow1 Hupd].
  split; [|split].
  - unfold g'. rewrite (upsert_unfold cfg title row key_col headers s k Hopen).
    fold hs key. rewrite decide_False by done. fold hs in Hidx. rewrite Hidx.
    destruct (scan_key _ _ 2); cbn [snd]; rewrite grid_of_insert; cbn [sheets];
      by rewrite lookup_insert_eq.
  - destruct (init_header_cases hs g' Hhs) as [[Hb _]|[_ E]]; [|exact E].
    exfalso. apply Hhead. unfold Grid.row_values in *. by rewrite <- Hrow1.
  - exists t. by split.
Qed.

(** X15: the upsert is idempotent on the document.  Under a key column
    with a name, a second upsert of the same record succeeds again and
    leaves the whole document, header row and every worksheet included,
    exactly as the first one left it: it overwrites the row the first one
    wrote with the same cells, and appends nothing. *)
Theorem upsert_idempotent (cfg : config) (title : string) (row : pydict)
    (key_col : string) (headers : option (list string)) (s : remote) (k : string)
    (idx : nat) :
  fst (open_spreadsheet cfg s) = Ok (Some k) ->
  list_index key_col (effective_headers row headers) = Some idx ->
  record_key row key_col <> "" ->
  key_col <> "" ->
  let s1 := snd (upsert cfg title row key_col headers s) in
  let r2 := upsert cfg title row key_col headers s1 in
  fst r2 = Ok true /\ sheets (snd r2) = sheets s1.
Proof.
  intros Hopen Hidx Hkey Hcol s1 r2.
  destruct (upsert_fixpoint cfg title row key_col headers s k idx Hopen Hidx Hkey Hcol)
    as (Hlook & Hinit & t & Hfirst & Hupd).
  fold s1 in Hlook, Hinit, Hfirst, Hupd.
  assert (Hopen1 : fst (open_spreadsheet cfg s1) = Ok (Some k)).
  { by rewrite (open_spreadsheet_any_state cfg s1 s). }
  destruct (upsert_run cfg title row key_col headers s1 k idx Hopen1 Hidx Hkey)
    as [Hok Hg2].
  fold r2 in Hok, Hg2. split; [exact Hok|].
  rewrite Hinit in Hg2. rewrite (first_match_scan _ _ _ _ Hkey Hfirst) in Hg2.
  rewrite Hupd in Hg2.
  destruct (upsert_fixpoint cfg title row key_col headers s1 k idx Hopen1 Hidx Hkey Hcol)
    as (Hlook2 & _).
  fold r2 in Hlook2. rewrite Hg2 in Hlook2.
  apply map_eq. intros t'. destruct (decide (t' = title)) as [->|Hne].
  - by rewrite Hlook2, Hlook.
  - by apply upsert_touches.
Qed.

(** X16: the calls of a successful upsert.  After the opening and the
    calls of ensuring the worksheet come one read of the key column and
    one write: an update of the first matching row when there is one, an
    append of one row when there is none.  The worksheet is never
    cleared. *)
Theorem upsert_sheet_row_calls (cfg : config) (title : string) (row : pydict)
    (key_col : string) (headers : option (list string)) (s : remote) (k : string)
    (idx : nat) :
  fst (open_spreadsheet cfg s) = Ok (Some k) ->
  list_index key_col (effective_headers row headers) = Some idx ->
  record_key row key_col <> "" ->
  let hs := effective_headers row headers in
  let out := projection row hs in
  let key := record_key row key_col in
  let g := grid_of s title in
  let s1 := Remote (sheets s) (calls s ++ [OpenByKey k]) in
  let cs := calls_since s (snd (upsert cfg title row key_col headers s)) in
  (exists w,
     cs = OpenByKey k :: calls_since s1 (snd (_ensure_worksheet title (Some hs) s1))
          ++ [ColValues title (idx + 1); w] /\
     ((exists i, first_match g (idx + 1) key i /\ w = Update title i out) \/
      (no_match g (idx + 1) key /\ w = AppendRow title out))) /\
  Clear title ∉ cs.
Proof.
  intros Hopen Hidx Hkey hs out key g s1 cs.
  destruct (ensure_worksheet_calls title (Some hs) s1) as [pre Hpre].
  pose proof (ensure_worksheet_trace title (Some hs) s1) as Htrace.
  set (s2 := snd (_ensure_worksheet title (Some hs) s1)) in *.
  assert (Hsince : calls_since s1 s2 = pre).
  { unfold calls_since. rewrite Hpre. by rewrite drop_app_length. }
  assert (Hg2 : grid_of s2 title = init_header (Some hs) g).
  { unfold s2. by rewrite ensure_worksheet_grid. }
  assert (Hcs : exists w, cs = OpenByKey k :: pre ++ [ColValues title (idx + 1); w] /\
     ((exists i, first_match g (idx + 1) key i /\ w = Update title i out) \/
      (no_match g (idx + 1) key /\ w = AppendRow title out))).
  { unfold cs. rewrite (upsert_unfold cfg title row key_col headers s k Hopen).
    fold hs key out s1 s2. rewrite decide_False by done. fold hs in Hidx. rewrite Hidx.
    rewrite Hg2.
    destruct (scan_key key _ 2) as [i|] eqn:E; cbn [snd].
    - exists (Update title i out). split.
      + unfold calls_since. cbn [calls]. rewrite Hpre. unfold s1. cbn [calls].
        repeat rewrite <- app_assoc. by rewrite drop_app_length.
      + left. exists i. split; [|reflexivity]. apply scan_column_some in E.
        by rewrite init_header_first_match in E by lia.
    - exists (AppendRow title out). split.
      + unfold calls_since. cbn [calls]. rewrite Hpre. unfold s1. cbn [calls].
        repeat rewrite <- app_assoc. by rewrite drop_app_length.
      + right. split; [|reflexivity]. apply scan_column_none in E; [|done].
        by rewrite init_header_no_match in E by lia. }
  rewrite Hsince. split; [exact Hcs|].
  destruct Hcs as (w & -> & Hw). rewrite <- Hsince, Htrace.
  intros Hin. apply list_elem_of_In in Hin. cbn in Hin.
  rewrite !in_app_iff in Hin. cbn in Hin.
  destruct Hin as [Hin|[Hin|[[Hin|Hin]|[Hin|[Hin|[]]]]]]; try discriminate.
  - destruct (bool_decide _); cbn in Hin; [done|]. destruct Hin as [?|[]]. discriminate.
  - clearbody hs. destruct hs as [|h hs']; [done|]. cbn in Hin.
    destruct Hin as [?|Hin]; [discriminate|].
    destruct (Grid.row_values _ 1); cbn in Hin; [|done].
    destruct Hin as [?|[]]. discriminate.
  - subst w. destruct Hw as [(i & _ & ?)|[_ ?]]; discriminate.
Qed.

(** ** Partial update: shape, repetition, composition with the upsert *)

(** The updater leaves the worksheet as it is or rewrites one of its
    data rows. *)
Lemma update_fields_state (cfg : config) (title : string) (id_value : pyval)
    (updates : pydict) (key_col : string) (s : remote) :
  let g := grid_of s title in
  let g' := grid_of (snd (update_fields cfg title id_value updates key_col s)) title in
  g' = g \/ exists i new, 2 <= i <= length g /\ g' = Grid.update g i new.
Proof.
  cbv zeta. destruct (decide (updates = [])) as [->|Hups]; [by left|].
  destruct (fst (open_spreadsheet cfg s)) as [[k|]|] eqn:Hopen.
  - pose proof (update_fields_run cfg title id_value updates key_col s k Hups Hopen) as Hrun.
    cbv zeta in Hrun.
    destruct (list_index key_col _) as [idx|]; [|left; apply Hrun].
    destruct (scan_key _ _ 2) as [i|] eqn:E; [|left; apply Hrun].
    right. exists i. eexists. split; [|apply Hrun].
    apply scan_column_some in E. apply E.
  - left. unfold update_sheet_fields_by_id. destruct updates as [|u ups]; [done|].
    by rewrite bind_run, (open_spreadsheet_none_inv _ _ Hopen).
  - left. unfold update_sheet_fields_by_id. destruct updates as [|u ups]; [done|].
    destruct (open_spreadsheet_exn_inv cfg s Hopen) as (s' & Hrun & [[_ ->]|(_ & _ & ->)]);
      by rewrite bind_run, Hrun.
Qed.

(** X17: whatever its arguments and its outcome, the partial update
    keeps the shape of the worksheet: the number of rows is unchanged (no
    row is ever added, on a missing worksheet either), the header row is
    left as it is, and the cells of at most one row change. *)
Theorem update_fields_keeps_shape (cfg : config) (title : string) (id_value : pyval)
    (updates : pydict) (key_col : string) (s : remote) :
  let g := grid_of s title in
  let g' := grid_of (snd (update_fields cfg title id_value updates key_col s)) title in
  length g' = length g /\
  Grid.row g' 1 = Grid.row g 1 /\
  exists i, forall r c, 1 <= r -> r <> i -> 1 <= c -> Grid.cell g' r c = Grid.cell g r c.
Proof.
  cbv zeta.
  destruct (update_fields_state cfg title id_value updates key_col s)
    as [->|(i & new & Hi & ->)].
  - split; [reflexivity|]. split; [reflexivity|]. by exists 0.
  - split; [rewrite update_length; lia|]. split; [apply row_update_other; lia|].
    exists i. intros r c Hr Hri Hc. rewrite cell_update by lia. by rewrite decide_False.
Qed.

(** The cells that a successful partial update leaves. *)
Lemma update_fields_cells (cfg : config) (title : string) (id_value : pyval)
    (updates : pydict) (key_col : string) (s : remote) (k : string) (idx i : nat) :
  NoDup (dict_keys updates) ->
  updates <> [] ->
  fst (open_spreadsheet cfg s) = Ok (Some k) ->
  list_index key_col (Grid.row_values (grid_of s title) 1) = Some idx ->
  strip (py_str id_value) <> "" ->
  first_match (grid_of s title) (idx + 1) (strip (py_str id_value)) i ->
  let g := grid_of s title in
  let hs := Grid.row_values g 1 in
  let g' := grid_of (snd (update_fields cfg title id_value updates key_col s)) title in
  fst (update_fields cfg title id_value updates key_col s) = Ok true /\
  length g' = length g /\
  Grid.row g' 1 = Grid.row g 1 /\
  (forall f v j, (f, v) ∈ updates -> list_index f hs = Some j ->
     Grid.cell g' i (S j) = update_str v) /\
  (forall c, 1 <= c ->
     (forall f v, (f, v) ∈ updates -> list_index f hs <> Some (pred c)) ->
     Grid.cell g' i c = Grid.cell g i c) /\
  (forall r c, 1 <= r -> r <> i -> 1 <= c -> Grid.cell g' r c = Grid.cell g r c).
Proof.
  intros Hnd Hups Hopen Hidx Hid Hfirst g hs g'.
  pose proof (update_fields_run cfg title id_value updates key_col s k Hups Hopen) as Hrun.
  cbv zeta in Hrun. fold g hs in Hrun, Hidx, Hfirst. rewrite Hidx in Hrun.
  rewrite (first_match_scan g (idx + 1) _ i Hid Hfirst) in Hrun.
  destruct Hrun as [Hok Hg']. fold g' in Hg'.
  destruct Hfirst as ([H2 Hl] & _).
  set (cur := padded hs (Grid.row_values g i)) in *.
  assert (Hlen : length hs <= length (apply_updates hs updates cur)).
  { rewrite apply_updates_length. apply padded_length. }
  split; [exact Hok|]. split; [rewrite Hg', update_length; lia|].
  split; [rewrite Hg'; apply row_update_other; lia|]. split; [|split].
  - intros f v j Hin Hj. rewrite Hg', cell_update by lia.
    rewrite decide_True by done.
    apply list_index_some in Hj as Hjl. destruct Hjl as [Hjl _].
    apply lookup_lt_Some in Hjl. rewrite decide_True by lia. cbn [pred].
    rewrite (apply_updates_written hs updates cur f v j); try done.
    rewrite apply_updates_length in Hlen. lia.
  - intros c Hc Hnone. rewrite Hg', cell_update by lia.
    rewrite decide_True by done. case_decide as Hcl; [|reflexivity].
    rewrite apply_updates_untouched by done. unfold cur.
    rewrite padded_lookup, row_values_cell. reflexivity.
  - intros r c Hr Hri Hc. rewrite Hg', cell_update by lia.
    by rewrite decide_False.
Qed.

(** Whether some entry of the mapping names column [c] of the header. *)
Lemma names_column_dec (hs : list string) (updates : pydict) (c : nat) :
  (exists f v, (f, v) ∈ updates /\ list_index f hs = Some (pred c)) \/
  (forall f v, (f, v) ∈ updates -> list_index f hs <> Some (pred c)).
Proof.
  induction updates as [|[f v] ups [(f' & v' & Hin & Hj)|Hnone]].
  - right. intros f v Hin. by apply elem_of_nil in Hin.
  - left. exists f', v'. split; [by right|done].
  - destruct (decide (list_index f hs = Some (pred c))) as [Hj|Hj].
    + left. exists f, v. split; [left|done].
    + right. intros f' v' Hin. apply elem_of_cons in Hin as [[= -> ->]|Hin]; [done|].
      by apply (Hnone f' v').
Qed.

(** Two names found at the same position of the header are the same. *)
Lemma list_index_same (f f' : string) (hs : list string) (j : nat) :
  list_index f hs = Some j -> list_index f' hs = Some j -> f = f'.
Proof.
  intros H H'. apply list_index_some in H as [H _]. apply list_index_some in H' as [H' _].
  congruence.
Qed.

(** X18: the partial update is idempotent on the cells.  When the mapping
    does not rewrite the key column itself, a second update with the same
    id and the same mapping finds the same row, succeeds again and leaves
    every cell of the worksheet as the first update left it. *)
Theorem update_fields_idempotent (cfg : config) (title : string) (id_value : pyval)
    (updates : pydict) (key_col : string) (s : remote) (k : string) (idx i : nat) :
  NoDup (dict_keys updates) ->
  updates <> [] ->
  key_col ∉ dict_keys updates ->
  fst (open_spreadsheet cfg s) = Ok (Some k) ->
  list_index key_col (Grid.row_values (grid_of s title) 1) = Some idx ->
  strip (py_str id_value) <> "" ->
  first_match (grid_of s title) (idx + 1) (strip (py_str id_value)) i ->
  let s1 := snd (update_fields cfg title id_value updates key_col s) in
  let r2 := update_fields cfg title id_value updates key_col s1 in
  fst r2 = Ok true /\
  first_match (grid_of s1 title) (idx + 1) (strip (py_str id_value)) i /\
  length (grid_of (snd r2) title) = length (grid_of s1 title) /\
  forall r c, 1 <= r -> 1 <= c ->
    Grid.cell (grid_of (snd r2) title) r c = Grid.cell (grid_of s1 title) r c.
Proof.
  intros Hnd Hups Hkeycol Hopen Hidx Hid Hfirst s1 r2.
  destruct (update_fields_cells cfg title id_value updates key_col s k idx i
              Hnd Hups Hopen Hidx Hid Hfirst)
    as (_ & Hlen1 & Hrow1 & Hset1 & Hkeep1 & Hother1).
  fold s1 in Hlen1, Hrow1, Hset1, Hkeep1, Hother1.
  set (g := grid_of s title) in *. set (hs := Grid.row_values g 1) in *.
  assert (Hhs1 : Grid.row_values (grid_of s1 title) 1 = hs).
  { unfold Grid.row_values. by rewrite Hrow1. }
  assert (Hkeycell : Grid.cell (grid_of s1 title) i (idx + 1) = Grid.cell g i (idx + 1)).
  { apply Hkeep1; [lia|]. replace (pred (idx + 1)) with idx by lia.
    intros f v Hin Hj. apply Hkeycol.
    rewrite (list_index_same _ _ _ _ Hidx Hj).
    unfold dict_keys. apply list_elem_of_fmap. by exists (f, v). }
  assert (Hfirst1 : first_match (grid_of s1 title) (idx + 1) (strip (py_str id_value)) i).
  { destruct Hfirst as ([H2 Hl] & Hm & Habove). split; [lia|]. split.
    - unfold key_matches. by rewrite Hkeycell.
    - intros r Hr Hlt. unfold key_matches. rewrite Hother1 by lia. by apply Habove. }
  assert (Hopen1 : fst (open_spreadsheet cfg s1) = Ok (Some k)).
  { by rewrite (open_spreadsheet_any_state cfg s1 s). }
  assert (Hidx1 : list_index key_col (Grid.row_values (grid_of s1 title) 1) = Some idx).
  { by rewrite Hhs1. }
  destruct (update_fields_cells cfg title id_value updates key_col s1 k idx i
              Hnd Hups Hopen1 Hidx1 Hid Hfirst1)
    as (Hok2 & Hlen2 & _ & Hset2 & Hkeep2 & Hother2).
  fold r2 in Hok2, Hlen2, Hset2, Hkeep2, Hother2. rewrite Hhs1 in Hset2, Hkeep2.
  split; [exact Hok2|]. split; [exact Hfirst1|]. split; [exact Hlen2|].
  intros r c Hr Hc. destruct (decide (r = i)) as [->|Hri]; [|by apply Hother2].
  destruct (names_column_dec hs updates c) as [(f & v & Hin & Hj)|Hnone].
  - replace c with (S (pred c)) by lia.
    rewrite (Hset2 f v (pred c) Hin Hj). symmetry. by apply (Hset1 f v).
  - by apply Hkeep2.
Qed.

Lemma list_index_first (x : string) (l : list string) (i : nat) :
  l !! i = Some x -> (forall j, j < i -> l !! j <> Some x) -> list_index x l = Some i.
Proof.
  intros Hi Hf. destruct (list_index x l) as [i'|] eqn:E.
  - apply list_index_some in E as [Hi' Hf']. f_equal.
    destruct (lt_eq_lt_dec i i') as [[Hlt|Heq]|Hgt]; [|done|].
    + exfalso. by apply (Hf' i).
    + exfalso. by apply (Hf i').
  - apply list_index_none in E. exfalso. apply E. by eapply list_elem_of_lookup_2.
Qed.

Lemma row_update_same (g : grid) (n : nat) (values : list string) :
  Grid.row (Grid.update g n values) n = Grid.overwrite (Grid.row g n) values.
Proof.
  unfold Grid.update. case_decide as Hn.
  - unfold Grid.row at 1. by rewrite list_lookup_insert_eq.
  - unfold Grid.row. rewrite (lookup_ge_None_2 g) by lia. cbn [default from_option id].
    rewrite app_assoc. rewrite list_lookup_middle.
    2: { rewrite length_app, length_replicate. lia. }
    cbn. unfold Grid.overwrite. by rewrite drop_nil, app_nil_r.
Qed.

(** A written header row names the key column where the headers do. *)
Lemma written_header_index (g : grid) (hs : list string) (key_col : string) (idx : nat) :
  key_col <> "" -> list_index key_col hs = Some idx ->
  list_index key_col (Grid.row_values (Grid.update g 1 hs) 1) = Some idx.
Proof.
  intros Hcol Hidx. apply list_index_some in Hidx as [Hi Hf].
  apply lookup_lt_Some in Hi as Hlt.
  assert (Hrow : forall j, j <= idx ->
            Grid.row_values (Grid.update g 1 hs) 1 !! j = hs !! j).
  { intros j Hj. unfold Grid.row_values, Grid.rstrip_empty.
    assert (Hw : forall j', j' <= idx -> Grid.row (Grid.update g 1 hs) 1 !! j' = hs !! j').
    { intros j' Hj'. rewrite row_update_same, overwrite_lookup.
      by rewrite decide_True by lia. }
    rewrite drop_end_lookup; [by apply Hw|].
    assert (Hk : idx < length (Grid.drop_end (fun x => bool_decide (x = ""))
                                 (Grid.row (Grid.update g 1 hs) 1))).
    { eapply drop_end_keeps; [rewrite Hw by lia; exact Hi|].
      by apply bool_decide_eq_false. }
    lia. }
  apply list_index_first.
  - by rewrite Hrow by lia.
  - intros j Hj. rewrite Hrow by lia. by apply Hf.
Qed.

(** X19: a record stored by the upsert can be updated by its id.  On a
    worksheet whose header row is blank, or names the key column where
    the effective headers do, a partial update under the same key column
    and an id equal to the record's key once stripped succeeds, and it
    lands on the row that holds the record: the cells under the headers
    that the mapping names take the new values, and every other cell of
    the worksheet stays as the upsert left it. *)
Theorem upsert_then_update_fields (cfg : config) (title : string) (row updates : pydict)
    (id_value : pyval) (key_col : string) (headers : option (list string))
    (s : remote) (k : string) (idx : nat) :
  fst (open_spreadsheet cfg s) = Ok (Some k) ->
  list_index key_col (effective_headers row headers) = Some idx ->
  record_key row key_col <> "" ->
  key_col <> "" ->
  Grid.row_values (grid_of s title) 1 = [] \/
    list_index key_col (Grid.row_values (grid_of s title) 1) = Some idx ->
  NoDup (dict_keys updates) ->
  updates <> [] ->
  strip (py_str id_value) = record_key row key_col ->
  let hs := effective_headers row headers in
  let s1 := snd (upsert cfg title row key_col headers s) in
  let g1 := grid_of s1 title in
  let r2 := update_fields cfg title id_value updates key_col s1 in
  let g2 := grid_of (snd r2) title in
  fst r2 = Ok true /\
  exists t, 2 <= t /\
    (forall c, 1 <= c <= length hs ->
       Grid.cell g1 t c = default "" (projection row hs !! pred c)) /\
    (forall f v j, (f, v) ∈ updates -> list_index f (Grid.row_values g1 1) = Some j ->
       Grid.cell g2 t (S j) = update_str v) /\
    (forall c, 1 <= c ->
       (forall f v, (f, v) ∈ updates ->
          list_index f (Grid.row_values g1 1) <> Some (pred c)) ->
       Grid.cell g2 t c = Grid.cell g1 t c) /\
    (forall r c, 1 <= r -> r <> t -> 1 <= c -> Grid.cell g2 r c = Grid.cell g1 r c).
Proof.
  intros Hopen Hidx Hkey Hcol Hhead Hnd Hups Hid hs s1 g1 r2 g2.
  assert (Hhs : hs <> []).
  { intros E. fold hs in Hidx. rewrite E in Hidx. discriminate. }
  destruct (upsert_target cfg title row key_col headers s k idx Hopen Hidx Hkey)
    as (_ & t & [Ht1 Htl] & Hrow & Hframe & Habove & Hwhich).
  fold hs s1 g1 in Htl, Hrow, Hframe, Habove, Hwhich.
  destruct (upsert_cases cfg title row key_col headers s k idx Hopen Hidx Hkey)
    as [_ Hcases].
  fold hs s1 g1 in Hcases.
  destruct (target_key_cell row key_col hs idx Hidx) as [Hkc Hidx_lt].
  pose proof (header_written (grid_of s title) hs key_col idx Hcol Hidx) as Hwritten.
  assert (H2 : 2 <= t).
  { destruct Hwhich as [([? ?] & _)|[_ ->]]; [lia|]. by apply header_above_append. }
  assert (Hfirst : first_match g1 (idx + 1) (record_key row key_col) t).
  { split; [lia|]. split.
    - unfold key_matches. rewrite Hrow by lia.
      replace (pred (idx + 1)) with idx by lia. by rewrite Hkc.
    - intros r Hr Hlt. unfold key_matches. rewrite Hframe by lia. by apply Habove. }
  assert (Hrow1 : Grid.row g1 1 = Grid.row (init_header (Some hs) (grid_of s title)) 1).
  { destruct Hcases as [(i & ([? ?] & _) & ->)|(_ & ->)].
    - apply row_update_other. lia.
    - by apply row1_append_rows. }
  assert (Hidx1 : list_index key_col (Grid.row_values g1 1) = Some idx).
  { unfold Grid.row_values. rewrite Hrow1. fold (Grid.row_values (init_header (Some hs) (grid_of s title)) 1).
    destruct (init_header_cases hs (grid_of s title) Hhs) as [[Hb ->]|[Hn ->]].
    - by apply written_header_index.
    - by destruct Hhead. }
  assert (Hopen1 : fst (open_spreadsheet cfg s1) = Ok (Some k)).
  { by rewrite (open_spreadsheet_any_state cfg s1 s). }
  rewrite <- Hid in Hfirst, Hkey.
  destruct (update_fields_cells cfg title id_value updates key_col s1 k idx t
              Hnd Hups Hopen1 Hidx1 Hkey Hfirst)
    as (Hok2 & _ & _ & Hset2 & Hkeep2 & Hother2).
  split; [exact Hok2|]. exists t. split; [exact H2|]. split; [exact Hrow|].
  split; [exact Hset2|]. split; [exact Hkeep2|exact Hother2].
Qed.

(** ** The bulk sync script *)

Section SyncProperties.

Variable path_exists : string -> bool.
Variable read_csv : string -> result DataFrame.
Variable ROOT : string.

Local Abbreviation main :=
  (Sync.main json_loads from_service_account_info authenticate path_exists read_csv ROOT).
Local Abbreviation path_hist := (Sync.os_path_join ROOT "reservas_2026_full.csv").
Local Abbreviation path_web := (Sync.os_path_join ROOT "reservas_web_2026.csv").

(** The script once the flag is set, the two files exist and are read. *)
Lemma main_run (cfg : config) (s : remote) (df_hist df_web : DataFrame) :
  sheets_enabled cfg = true ->
  path_exists path_hist = true -> path_exists path_web = true ->
  read_csv path_hist = Ok df_hist -> read_csv path_web = Ok df_web ->
  let w1 := write_df cfg SHEET_RESERVAS_HIST df_hist (Some (columns df_hist)) s in
  let w2 := write_df cfg SHEET_RESERVAS_WEB df_web (Some (columns df_web)) (snd w1) in
  snd (main cfg s) = match fst w1 with Exn => snd w1 | Ok _ => snd w2 end /\
  snd (fst (main cfg s)) =
    match fst w1, fst w2 with
    | Exn, _ | Ok _, Exn => Exn
    | Ok b1, Ok b2 => Ok (if b1 && b2 then 0 else 2)
    end /\
  (fst w1 = Ok true -> fst w2 = Ok true ->
   last (fst (fst (main cfg s))) = Some "Sincronización completada.").
Proof.
  intros Hen Hh Hw Hrh Hrw w1 w2. unfold Sync.main.
  rewrite Hen, Hh, Hw, Hrh, Hrw. cbn [negb orb]. rewrite bind_run. fold w1.
  destruct (fst w1) as [b1|] eqn:E1; [|by repeat split].
  rewrite bind_run. fold w2.
  destruct (fst w2) as [b2|] eqn:E2; [|by repeat split].
  destruct b1, b2; cbn [andb]; (split; [reflexivity|split; [reflexivity|]]);
    try discriminate.
  intros _ _. unfold ret. cbn [fst]. apply last_snoc.
Qed.

Lemma write_sheet_df_unavailable (cfg : config) (title : string) (df : DataFrame)
    (headers : option (list string)) (s : remote) :
  fst (open_spreadsheet cfg s) = Ok None ->
  write_df cfg title df headers s = (Ok false, s).
Proof.
  intros H. apply open_spreadsheet_none_inv in H.
  unfold write_sheet_df. by rewrite bind_run, H.
Qed.


(** The rows written for a table that has its own labels as headers. *)
Lemma rows_of_own_columns (df : DataFrame) :
  NoDup (columns df) -> rectangular df -> columns df <> [] ->
  rows_to_write (_normalize_df df (Some (columns df))) = Pandas.to_string_rows df.
Proof.
  intros Hnd Hrect Hne. destruct df as [cols rows]. cbn [columns] in *.
  rewrite normalize_df_same_columns by done.
  unfold rows_to_write, Pandas.empty, Pandas.to_string_rows. cbn [columns values].
  destruct rows; [reflexivity|]. by destruct cols.
Qed.

Lemma blank_nil : Grid.blank [] = true.
Proof. reflexivity. Qed.


End SyncProperties.

(** ** The enable flag *)

Lemma lower_ascii_idem (a : ascii) : lower_ascii (lower_ascii a) = lower_ascii a.
Proof. destruct a as [[] [] [] [] [] [] [] []]; reflexivity. Qed.

Lemma is_space_lower_ascii (a : ascii) : is_space (lower_ascii a) = is_space a.
Proof. destruct a as [[] [] [] [] [] [] [] []]; reflexivity. Qed.

Lemma lower_idem (s : string) : lower (lower s) = lower s.
Proof. induction s as [|a s IH]; [reflexivity|]. cbn. by rewrite lower_ascii_idem, IH. Qed.

Lemma lstrip_lower (s : string) : lstrip (lower s) = lower (lstrip s).
Proof.
  induction s as [|a s IH]; [reflexivity|]. cbn [lower lstrip].
  rewrite is_space_lower_ascii. by destruct (is_space a).
Qed.

Lemma rstrip_lower (s : string) : rstrip (lower s) = lower (rstrip s).
Proof.
  induction s as [|a s IH]; [reflexivity|]. cbn [lower rstrip]. rewrite IH.
  rewrite is_space_lower_ascii.
  destruct (rstrip s); cbn [lower]; [by destruct (is_space a)|reflexivity].
Qed.

Lemma strip_lower (s : string) : strip (lower s) = lower (strip s).
Proof. unfold strip. by rewrite lstrip_lower, rstrip_lower. Qed.

Lemma numeric_char (a : ascii) (t : string) :
  numeric (String a t) = true ->
  is_space a = false /\ lower_ascii a = a /\ numeric t = true.
Proof.
  destruct a as [[] [] [] [] [] [] [] []]; cbn; try discriminate; by repeat split.
Qed.

Lemma numeric_lower (s : string) : numeric s = true -> lower s = s.
Proof.
  induction s as [|a s IH]; [reflexivity|]. intros H.
  apply numeric_char in H as (_ & Ha & Hs). cbn. by rewrite Ha, IH.
Qed.

Lemma numeric_rstrip (s : string) : numeric s = true -> rstrip s = s.
Proof.
  induction s as [|a s IH]; [reflexivity|]. intros H.
  apply numeric_char in H as (Ha & _ & Hs). cbn [rstrip]. rewrite (IH Hs), Ha.
  by destruct s.
Qed.

Lemma numeric_strip (s : string) : numeric s = true -> strip s = s.
Proof.
  intros H. unfold strip. destruct s as [|a s]; [reflexivity|].
  apply numeric_char in H as H'. destruct H' as (Ha & _ & _).
  cbn [lstrip]. rewrite Ha. by apply numeric_rstrip.
Qed.

Lemma numeric_uint (d : Decimal.uint) : numeric (NilEmpty.string_of_uint d) = true.
Proof. induction d; cbn; done. Qed.

Lemma numeric_int (z : Z) : numeric (py_str (PyInt z)) = true.
Proof.
  unfold py_str, NilZero.string_of_int, NilZero.string_of_uint.
  destruct (Z.to_int z) as [d|d]; destruct d; cbn; try reflexivity; apply numeric_uint.
Qed.

Lemma int_one (z : Z) : py_str (PyInt z) = "1" -> z = 1%Z.
Proof.
  unfold py_str. destruct z as [|p|p]; cbn [Z.to_int NilZero.string_of_int];
    [discriminate| |discriminate].
  intros H. apply (f_equal NilZero.uint_of_string) in H.
  rewrite NilZero.usu in H by apply DecimalPos.Unsigned.to_uint_nonnil.
  cbn in H. injection H as H. f_equal.
  apply DecimalPos.Unsigned.to_uint_inj. by rewrite H.
Qed.

(** X22: how the enable flag is read.  A string is judged after
    stripping and lower-casing, so that surrounding whitespace and the
    case of ASCII letters make no difference; an integer enables exactly
    when it is 1; a table never enables.  Booleans stand for themselves
    and [None] is false. *)
Theorem to_bool_spellings :
  (forall s, _to_bool (PyStr (strip s)) = _to_bool (PyStr s) /\
             _to_bool (PyStr (lower s)) = _to_bool (PyStr s)) /\
  (forall z, _to_bool (PyInt z) = true <-> z = 1%Z) /\
  (forall kv, _to_bool (PyDict kv) = false) /\
  (forall b, _to_bool (PyBool b) = b) /\
  _to_bool PyNone = false.
Proof.
  split; [|split; [|split; [|split]]]; try reflexivity.
  - intros s. unfold _to_bool. cbn [py_str]. split.
    + by rewrite strip_idem.
    + by rewrite strip_lower, lower_idem.
  - intros z. unfold _to_bool. pose proof (numeric_int z) as Hn.
    rewrite (numeric_strip _ Hn), (numeric_lower _ Hn). unfold list_mem. split.
    + intros H. apply bool_decide_eq_true in H. apply int_one.
      unfold true_words in H. set (v := py_str (PyInt z)) in *.
      repeat (apply elem_of_cons in H as [H|H]; [rewrite H in Hn; try discriminate|]).
      * exact H.
      * by apply elem_of_nil in H.
    + intros ->. reflexivity.
  - intros kv. unfold _to_bool. cbn [py_str]. unfold list_mem.
    apply bool_decide_eq_false. intros H.
    assert (Hhead : forall x, exists t, lower (strip (String "{" x)) = String "{" t).
    { intros x. unfold strip. cbn [lstrip].
      change (is_space "{") with false. cbn [rstrip].
      change (is_space "{") with false. destruct (rstrip x); cbn; eauto. }
    match type of H with
    | lower (strip (?a +:+ ?x)) ∈ _ =>
        specialize (Hhead x); change (a +:+ x)%string with (String "{" x) in H
    end.
    destruct Hhead as [t Ht]. rewrite Ht in H. unfold true_words in H.
    repeat (apply elem_of_cons in H as [H|H]; [discriminate|]).
    by apply elem_of_nil in H.
Qed.

(** ** Reading again, and reading what the upsert stored *)

(** X23: the read can be repeated.  A second read of the same worksheet
    under the same headers returns the table that the first returned and
    leaves the document as the first left it.  On a worksheet that exists
    and needs no header row (none is expected, or row 1 holds a value)
    the first read changes nothing either and issues no write. *)
Theorem read_sheet_df_repeatable (cfg : config) (title : string)
    (headers : option (list string)) (s : remote) (k : string) :
  fst (open_spreadsheet cfg s) = Ok (Some k) ->
  let r1 := read_df cfg title headers s in
  let r2 := read_df cfg title headers (snd r1) in
  fst r2 = fst r1 /\
  sheets (snd r2) = sheets (snd r1) /\
  (is_Some (sheets s !! title) ->
   default [] headers = [] \/ Grid.row_values (grid_of s title) 1 <> [] ->
   sheets (snd r1) = sheets s /\ count_calls is_write (calls_since s (snd r1)) = 0).
Proof.
  intros Hopen r1 r2.
  destruct (read_sheet_df_run cfg title headers s k Hopen) as (Hres1 & Hlook1 & Hcalls1).
  fold r1 in Hres1, Hlook1, Hcalls1.
  assert (Hopen1 : fst (open_spreadsheet cfg (snd r1)) = Ok (Some k)).
  { by rewrite (open_spreadsheet_any_state cfg (snd r1) s). }
  destruct (read_sheet_df_run cfg title headers (snd r1) k Hopen1) as (Hres2 & Hlook2 & _).
  fold r2 in Hres2, Hlook2.
  assert (Hg1 : grid_of (snd r1) title = init_header headers (grid_of s title)).
  { unfold grid_of at 1. by rewrite Hlook1, decide_True. }
  rewrite Hg1, init_header_idem in Hres2, Hlook2.
  split; [by rewrite Hres2, Hres1|]. split.
  - apply map_eq. intros t. rewrite Hlook2. case_decide as Ht; [|reflexivity].
    subst t. by rewrite Hlook1, decide_True.
  - intros [g0 Hg0] Hcond.
    assert (Hg : grid_of s title = g0) by (unfold grid_of; by rewrite Hg0).
    assert (Hinit : init_header headers (grid_of s title) = g0).
    { rewrite Hg in *. unfold init_header. destruct headers as [[|h hs]|]; try reflexivity.
      destruct Hcond as [?|Hrow]; [discriminate|].
      by destruct (Grid.row_values g0 1). }
    split.
    + apply map_eq. intros t. rewrite Hlook1, Hinit. case_decide as Ht; [|reflexivity].
      by subst t.
    + rewrite Hcalls1, ensure_worksheet_trace. cbn [sheets]. rewrite Hg0.
      rewrite bool_decide_true by eauto.
      change (grid_of (Remote (sheets s) (calls s ++ [OpenByKey k])) title)
        with (grid_of s title). rewrite Hg.
      destruct headers as [[|h hs]|]; try reflexivity.
      destruct Hcond as [?|Hrow]; [discriminate|]. rewrite Hg in Hrow.
      by destruct (Grid.row_values g0 1).
Qed.

Lemma nonblank_cell_row (r : list string) (j : nat) :
  default "" (r !! j) <> "" -> Grid.blank r = false.
Proof.
  intros H. destruct (Grid.blank r) eqn:E; [|reflexivity].
  exfalso. apply H. by apply blank_cells.
Qed.

(** X24: a record upserted into a worksheet without content is read back
    as the one row of the table.  With effective headers that are
    distinct, non-empty names, the worksheet then holds the header row
    and the projection of the record, and a read under those headers
    returns the table with the headers as columns and that projection as
    its only row. *)
Theorem upsert_then_read (cfg : config) (title : string) (row : pydict)
    (key_col : string) (headers : option (list string)) (s : remote) (k : string)
    (idx : nat) :
  fst (open_spreadsheet cfg s) = Ok (Some k) ->
  grid_of s title = [] ->
  list_index key_col (effective_headers row headers) = Some idx ->
  record_key row key_col <> "" ->
  "" ∉ effective_headers row headers ->
  NoDup (effective_headers row headers) ->
  let hs := effective_headers row headers in
  let s1 := snd (upsert cfg title row key_col headers s) in
  grid_of s1 title = [hs; projection row hs] /\
  fst (read_df cfg title (Some hs) s1) = Ok (Pandas.of_rows [projection row hs] hs).
Proof.
  intros Hopen Hempty Hidx Hkey Hnames Hnd hs s1.
  assert (Hhs : hs <> []).
  { intros E. fold hs in Hidx. rewrite E in Hidx. discriminate. }
  destruct (named_headers_kept hs Hhs Hnames) as [Hkept Hblank].
  destruct (target_key_cell row key_col hs idx Hidx) as [Hkc Hidx_lt].
  assert (Hout : Grid.blank (projection row hs) = false).
  { apply (nonblank_cell_row _ idx). rewrite Hkc. by apply strip_nonblank. }
  assert (Hg1 : grid_of s1 title = [hs; projection row hs]).
  { destruct (upsert_cases cfg title row key_col headers s k idx Hopen Hidx Hkey)
      as [_ [(i & ([H2 Hl] & _) & _)|(_ & Hg')]].
    - rewrite Hempty in Hl. cbn in Hl. lia.
    - fold hs s1 in Hg'. rewrite Hg', Hempty.
      assert (Hinit : init_header (Some hs) [] = [hs]).
      { destruct (init_header_cases hs [] Hhs) as [[_ ->]|[Hn _]]; [reflexivity|].
        by exfalso. }
      rewrite Hinit. unfold Grid.append_rows, Grid.rstrip_blank. cbn.
      by rewrite Hblank. }
  split; [exact Hg1|].
  assert (Hopen1 : fst (open_spreadsheet cfg s1) = Ok (Some k)).
  { by rewrite (open_spreadsheet_any_state cfg s1 s). }
  destruct (read_sheet_df_run cfg title (Some hs) s1 k Hopen1) as (Hres & _).
  rewrite Hres, Hg1. f_equal.
  assert (Hinit : init_header (Some hs) [hs; projection row hs] = [hs; projection row hs]).
  { destruct (init_header_cases hs [hs; projection row hs] Hhs) as [[Hb _]|[_ ->]];
      [|reflexivity].
    exfalso. unfold Grid.row_values, Grid.row in Hb. cbn in Hb.
    unfold Grid.blank in Hblank. by apply bool_decide_eq_false in Hblank. }
  rewrite Hinit. rewrite get_all_values_full; try done.
  - unfold table_of_values, Pandas.of_rows. apply normalize_df_same_columns; [done|].
    unfold rectangular. cbn [columns values]. repeat constructor.
    by rewrite length_map, projection_length.
  - by repeat constructor.
  - repeat constructor. apply projection_length.
Qed.

(** ** The batches of a bulk write, the calls of a partial update *)

Lemma chunks_from_length (rows : list (list string)) (fuel i : nat) :
  length rows - i <= fuel ->
  length (chunks_from fuel i rows) = (length rows - i + 499) / 500.
Proof.
  revert i. induction fuel as [|fuel IH]; intros i Hfuel.
  - cbn. replace (length rows - i) with 0 by lia. reflexivity.
  - cbn [chunks_from]. case_decide as Hi.
    + cbn [length]. rewrite IH by (unfold chunk; lia). unfold chunk.
      pose proof (Nat.div_mod_eq (length rows - (i + 500) + 499) 500) as H1.
      pose proof (Nat.mod_upper_bound (length rows - (i + 500) + 499) 500) as H2.
      pose proof (Nat.div_mod_eq (length rows - i + 499) 500) as H3.
      pose proof (Nat.mod_upper_bound (length rows - i + 499) 500) as H4.
      lia.
    + cbn. replace (length rows - i) with 0 by lia. reflexivity.
Qed.

Lemma chunks_from_lookup (rows : list (list string)) (fuel i j : nat)
    (b : list (list string)) :
  chunks_from fuel i rows !! j = Some b -> b = take chunk (drop (i + j * chunk) rows).
Proof.
  revert i j. induction fuel as [|fuel IH]; intros i j H; [discriminate|].
  cbn [chunks_from] in H. case_decide as Hi; [|discriminate].
  destruct j as [|j].
  - cbn in H. injection H as <-. by rewrite Nat.add_0_r.
  - cbn in H. apply IH in H. rewrite H. do 2 f_equal. lia.
Qed.

(** X25: the batches of the bulk write.  After opening and ensuring the
    worksheet the write issues one clear, one write of the header row and
    then one append per batch and nothing else; for [n] rows to write
    there are [n / 500] batches rounded up, and batch [j] (from 0) is the
    slice of the rows from offset [500 j] of length at most 500, so that
    every batch but the last holds exactly 500 rows. *)
Theorem write_sheet_df_batches (cfg : config) (title : string) (df : DataFrame)
    (headers : option (list string)) (s : remote) (k : string) :
  fst (open_spreadsheet cfg s) = Ok (Some k) ->
  let target := _normalize_df df headers in
  let hs := match headers with None => columns target | Some h => h end in
  let rows := rows_to_write target in
  let s1 := Remote (sheets s) (calls s ++ [OpenByKey k]) in
  calls_since s (snd (write_df cfg title df headers s)) =
    OpenByKey k :: calls_since s1 (snd (_ensure_worksheet title (Some hs) s1))
    ++ [Clear title; Update title 1 hs] ++ map (AppendRows title) (batches rows) /\
  length (batches rows) = (length rows + 499) / 500 /\
  (forall j b, batches rows !! j = Some b -> b = take 500 (drop (500 * j) rows)) /\
  (forall j b, batches rows !! j = Some b -> S j < length (batches rows) -> length b = 500).
Proof.
  intros Hopen target hs rows s1.
  assert (Hlen : length (batches rows) = (length rows + 499) / 500).
  { unfold batches. rewrite chunks_from_length by lia. by rewrite Nat.sub_0_r. }
  assert (Hslice : forall j b, batches rows !! j = Some b ->
                     b = take 500 (drop (500 * j) rows)).
  { intros j b Hb. unfold batches in Hb. apply chunks_from_lookup in Hb.
    rewrite Hb. unfold chunk. do 2 f_equal. lia. }
  split; [|split; [exact Hlen|split; [exact Hslice|]]].
  - unfold write_sheet_df.
    rewrite bind_run, (open_spreadsheet_ok_inv _ _ _ Hopen). cbn [fst snd].
    fold target hs s1. rewrite !bind_run.
    destruct (ensure_worksheet_calls title (Some hs) s1) as [pre Hpre].
    set (s2 := snd (_ensure_worksheet title (Some hs) s1)) in *.
    assert (Hsince : calls_since s1 s2 = pre).
    { unfold calls_since. rewrite Hpre. by rewrite drop_app_length. }
    rewrite Hsince. unfold ws_clear, ws_update. rewrite !writing_run. cbn [fst snd].
    set (s3 := Remote _ _).
    assert (Hcalls3 : calls s3
                      = calls s ++ OpenByKey k :: pre ++ [Clear title; Update title 1 hs]).
    { unfold s3. cbn [calls]. rewrite Hpre. unfold s1. cbn [calls].
      repeat rewrite <- app_assoc. reflexivity. }
    unfold rows, rows_to_write. destruct (Pandas.empty target).
    + unfold ret. cbn [fst snd]. unfold calls_since. rewrite Hcalls3, drop_app_length.
      cbn [batches chunks_from length map]. by rewrite app_nil_r.
    + rewrite bind_run. unfold ret. cbn [fst snd].
      destruct (append_chunks_exact title (Pandas.to_string_rows target)
                  (length (Pandas.to_string_rows target)) 0 s3) as (Hcalls & _).
      unfold calls_since. rewrite Hcalls, Hcalls3. rewrite <- app_assoc.
      rewrite drop_app_length. cbn [app]. by rewrite <- app_assoc.
  - intros j b Hb Hj. rewrite (Hslice j b Hb). rewrite length_take, length_drop.
    rewrite Hlen in Hj.
    pose proof (Nat.div_mod_eq (length rows + 499) 500) as H1.
    pose proof (Nat.mod_upper_bound (length rows + 499) 500) as H2.
    lia.
Qed.

(** The run of a partial update that finds its row on an existing
    worksheet. *)
Lemma update_fields_hit_run (cfg : config) (title : string) (id_value : pyval)
    (updates : pydict) (key_col : string) (s : remote) (k : string) (g0 : grid)
    (idx i : nat) :
  updates <> [] ->
  fst (open_spreadsheet cfg s) = Ok (Some k) ->
  sheets s !! title = Some g0 ->
  list_index key_col (Grid.row_values g0 1) = Some idx ->
  scan_key (strip (py_str id_value)) (tail (Grid.col_values g0 (idx + 1))) 2 = Some i ->
  let hs := Grid.row_values g0 1 in
  let new := apply_updates hs updates (padded hs (Grid.row_values g0 i)) in
  update_fields cfg title id_value updates key_col s =
  (Ok true,
   Remote (<[title := Grid.update g0 i new]> (sheets s))
     (calls s ++ [OpenByKey k; Worksheet title; RowValues title 1;
                  ColValues title (idx + 1); RowValues title i; Update title i new])).
Proof.
  intros Hups Hopen Hs Hidx Hscan hs new. unfold update_sheet_fields_by_id.
  destruct updates as [|u ups]; [done|].
  rewrite bind_run, (open_spreadsheet_ok_inv _ _ _ Hopen). cbn [fst snd].
  rewrite bind_run.
  rewrite (ensure_worksheet_existing title g0) by done. cbn [fst snd sheets calls].
  run_store. rewrite !grid_of_same.
  assert (Hg : grid_of s title = g0) by (unfold grid_of; by rewrite Hs).
  rewrite Hg, Hidx. run_store. rewrite !grid_of_same, Hg, Hscan.
  run_store. rewrite !grid_of_same, Hg. tidy_calls. reflexivity.
Qed.

(** X26: the calls of a successful partial update.  On an existing
    worksheet whose header names the key column and that holds a row for
    the id, the update opens the spreadsheet, looks the worksheet up,
    reads the header row, the key column and the target row, and issues
    one write: the whole target row, at least as wide as the header, the
    cells that the mapping does not name rewritten with what was read. *)
Theorem update_fields_calls (cfg : config) (title : string) (id_value : pyval)
    (updates : pydict) (key_col : string) (s : remote) (k : string) (idx i : nat) :
  updates <> [] ->
  fst (open_spreadsheet cfg s) = Ok (Some k) ->
  is_Some (sheets s !! title) ->
  list_index key_col (Grid.row_values (grid_of s title) 1) = Some idx ->
  strip (py_str id_value) <> "" ->
  first_match (grid_of s title) (idx + 1) (strip (py_str id_value)) i ->
  let g := grid_of s title in
  let hs := Grid.row_values g 1 in
  let new := apply_updates hs updates (padded hs (Grid.row_values g i)) in
  let cs := calls_since s (snd (update_fields cfg title id_value updates key_col s)) in
  cs = [OpenByKey k; Worksheet title; RowValues title 1; ColValues title (idx + 1);
        RowValues title i; Update title i new] /\
  count_calls is_write cs = 1 /\
  length hs <= length new /\
  (forall j, (forall f v, (f, v) ∈ updates -> list_index f hs <> Some j) ->
     default "" (new !! j) = Grid.cell g i (S j)).
Proof.
  intros Hups Hopen [g0 Hs] Hidx Hid Hfirst g hs new cs.
  assert (Hg : g = g0) by (unfold g, grid_of; by rewrite Hs).
  pose proof (first_match_scan g (idx + 1) _ i Hid Hfirst) as Hscan.
  assert (Hcs : cs = [OpenByKey k; Worksheet title; RowValues title 1;
                      ColValues title (idx + 1); RowValues title i; Update title i new]).
  { unfold cs. fold g hs in Hidx. unfold hs in Hidx. rewrite Hg in Hidx, Hscan.
    rewrite (update_fields_hit_run cfg title id_value updates key_col s k g0 idx i
               Hups Hopen Hs Hidx Hscan).
    cbn [snd]. rewrite calls_since_app. unfold new, hs. by rewrite Hg. }
  split; [exact Hcs|]. split; [by rewrite Hcs|]. split.
  - unfold new. rewrite apply_updates_length. apply padded_length.
  - intros j Hnone. unfold new. rewrite apply_updates_untouched by done.
    rewrite padded_lookup, row_values_cell. reflexivity.
Qed.

End StoreProperties.

(** * Concrete runs *)

Import Examples.

Lemma cfg_on_opens (s : remote) :
  fst (_open_spreadsheet parse_any well_formed accept_all cfg_on s) = Ok (Some "sheet-1").
Proof. reflexivity. Qed.

(** ** Counterexamples *)

(** C1, counterexample: row 2 carries the key A1 and is the first match;
    after the upsert of a record that lists two fields, its third cell
    still holds its former value, so the row is not the projection of the
    record. *)
Lemma upsert_keeps_cells_beyond_headers :
  let r := upsert_sheet_row parse_any well_formed accept_all cfg_on web jose "ID_RESERVA" None
             bookings_wide in
  fst r = Ok true /\
  projection jose (effective_headers jose None) = ["A1"; "Jose"] /\
  Grid.row (grid_of (snd r) web) 2 = ["A1"; "Jose"; "vip"] /\
  Grid.cell (grid_of (snd r) web) 2 3 = "vip" /\
  bool_decide (Grid.row (grid_of (snd r) web) 2
               = projection jose (effective_headers jose None)) = false.
Proof. vm_compute. repeat split. Qed.

(** C3, counterexample: rows 2 and 3 both carry the id A1; the update of
    the field NAME rewrites row 2 only, and row 3, whose key cell matches
    the id as well, keeps its name. *)
Lemma update_fields_skips_later_match :
  let r := update_sheet_fields_by_id parse_any well_formed accept_all cfg_on web (PyStr "A1")
             [("NAME", PyStr "X")] "ID_RESERVA" bookings_twice in
  fst r = Ok true /\
  strip (Grid.cell (grid_of bookings_twice web) 3 1) = strip "A1" /\
  grid_of (snd r) web = [["ID_RESERVA"; "NAME"]; ["A1"; "X"]; ["A1"; "Ana"]] /\
  Grid.cell (grid_of (snd r) web) 3 2 = "Ana" /\
  bool_decide (Grid.cell (grid_of (snd r) web) 3 2 = update_str (PyStr "X")) = false.
Proof. vm_compute. repeat split. Qed.

(** C8, counterexample: when the environment and the secret store both
    supply service-account credentials, the credentials resolved are the
    secret store's.  First a [gcp_service_account] table is used, not
    the environment's document.  Then, without a table, the environment
    and the secret store both hold a document under
    [GOOGLE_SERVICE_ACCOUNT_JSON]: a lookup returns the environment's,
    but reading the secret store has replaced it by the time the
    credentials are resolved, and the secret store's is parsed. *)
Lemma credentials_from_secret_store_first :
  let env_doc := PyDict [("client_email", "env@example")] in
  let secret_doc := PyDict [("client_email", "secret@example")] in
  let cfg := Config {[ "GOOGLE_SERVICE_ACCOUNT_JSON" := "env document" ]}
                    (StSecrets {[ "gcp_service_account" := secret_doc ]}) true in
  let json_loads := fun raw : string => Some env_doc in
  let cfg2 := Config {[ "GOOGLE_SERVICE_ACCOUNT_JSON" := "env document" ]}
                     (StSecrets {[ "GOOGLE_SERVICE_ACCOUNT_JSON" := PyStr "secret document" ]})
                     true in
  let json_loads2 := fun raw : string => Some (PyDict [("document", raw)]) in
  environ cfg !! "GOOGLE_SERVICE_ACCOUNT_JSON" = Some "env document" /\
  json_loads "env document" = Some env_doc /\
  _service_account_info json_loads cfg = secret_doc /\
  bool_decide (_service_account_info json_loads cfg = env_doc) = false /\
  _secret_get cfg2 "GOOGLE_SERVICE_ACCOUNT_JSON" PyNone = PyStr "env document" /\
  _service_account_info json_loads2 cfg2 = PyDict [("document", "secret document")] /\
  bool_decide (_service_account_info json_loads2 cfg2
               = PyDict [("document", "env document")]) = false.
Proof. vm_compute. repeat split. Qed.

(** C9, counterexample: the worksheet does not exist and headers are
    given; ensuring it issues two reads and two writes. *)
Lemma ensure_worksheet_four_calls :
  let s := Remote ∅ [] in
  let cs := calls_since s (snd (_ensure_worksheet web (Some ["ID_RESERVA"; "NAME"]) s)) in
  cs = [Worksheet web; AddWorksheet web 1000 26; RowValues web 1;
        Update web 1 ["ID_RESERVA"; "NAME"]] /\
  count_calls is_read cs = 2 /\ count_calls is_write cs = 2.
Proof. vm_compute. repeat split. Qed.


(** C10, counterexample: under a key column whose name is the empty
    string, a record keyed [" K1 "] upserted into a document without
    worksheets lands on row 1; the later upsert of the record keyed
    ["K1"] scans from row 2, finds no row and appends: the row that
    stores [" K1 "] is not replaced. *)
Lemma upsert_unnamed_key_not_replaced :
  let spaced := [("", PyStr " K1 ")] in
  let trimmed := [("", PyStr "K1")] in
  let s1 := snd (upsert_sheet_row parse_any well_formed accept_all cfg_on web spaced ""
                   None empty_doc) in
  let r2 := upsert_sheet_row parse_any well_formed accept_all cfg_on web trimmed "" None s1 in
  record_key spaced "" = "K1" /\
  grid_of s1 web = [[" K1 "]] /\
  fst r2 = Ok true /\
  grid_of (snd r2) web = [[" K1 "]; ["K1"]] /\
  bool_decide (grid_of (snd r2) web = [["K1"]]) = false.
Proof. vm_compute. repeat split. Qed.

(** ** The theorems at concrete inputs *)

Lemma jose_key_not_blank : record_key jose "ID_RESERVA" <> "".
Proof. vm_compute. discriminate. Qed.

Lemma bookings_first_match_A1 : first_match (grid_of bookings web) (0 + 1) "A1" 2.
Proof. apply (bool_decide_unpack _). vm_compute. exact I. Qed.

Lemma bookings_first_match_A2 : first_match (grid_of bookings web) (0 + 1) "A2" 3.
Proof. apply (bool_decide_unpack _). vm_compute. exact I. Qed.

Lemma bookings_at_most_one_A1 : at_most_one_match (grid_of bookings web) (0 + 1) "A1".
Proof. apply (bool_decide_unpack _). vm_compute. exact I. Qed.

(** The first scenario: upserting A1/Jose rewrites row 2 and leaves row 3. *)
Lemma upsert_sheet_row_effect_witness :
  let g := grid_of bookings web in
  let g' := grid_of (snd (upsert_sheet_row parse_any well_formed accept_all cfg_on web jose
                            "ID_RESERVA" None bookings)) web in
  Grid.cell g' 2 2 = "Jose" /\ Grid.cell g' 3 2 = Grid.cell g 3 2.
Proof.
  destruct (upsert_sheet_row_effect parse_any well_formed accept_all cfg_on web jose "ID_RESERVA"
              None bookings "sheet-1" 0 (cfg_on_opens _) eq_refl jose_key_not_blank)
    as (_ & _ & Hm & _).
  destruct (Hm 2 bookings_first_match_A1) as (Hrow & _ & Hothers).
  split.
  - apply (Hrow 2). cbn. lia.
  - apply Hothers; lia.
Defined.


(** The third scenario: updating the name of A2 rewrites that cell only. *)
Lemma update_fields_first_match_effect_witness :
  let r := update_sheet_fields_by_id parse_any well_formed accept_all cfg_on web (PyStr "A2")
             [("NAME", PyStr "Anna"); ("PHONE", PyNone)] "ID_RESERVA" bookings in
  fst r = Ok true /\ Grid.cell (grid_of (snd r) web) 3 2 = "Anna".
Proof.
  assert (Hups : [("NAME", PyStr "Anna"); ("PHONE", PyNone)] <> ([] : pydict))
    by discriminate.
  assert (Hnd : NoDup (dict_keys [("NAME", PyStr "Anna"); ("PHONE", PyNone)])).
  { apply (bool_decide_unpack _). vm_compute. exact I. }
  assert (Hid : strip (py_str (PyStr "A2")) <> "") by (vm_compute; discriminate).
  destruct (update_fields_first_match_effect parse_any well_formed accept_all cfg_on web (PyStr "A2")
              [("NAME", PyStr "Anna"); ("PHONE", PyNone)] "ID_RESERVA" bookings "sheet-1"
              0 3 Hnd (cfg_on_opens _) eq_refl Hid bookings_first_match_A2)
    as (Hok & Hwritten & _).
  split; [exact (Hok Hups)|].
  apply (Hwritten "NAME" (PyStr "Anna") 1); [|reflexivity].
  apply list_elem_of_here.
Defined.

Lemma cfg_on_material :
  credential_material parse_any (config_at_credentials cfg_on) service_key /\
  truthy service_key = true.
Proof.
  split; [|reflexivity].
  apply (material_document parse_any _ "service account key document" service_key).
  - intros secrets v H. discriminate H.
  - reflexivity.
  - discriminate.
  - reflexivity.
Qed.

(** With the four checks passed, a well-formed key and a service that
    opens the spreadsheet, the one exchange is made by the stripped
    identifier. *)
Lemma open_spreadsheet_unavailable_iff_witness :
  _open_spreadsheet parse_any well_formed accept_all cfg_on empty_doc
  = (Ok (Some "sheet-1"), Remote ∅ [OpenByKey "sheet-1"]).
Proof.
  destruct (open_spreadsheet_unavailable_iff parse_any well_formed accept_all cfg_on
              empty_doc) as (_ & _ & _ & Hpass & _).
  destruct (Hpass service_key eq_refl eq_refl eq_refl cfg_on_material) as [_ Hopen].
  exact (Hopen eq_refl).
Defined.

(** A bulk write of a two-row table under three headers: the calls, and
    the rows appended, cell by cell. *)
Lemma write_sheet_df_trace_witness :
  let r := write_sheet_df parse_any well_formed accept_all cfg_on web guests
             (Some ["b"; "c"; "a"]) bookings in
  fst r = Ok true /\
  exists batches,
    calls_since bookings (snd r)
    = [OpenByKey "sheet-1"; Worksheet web; RowValues web 1; Clear web;
       Update web 1 ["b"; "c"; "a"]] ++ map (AppendRows web) batches /\
    concat batches = [[""; ""; "1"]; ["True"; ""; "x"]] /\
    grid_of (snd r) web = fold_left Grid.append_rows batches [["b"; "c"; "a"]].
Proof.
  destruct (write_sheet_df_trace parse_any well_formed accept_all cfg_on web guests
              (Some ["b"; "c"; "a"]) bookings "sheet-1" (cfg_on_opens _))
    as (Hok & (batches & Hcalls & _ & Hcat & Hgrid) & _).
  split; [exact Hok|]. exists batches. split; [exact Hcalls|]. split; [exact Hcat|exact Hgrid].
Defined.

(** Without the enable flag the four operations answer offline. *)
Lemma disabled_operations_are_offline_witness :
  read_sheet_df parse_any well_formed accept_all cfg_off web (Some ["ID_RESERVA"]) bookings
    = (Ok (Frame ["ID_RESERVA"] []), bookings) /\
  write_sheet_df parse_any well_formed accept_all cfg_off web (Frame ["a"] [[PyInt 1]]) None bookings
    = (Ok false, bookings) /\
  upsert_sheet_row parse_any well_formed accept_all cfg_off web jose "ID_RESERVA" None bookings
    = (Ok false, bookings) /\
  update_sheet_fields_by_id parse_any well_formed accept_all cfg_off web (PyStr "A1")
    [("NAME", PyStr "X")] "ID_RESERVA" bookings = (Ok false, bookings).
Proof.
  exact (disabled_operations_are_offline parse_any well_formed accept_all cfg_off web "ID_RESERVA"
           (Some ["ID_RESERVA"]) (Frame ["a"] [[PyInt 1]]) jose [("NAME", PyStr "X")]
           (PyStr "A1") bookings eq_refl).
Defined.

Lemma lee_key_not_blank : record_key lee "ID_RESERVA" <> "".
Proof. vm_compute. discriminate. Qed.

(** A record keyed [" A3 "] is appended with its key as written, and a
    later record keyed ["A3"] replaces that row. *)
Lemma upsert_strips_key_for_lookup_only_witness :
  let s1 := snd (upsert_sheet_row parse_any well_formed accept_all cfg_on web lee "ID_RESERVA"
                   None bookings) in
  let s2 := snd (upsert_sheet_row parse_any well_formed accept_all cfg_on web lee_trimmed
                   "ID_RESERVA" None s1) in
  exists r, 2 <= r /\
    Grid.cell (grid_of s1 web) r 1 = " A3 " /\
    (forall c, 1 <= c <= 2 ->
       Grid.cell (grid_of s2 web) r c
       = default "" (projection lee_trimmed ["ID_RESERVA"; "NAME"] !! pred c)).
Proof.
  assert (Hcol : "ID_RESERVA" <> "") by discriminate.
  destruct (upsert_strips_key_for_lookup_only parse_any well_formed accept_all cfg_on web lee
              lee_trimmed "ID_RESERVA" None bookings "sheet-1" 0 (cfg_on_opens _)
              eq_refl lee_key_not_blank Hcol eq_refl eq_refl)
    as (_ & _ & r & H2 & _ & Hcell & _ & Hrow & _).
  exists r. split; [exact H2|]. split; [exact Hcell|exact Hrow].
Defined.

(** ** The scenarios of the store *)

(** Upserting a record with a new key appends it as the fourth row. *)
Example upsert_new_key_appends :
  grid_of (snd (upsert_sheet_row parse_any well_formed accept_all cfg_on web
                  [("ID_RESERVA", PyStr "A3"); ("NAME", PyStr "Lee")] "ID_RESERVA" None
                  bookings)) web
  = [["ID_RESERVA"; "NAME"]; ["A1"; "Jo"]; ["A2"; "Ana"]; ["A3"; "Lee"]].
Proof. reflexivity. Qed.

(** A record field that holds [None] is written as the text of [None],
    a missing field as the empty string. *)
Example upsert_none_field :
  projection [("ID_RESERVA", PyStr "A1"); ("NAME", PyNone)] ["ID_RESERVA"; "NAME"; "PHONE"]
  = ["A1"; "None"; ""].
Proof. reflexivity. Qed.

(** Updating an id that no row carries returns false and issues reads
    only. *)
Example update_fields_unknown_id :
  update_sheet_fields_by_id parse_any well_formed accept_all cfg_on web (PyStr "Z9")
    [("NAME", PyStr "X")] "ID_RESERVA" bookings
  = (Ok false,
     Remote (sheets bookings)
       [OpenByKey "sheet-1"; Worksheet web; RowValues web 1; ColValues web 1]).
Proof. reflexivity. Qed.

(** Writing a table without rows leaves the header row alone. *)
Example write_empty_table :
  let r := write_sheet_df parse_any well_formed accept_all cfg_on web (Frame ["a"; "b"] []) None
             bookings in
  fst r = Ok true /\ grid_of (snd r) web = [["a"; "b"]].
Proof. vm_compute. repeat split. Qed.

(** With the checks passed and a service that refuses the spreadsheet,
    opening raises. *)
Example open_spreadsheet_rejected :
  fst (_open_spreadsheet parse_any well_formed (fun _ _ => false) cfg_on (Remote ∅ [])) = Exn.
Proof. reflexivity. Qed.

(** A credential document that does not parse leaves the store
    unavailable. *)
Example open_spreadsheet_unparsable :
  _open_spreadsheet (fun _ => None) well_formed accept_all cfg_on (Remote ∅ [])
  = (Ok None, Remote ∅ []).
Proof. reflexivity. Qed.

(** ** The further properties at concrete inputs *)

(** With the flag set and no spreadsheet identifier the four operations
    answer offline. *)
Lemma unavailable_operations_are_offline_witness :
  read_sheet_df parse_any well_formed accept_all cfg_no_id web (Some ["ID_RESERVA"]) bookings
    = (Ok (Frame ["ID_RESERVA"] []), bookings) /\
  write_sheet_df parse_any well_formed accept_all cfg_no_id web guests None bookings
    = (Ok false, bookings) /\
  upsert_sheet_row parse_any well_formed accept_all cfg_no_id web jose "ID_RESERVA" None bookings
    = (Ok false, bookings) /\
  update_sheet_fields_by_id parse_any well_formed accept_all cfg_no_id web (PyStr "A1")
    [("NAME", PyStr "X")] "ID_RESERVA" bookings = (Ok false, bookings).
Proof.
  exact (unavailable_operations_are_offline parse_any well_formed accept_all cfg_no_id web "ID_RESERVA"
           (Some ["ID_RESERVA"]) guests jose [("NAME", PyStr "X")] (PyStr "A1") bookings
           eq_refl).
Defined.

(** With a service that refuses the spreadsheet the upsert raises after
    the one exchange; with a key that credentials cannot be built from
    it raises before any call. *)
Lemma rejected_credentials_propagate_witness :
  upsert_sheet_row parse_any well_formed reject_all cfg_on web jose "ID_RESERVA" None bookings
  = (Exn, Remote (sheets bookings) (calls bookings ++ [OpenByKey "sheet-1"])) /\
  upsert_sheet_row parse_any (fun _ => false) accept_all cfg_on web jose "ID_RESERVA" None
    bookings
  = (Exn, bookings).
Proof.
  split.
  - destruct (rejected_credentials_propagate parse_any well_formed reject_all cfg_on web
                "ID_RESERVA" None guests jose [] (PyStr "A1") bookings eq_refl)
      as (s' & [[Hf _]|(_ & _ & ->)] & _ & _ & H & _).
    + exfalso. revert Hf. vm_compute. discriminate.
    + exact H.
  - destruct (rejected_credentials_propagate parse_any (fun _ => false) accept_all cfg_on
                web "ID_RESERVA" None guests jose [] (PyStr "A1") bookings eq_refl)
      as (s' & [[_ ->]|(Hf & _)] & _ & _ & H & _).
    + exact H.
    + discriminate Hf.
Defined.

Lemma guests_labels_distinct : NoDup (columns guests).
Proof. apply (bool_decide_unpack _). vm_compute. exact I. Qed.

Lemma guests_rectangular : rectangular guests.
Proof. unfold rectangular. cbn. repeat constructor. Qed.

Lemma bca_distinct : NoDup ["b"; "c"; "a"].
Proof. apply (bool_decide_unpack _). vm_compute. exact I. Qed.

(** Normalizing the two-column table against three headers. *)
Lemma normalize_df_shape_witness :
  columns (_normalize_df guests (Some ["b"; "c"; "a"])) = ["b"; "c"; "a"] /\
  length (values (_normalize_df guests (Some ["b"; "c"; "a"]))) = 2.
Proof.
  destruct (normalize_df_shape guests ["b"; "c"; "a"] guests_labels_distinct
              guests_rectangular) as (Hc & Hl & _).
  split; [exact Hc|exact Hl].
Defined.

Lemma normalize_df_idempotent_witness :
  _normalize_df (_normalize_df guests (Some ["b"; "c"; "a"])) (Some ["b"; "c"; "a"])
  = _normalize_df guests (Some ["b"; "c"; "a"]).
Proof.
  exact (normalize_df_idempotent guests ["b"; "c"; "a"] guests_labels_distinct
           guests_rectangular bca_distinct).
Defined.

Lemma guests_rows_not_blank :
  no_blank_row (rows_to_write (_normalize_df guests (Some ["b"; "c"; "a"]))).
Proof. unfold no_blank_row. vm_compute. repeat constructor. Qed.

(** The worksheet that the bulk write of the table leaves. *)
Lemma write_sheet_df_result_witness :
  grid_of (snd (write_sheet_df parse_any well_formed accept_all cfg_on web guests
                  (Some ["b"; "c"; "a"]) bookings)) web
  = [["b"; "c"; "a"]; [""; ""; "1"]; ["True"; ""; "x"]].
Proof.
  exact (write_sheet_df_result parse_any well_formed accept_all cfg_on web guests
           (Some ["b"; "c"; "a"]) bookings "sheet-1" (cfg_on_opens _) eq_refl
           guests_rows_not_blank).
Defined.

(** The bulk write leaves the same worksheet on the bookings and on a
    document without worksheets. *)
Lemma write_sheet_df_full_replace_witness :
  grid_of (snd (write_sheet_df parse_any well_formed accept_all cfg_on web guests None bookings)) web
  = grid_of (snd (write_sheet_df parse_any well_formed accept_all cfg_on web guests None empty_doc)) web.
Proof.
  exact (proj1 (write_sheet_df_full_replace parse_any well_formed accept_all cfg_on web guests None
                  bookings empty_doc "sheet-1" (cfg_on_opens _))).
Defined.

Lemma empty_doc_blank : Forall (fun r => Grid.blank r = true) (grid_of empty_doc web).
Proof. constructor. Qed.

(** Reading a worksheet that does not exist. *)
Lemma read_blank_worksheet_witness :
  fst (read_sheet_df parse_any well_formed accept_all cfg_on web (Some ["ID_RESERVA"; "NAME"]) empty_doc)
  = Ok (Frame ["ID_RESERVA"; "NAME"] []).
Proof.
  exact (proj1 (read_blank_worksheet parse_any well_formed accept_all cfg_on web
                  (Some ["ID_RESERVA"; "NAME"]) empty_doc "sheet-1" (cfg_on_opens _)
                  empty_doc_blank)).
Defined.

Lemma bca_named : "" ∉ ["b"; "c"; "a"].
Proof. apply (bool_decide_unpack _). vm_compute. exact I. Qed.

Lemma guests_strings_not_blank :
  no_blank_row (Pandas.to_string_rows (_normalize_df guests (Some ["b"; "c"; "a"]))).
Proof. unfold no_blank_row. vm_compute. repeat constructor. Qed.

(** The table written is the table read back, as strings. *)
Lemma write_then_read_witness :
  let s1 := snd (write_sheet_df parse_any well_formed accept_all cfg_on web guests
                   (Some ["b"; "c"; "a"]) bookings) in
  fst (read_sheet_df parse_any well_formed accept_all cfg_on web (Some ["b"; "c"; "a"]) s1)
  = Ok (Frame ["b"; "c"; "a"]
          [[PyStr ""; PyStr ""; PyStr "1"]; [PyStr "True"; PyStr ""; PyStr "x"]]).
Proof.
  assert (Hne : ["b"; "c"; "a"] <> ([] : list string)) by discriminate.
  exact (proj1 (write_then_read parse_any well_formed accept_all cfg_on web guests ["b"; "c"; "a"]
                  bookings "sheet-1" (cfg_on_opens _) Hne bca_named bca_distinct
                  guests_labels_distinct guests_rectangular guests_strings_not_blank)).
Defined.

(** A record with a blank key is refused, the bookings staying as they
    are. *)
Lemma upsert_rejected_record_witness :
  let r := upsert_sheet_row parse_any well_formed accept_all cfg_on web nameless "ID_RESERVA" None
             bookings in
  fst r = Ok false /\
  sheets (snd r) !! web = Some [["ID_RESERVA"; "NAME"]; ["A1"; "Jo"]; ["A2"; "Ana"]].
Proof.
  destruct (upsert_rejected_record parse_any well_formed accept_all cfg_on web nameless "ID_RESERVA"
              None bookings "sheet-1" (cfg_on_opens _) (or_introl eq_refl))
    as (Hok & Hlook & _).
  split; [exact Hok|exact Hlook].
Defined.

Lemma id_reserva_named : "ID_RESERVA" <> "".
Proof. discriminate. Qed.

(** Upserting A1/Jose a second time changes nothing. *)
Lemma upsert_idempotent_witness :
  let s1 := snd (upsert_sheet_row parse_any well_formed accept_all cfg_on web jose "ID_RESERVA"
                   None bookings) in
  let r2 := upsert_sheet_row parse_any well_formed accept_all cfg_on web jose "ID_RESERVA" None s1 in
  fst r2 = Ok true /\ sheets (snd r2) = sheets s1.
Proof.
  exact (upsert_idempotent parse_any well_formed accept_all cfg_on web jose "ID_RESERVA" None
           bookings "sheet-1" 0 (cfg_on_opens _) eq_refl jose_key_not_blank
           id_reserva_named).
Defined.

(** The calls of upserting A1/Jose end with a read of the key column and
    one write. *)
Lemma upsert_sheet_row_calls_witness :
  exists w,
    calls_since bookings
      (snd (upsert_sheet_row parse_any well_formed accept_all cfg_on web jose "ID_RESERVA" None
              bookings))
    = [OpenByKey "sheet-1"; Worksheet web; RowValues web 1; ColValues web 1; w].
Proof.
  destruct (upsert_sheet_row_calls parse_any well_formed accept_all cfg_on web jose "ID_RESERVA" None
              bookings "sheet-1" 0 (cfg_on_opens _) eq_refl jose_key_not_blank)
    as ((w & Hcs & _) & _).
  exists w. exact Hcs.
Defined.

Lemma anna_keys_distinct : NoDup (dict_keys [("NAME", PyStr "Anna")]).
Proof. apply (bool_decide_unpack _). vm_compute. exact I. Qed.

Lemma anna_not_empty : [("NAME", PyStr "Anna")] <> ([] : pydict).
Proof. discriminate. Qed.

Lemma anna_keeps_key : "ID_RESERVA" ∉ dict_keys [("NAME", PyStr "Anna")].
Proof. apply (bool_decide_unpack _). vm_compute. exact I. Qed.

Lemma a2_not_blank : strip (py_str (PyStr "A2")) <> "".
Proof. vm_compute. discriminate. Qed.

(** Renaming A2 a second time succeeds and changes no cell. *)
Lemma update_fields_idempotent_witness :
  let s1 := snd (update_sheet_fields_by_id parse_any well_formed accept_all cfg_on web (PyStr "A2")
                   [("NAME", PyStr "Anna")] "ID_RESERVA" bookings) in
  let r2 := update_sheet_fields_by_id parse_any well_formed accept_all cfg_on web (PyStr "A2")
              [("NAME", PyStr "Anna")] "ID_RESERVA" s1 in
  fst r2 = Ok true /\ Grid.cell (grid_of (snd r2) web) 3 2 = Grid.cell (grid_of s1 web) 3 2.
Proof.
  destruct (update_fields_idempotent parse_any well_formed accept_all cfg_on web (PyStr "A2")
              [("NAME", PyStr "Anna")] "ID_RESERVA" bookings "sheet-1" 0 3
              anna_keys_distinct anna_not_empty anna_keeps_key (cfg_on_opens _) eq_refl
              a2_not_blank bookings_first_match_A2)
    as (Hok & _ & _ & Hcells).
  split; [exact Hok|]. apply Hcells; lia.
Defined.

(** The record keyed [" A3 "] is stored, then renamed by the id ["A3"]. *)
Lemma upsert_then_update_fields_witness :
  let s1 := snd (upsert_sheet_row parse_any well_formed accept_all cfg_on web lee "ID_RESERVA" None
                   bookings) in
  fst (update_sheet_fields_by_id parse_any well_formed accept_all cfg_on web (PyStr "A3")
         [("NAME", PyStr "Anna")] "ID_RESERVA" s1) = Ok true.
Proof.
  exact (proj1 (upsert_then_update_fields parse_any well_formed accept_all cfg_on web lee
                  [("NAME", PyStr "Anna")] (PyStr "A3") "ID_RESERVA" None bookings
                  "sheet-1" 0 (cfg_on_opens _) eq_refl lee_key_not_blank id_reserva_named
                  (or_intror eq_refl) anna_keys_distinct anna_not_empty eq_refl)).
Defined.

Lemma cfg_on_enabled : sheets_enabled cfg_on = true.
Proof. reflexivity. Qed.

Lemma hist_table_distinct : NoDup (columns hist_table).
Proof. apply (bool_decide_unpack _). vm_compute. exact I. Qed.

Lemma web_table_distinct : NoDup (columns web_table).
Proof. apply (bool_decide_unpack _). vm_compute. exact I. Qed.

Lemma hist_table_rectangular : rectangular hist_table.
Proof. unfold rectangular. cbn. repeat constructor. Qed.

Lemma web_table_rectangular : rectangular web_table.
Proof. unfold rectangular. cbn. repeat constructor. Qed.

Lemma hist_rows_not_blank : no_blank_row (Pandas.to_string_rows hist_table).
Proof. unfold no_blank_row. vm_compute. repeat constructor. Qed.

Lemma web_rows_not_blank : no_blank_row (Pandas.to_string_rows web_table).
Proof. unfold no_blank_row. vm_compute. repeat constructor. Qed.


(** Reading the bookings twice. *)
Lemma read_sheet_df_repeatable_witness :
  let r1 := read_sheet_df parse_any well_formed accept_all cfg_on web None bookings in
  let r2 := read_sheet_df parse_any well_formed accept_all cfg_on web None (snd r1) in
  fst r2 = fst r1 /\ sheets (snd r2) = sheets (snd r1).
Proof.
  destruct (read_sheet_df_repeatable parse_any well_formed accept_all cfg_on web None bookings
              "sheet-1" (cfg_on_opens _)) as (Hres & Hdoc & _).
  split; [exact Hres|exact Hdoc].
Defined.

Lemma jose_headers_named : "" ∉ effective_headers jose None.
Proof. apply (bool_decide_unpack _). vm_compute. exact I. Qed.

Lemma jose_headers_distinct : NoDup (effective_headers jose None).
Proof. apply (bool_decide_unpack _). vm_compute. exact I. Qed.

(** A1/Jose upserted into a document without worksheets, then read. *)
Lemma upsert_then_read_witness :
  let s1 := snd (upsert_sheet_row parse_any well_formed accept_all cfg_on web jose "ID_RESERVA" None
                   empty_doc) in
  grid_of s1 web = [["ID_RESERVA"; "NAME"]; ["A1"; "Jose"]] /\
  fst (read_sheet_df parse_any well_formed accept_all cfg_on web (Some ["ID_RESERVA"; "NAME"]) s1)
  = Ok (Frame ["ID_RESERVA"; "NAME"] [[PyStr "A1"; PyStr "Jose"]]).
Proof.
  exact (upsert_then_read parse_any well_formed accept_all cfg_on web jose "ID_RESERVA" None
           empty_doc "sheet-1" 0 (cfg_on_opens _) eq_refl eq_refl jose_key_not_blank
           jose_headers_named jose_headers_distinct).
Defined.

(** The calls of writing the two-row table over the bookings: one batch. *)
Lemma write_sheet_df_batches_witness :
  calls_since bookings
    (snd (write_sheet_df parse_any well_formed accept_all cfg_on web guests (Some ["b"; "c"; "a"])
            bookings))
  = [OpenByKey "sheet-1"; Worksheet web; RowValues web 1; Clear web;
     Update web 1 ["b"; "c"; "a"];
     AppendRows web [[""; ""; "1"]; ["True"; ""; "x"]]].
Proof.
  exact (proj1 (write_sheet_df_batches parse_any well_formed accept_all cfg_on web guests
                  (Some ["b"; "c"; "a"]) bookings "sheet-1" (cfg_on_opens _))).
Defined.

Lemma bookings_has_web : is_Some (sheets bookings !! web).
Proof. by eexists. Qed.

(** The calls of renaming A2: the opening, four reads and one write of
    row 3. *)
Lemma update_fields_calls_witness :
  let cs := calls_since bookings
              (snd (update_sheet_fields_by_id parse_any well_formed accept_all cfg_on web (PyStr "A2")
                      [("NAME", PyStr "Anna")] "ID_RESERVA" bookings)) in
  cs = [OpenByKey "sheet-1"; Worksheet web; RowValues web 1; ColValues web 1;
        RowValues web 3; Update web 3 ["A2"; "Anna"]] /\
  count_calls is_write cs = 1.
Proof.
  destruct (update_fields_calls parse_any well_formed accept_all cfg_on web (PyStr "A2")
              [("NAME", PyStr "Anna")] "ID_RESERVA" bookings "sheet-1" 0 3
              anna_not_empty (cfg_on_opens _) bookings_has_web eq_refl a2_not_blank
              bookings_first_match_A2) as (Hcs & Hcount & _).
  split; [exact Hcs|exact Hcount].
Defined.
